(** * Attendance summary engine: a shallow embedding of the JavaScript sources

    The development follows the source files
    - [src/utils/constants.js]          (code registry, month table),
    - [src/services/excelService.js], from line 429 on: the attendance
      service (summary engine, calendar helper, record mutators,
      validation, filtering), and the rows of the exported sheet,
    - [src/utils/calculations.js]       (consecutive absences, range and
      weekly summaries, trend, patterns),
    - the [useExcelData] hook           (roster and selection updates).

    Modelling conventions.
    - A JavaScript string is a [string]; the model is exact on the ASCII
      repertoire, on which [String.prototype.toUpperCase] maps [a-z] to
      [A-Z] and fixes everything else.
    - An attendance object [{ 1: 'P', 2: 'A', ... }] is a [gmap Z string]:
      property keys are the decimal renderings of integers, a missing key
      reads [undefined] ([None]).
    - Numbers that are only ever incremented by one are integers ([Z]);
      [totalPresent], which also receives [+= 0.5], is a rational ([Q]).
      Doubles are exact on multiples of one half in this range.
    - An uncaught [TypeError] is the [TypeError] constructor of [result].
    - Dates are read on a host whose local time zone is UTC ([JSDate]).
      [Host] gives the calendar helper in any time zone; the two agree
      wherever the zone moves no local midnight of the month to another
      calendar day. *)

From Stdlib Require Import ZArith QArith Qround Ascii String List Lia.
From stdpp Require Import gmap strings list fin_maps sorting pretty.

Local Open Scope string_scope.
Local Open Scope Z_scope.

(** ** JavaScript string primitives *)

Module JS.

(** [c.toUpperCase()] on one ASCII code unit. *)
Definition upcase_char (c : ascii) : ascii :=
  let n := N_of_ascii c in
  if ((97 <=? n) && (n <=? 122))%N then ascii_of_N (n - 32) else c.

(** [s.toUpperCase()]. *)
Fixpoint toUpperCase (s : string) : string :=
  match s with
  | EmptyString => EmptyString
  | String c s' => String (upcase_char c) (toUpperCase s')
  end.

(** Truthiness of a string value: only the empty string is falsy. *)
Definition truthy (s : string) : bool := negb (String.eqb s "").

(** Truthiness of [obj[key]] when the property may be missing. *)
Definition truthy_opt (o : option string) : bool :=
  match o with
  | Some s => truthy s
  | None => false
  end.

(** [c] is an ASCII lower-case letter. *)
Definition is_lower (c : ascii) : bool :=
  let n := N_of_ascii c in ((97 <=? n) && (n <=? 122))%N.

Fixpoint has_lower (s : string) : bool :=
  match s with
  | EmptyString => false
  | String c s' => is_lower c || has_lower s'
  end.

(** Property names every object literal inherits from [Object.prototype];
    a lookup [obj[name]] on one of them yields a function (or, for
    [__proto__], the prototype object), which is truthy. *)
Definition object_prototype_names : list string :=
  [ "constructor"; "hasOwnProperty"; "isPrototypeOf"; "propertyIsEnumerable";
    "toLocaleString"; "toString"; "valueOf"; "__proto__";
    "__defineGetter__"; "__defineSetter__"; "__lookupGetter__";
    "__lookupSetter__" ].

Definition inherited (name : string) : bool :=
  existsb (String.eqb name) object_prototype_names.

(** Outcome of a call that may throw. *)
Inductive result (A : Type) : Type :=
  | Ok (a : A)
  | TypeError.
Arguments Ok {A} a.
Arguments TypeError {A}.

Definition bind {A B} (r : result A) (k : A -> result B) : result B :=
  match r with
  | Ok a => k a
  | TypeError => TypeError
  end.

Definition fmap_result {A B} (f : A -> B) (r : result A) : result B :=
  bind r (fun a => Ok (f a)).

End JS.

Import JS.

(** ** [src/utils/constants.js] *)

(** Own keys of [ATTENDANCE_CODES]. *)
Definition ATTENDANCE_CODES_keys : list string :=
  [ "P"; "A"; "O"; "S"; "H"; "N"; "L"; "HD"; "WFH" ].

(** Truthiness of [ATTENDANCE_CODES[key]]: own entries are objects, and the
    lookup also walks the prototype chain. *)
Definition ATTENDANCE_CODES_has (key : string) : bool :=
  existsb (String.eqb key) ATTENDANCE_CODES_keys || inherited key.

(** [normalizeAttendanceCode], parameterised by the upper-casing primitive. *)
Definition normalizeAttendanceCode_with (upper : string -> string)
    (code : string) : string :=
  if negb (truthy code) then ""
  else
    let upperCode := upper code in
    if String.eqb upperCode "A" then "A"
    else if ATTENDANCE_CODES_has upperCode then upperCode
    else "".

Definition normalizeAttendanceCode (code : string) : string :=
  normalizeAttendanceCode_with toUpperCase code.

(** The [MONTHS] table: [value] and [days] of each entry. *)
Definition MONTHS : list (string * Z) :=
  [ ("Jan", 31); ("Feb", 28); ("Mar", 31); ("Apr", 30); ("May", 31);
    ("Jun", 30); ("Jul", 31); ("Aug", 31); ("Sep", 30); ("Oct", 31);
    ("Nov", 30); ("Dec", 31) ].

(** [arr.findIndex(pred)]: index of the first match, [-1] when none. *)
Fixpoint findIndex_from {A} (pred : A -> bool) (l : list A) (i : Z) : Z :=
  match l with
  | [] => -1
  | x :: l' => if pred x then i else findIndex_from pred l' (i + 1)
  end.

Definition findIndex {A} (pred : A -> bool) (l : list A) : Z :=
  findIndex_from pred l 0.

(** [arr[i]] for a number [i]: [undefined] outside the array. *)
Definition array_get {A} (l : list A) (i : Z) : option A :=
  if i <? 0 then None else l !! Z.to_nat i.

(** [getDaysInMonth]; [%] is the truncating remainder. *)
Definition getDaysInMonth (month : string) (year : Z) : Z :=
  let monthIndex := findIndex (fun m => String.eqb (fst m) month) MONTHS in
  if monthIndex =? 1 then
    if ((Z.rem year 4 =? 0) && negb (Z.rem year 100 =? 0))
       || (Z.rem year 400 =? 0)
    then 29 else 28
  else
    match array_get MONTHS monthIndex with
    | Some m => if snd m =? 0 then 31 else snd m
    | None => 31
    end.

(** ** The [Date] primitives used by the calendar helper

    The day arithmetic of ECMAScript's [MakeDay], [WeekDay] and [TimeClip],
    read in a host whose local time zone is UTC.  [Host], further down,
    reads them in any time zone; the two agree wherever the zone moves no
    local midnight to another calendar day. *)

Module JSDate.

Definition DayFromYear (y : Z) : Z :=
  365 * (y - 1970) + (y - 1969) / 4 - (y - 1901) / 100 + (y - 1601) / 400.

Definition InLeapYear (y : Z) : bool :=
  ((y mod 4 =? 0) && negb (y mod 100 =? 0)) || (y mod 400 =? 0).

(** Day within a common year at which each month starts. *)
Definition month_start : list Z :=
  [0; 31; 59; 90; 120; 151; 181; 212; 243; 273; 304; 334].

Definition MakeDay (year month date : Z) : Z :=
  let ym := year + month / 12 in
  let mn := month mod 12 in
  DayFromYear ym + nth (Z.to_nat mn) month_start 0
  + (if InLeapYear ym && (2 <=? mn) then 1 else 0)
  + date - 1.

Definition WeekDay (day : Z) : Z := (day + 4) mod 7.

(** [new Date(year, monthIndex, day).getDay()]; [None] is the [NaN] of an
    invalid date.  Years 0..99 denote 1900..1999, and a date further than
    10^8 days from the epoch is invalid. *)
Definition getDay (year monthIndex day : Z) : option Z :=
  let yr := if (0 <=? year) && (year <=? 99) then 1900 + year else year in
  let d := MakeDay yr monthIndex day in
  if Z.abs d <=? 100000000 then Some (WeekDay d) else None.

End JSDate.

(** ** The attendance service: calendar helper *)

(** The days visited by [for (let day = 1; day <= daysInMonth; day++)]. *)
Definition days_of_loop (daysInMonth : Z) : list Z := seqZ 1 daysInMonth.

(** [arr.indexOf(x)] on an array of strings. *)
Definition indexOf (l : list string) (x : string) : Z :=
  findIndex (String.eqb x) l.

Definition month_names : list string :=
  [ "Jan"; "Feb"; "Mar"; "Apr"; "May"; "Jun";
    "Jul"; "Aug"; "Sep"; "Oct"; "Nov"; "Dec" ].

(** [getSundaysInMonth]. *)
Definition getSundaysInMonth (month : string) (year : Z) : list Z :=
  let monthIndex := indexOf month_names month in
  let daysInMonth := getDaysInMonth month year in
  foldl (fun sundays day =>
           match JSDate.getDay year monthIndex day with
           | Some 0 => (sundays ++ [day])%list
           | _ => sundays
           end)
        [] (days_of_loop daysInMonth).

(** ** The calendar helper in the host's time zone

    [new Date(year, monthIndex, day)] is midnight of that calendar day in
    the host's local time, and [getDay] reads the weekday of that instant
    in local time again.  The two conversions need not undo each other:
    where the zone skipped a local midnight, the instant lies on another
    local day. *)

Module Host.

Definition msPerDay : Z := 86400000.

(** The local time zone adjustment of the host, in milliseconds: the
    offset of local time at a UTC instant, and the offset by which a
    local time is read (for a local time that was skipped or repeated,
    the one the host settles on). *)
Record TimeZone : Type := mkTimeZone {
  LocalTZA_utc : Z -> Z;
  LocalTZA_local : Z -> Z
}.

Definition LocalTime (tz : TimeZone) (t : Z) : Z := t + LocalTZA_utc tz t.

Definition UTC (tz : TimeZone) (t : Z) : Z := t - LocalTZA_local tz t.

Definition Day (t : Z) : Z := t / msPerDay.

Definition MakeDate (day time : Z) : Z := day * msPerDay + time.

(** [None] is [NaN]. *)
Definition TimeClip (t : Z) : option Z :=
  if Z.abs t <=? 8640000000000000 then Some t else None.

(** Local midnight of [new Date(year, monthIndex, day)], as a local time
    value; years 0..99 denote 1900..1999. *)
Definition midnight (year monthIndex day : Z) : Z :=
  let yr := if (0 <=? year) && (year <=? 99) then 1900 + year else year in
  MakeDate (JSDate.MakeDay yr monthIndex day) 0.

(** [new Date(year, monthIndex, day).getDay()]. *)
Definition getDay (tz : TimeZone) (year monthIndex day : Z) : option Z :=
  match TimeClip (UTC tz (midnight year monthIndex day)) with
  | Some tv => Some (JSDate.WeekDay (Day (LocalTime tz tv)))
  | None => None
  end.

(** [getSundaysInMonth]. *)
Definition getSundaysInMonth (tz : TimeZone) (month : string) (year : Z)
    : list Z :=
  let monthIndex := indexOf month_names month in
  let daysInMonth := getDaysInMonth month year in
  foldl (fun sundays day =>
           match getDay tz year monthIndex day with
           | Some 0 => (sundays ++ [day])%list
           | _ => sundays
           end)
        [] (days_of_loop daysInMonth).

End Host.

(** What [holidays[month] || []] evaluates to: an array of day numbers, or
    a value inherited from [Object.prototype], which has neither
    [includes] nor [forEach]. *)
Inductive holidays_value : Type :=
  | HolidayArray (days : list Z)
  | NotAnArray.

Definition holidays_table : list (string * list Z) :=
  [ ("Jan", [1; 26]); ("Feb", []); ("Mar", [21]); ("Apr", [14]);
    ("May", [1]); ("Jun", []); ("Jul", []); ("Aug", [15]); ("Sep", []);
    ("Oct", [2; 24]); ("Nov", [12]); ("Dec", [25]) ].

Fixpoint own_property {A} (table : list (string * A)) (key : string)
    : option A :=
  match table with
  | [] => None
  | (k, v) :: table' => if String.eqb k key then Some v
                        else own_property table' key
  end.

(** [getHolidaysInMonth]; the year is not consulted. *)
Definition getHolidaysInMonth (month : string) (year : Z) : holidays_value :=
  match own_property holidays_table month with
  | Some days => HolidayArray days
  | None => if inherited month then NotAnArray else HolidayArray []
  end.

(** [arr.includes(day)] on an array of day numbers. *)
Definition includes (l : list Z) (day : Z) : bool :=
  existsb (Z.eqb day) l.

(** [holidays.includes(day)], which throws when [holidays] is no array. *)
Definition holidays_includes (h : holidays_value) (day : Z) : result bool :=
  match h with
  | HolidayArray l => Ok (includes l day)
  | NotAnArray => TypeError
  end.

(** ** The attendance service: summary engine *)

Record Summaries : Type := mkSummaries {
  totalPresent : Q;
  totalOff : Z;
  totalSundays : Z;
  totalHolidays : Z;
  totalNightShift : Z;
  totalHolyDayWorking : Z;
  totalOffDayWorking : Z;
  totalAbsent : Z;
  totalOnLeave : Z;
  totalWorkingDays : Z
}.

(** The object literal [calculateSummaries] starts from, which is also
    [DEFAULT_EMPLOYEE.summaries]. *)
Definition zero_summaries : Summaries :=
  mkSummaries 0 0 0 0 0 0 0 0 0 0.

Definition add_totalPresent (q : Q) (s : Summaries) : Summaries :=
  mkSummaries (totalPresent s + q) (totalOff s) (totalSundays s)
    (totalHolidays s) (totalNightShift s) (totalHolyDayWorking s)
    (totalOffDayWorking s) (totalAbsent s) (totalOnLeave s)
    (totalWorkingDays s).

Definition incr_totalOff (s : Summaries) : Summaries :=
  mkSummaries (totalPresent s) (totalOff s + 1) (totalSundays s)
    (totalHolidays s) (totalNightShift s) (totalHolyDayWorking s)
    (totalOffDayWorking s) (totalAbsent s) (totalOnLeave s)
    (totalWorkingDays s).

Definition incr_totalSundays (s : Summaries) : Summaries :=
  mkSummaries (totalPresent s) (totalOff s) (totalSundays s + 1)
    (totalHolidays s) (totalNightShift s) (totalHolyDayWorking s)
    (totalOffDayWorking s) (totalAbsent s) (totalOnLeave s)
    (totalWorkingDays s).

Definition incr_totalHolidays (s : Summaries) : Summaries :=
  mkSummaries (totalPresent s) (totalOff s) (totalSundays s)
    (totalHolidays s + 1) (totalNightShift s) (totalHolyDayWorking s)
    (totalOffDayWorking s) (totalAbsent s) (totalOnLeave s)
    (totalWorkingDays s).

Definition incr_totalNightShift (s : Summaries) : Summaries :=
  mkSummaries (totalPresent s) (totalOff s) (totalSundays s)
    (totalHolidays s) (totalNightShift s + 1) (totalHolyDayWorking s)
    (totalOffDayWorking s) (totalAbsent s) (totalOnLeave s)
    (totalWorkingDays s).

Definition incr_totalHolyDayWorking (s : Summaries) : Summaries :=
  mkSummaries (totalPresent s) (totalOff s) (totalSundays s)
    (totalHolidays s) (totalNightShift s) (totalHolyDayWorking s + 1)
    (totalOffDayWorking s) (totalAbsent s) (totalOnLeave s)
    (totalWorkingDays s).

Definition incr_totalOffDayWorking (s : Summaries) : Summaries :=
  mkSummaries (totalPresent s) (totalOff s) (totalSundays s)
    (totalHolidays s) (totalNightShift s) (totalHolyDayWorking s)
    (totalOffDayWorking s + 1) (totalAbsent s) (totalOnLeave s)
    (totalWorkingDays s).

Definition incr_totalAbsent (s : Summaries) : Summaries :=
  mkSummaries (totalPresent s) (totalOff s) (totalSundays s)
    (totalHolidays s) (totalNightShift s) (totalHolyDayWorking s)
    (totalOffDayWorking s) (totalAbsent s + 1) (totalOnLeave s)
    (totalWorkingDays s).

Definition incr_totalOnLeave (s : Summaries) : Summaries :=
  mkSummaries (totalPresent s) (totalOff s) (totalSundays s)
    (totalHolidays s) (totalNightShift s) (totalHolyDayWorking s)
    (totalOffDayWorking s) (totalAbsent s) (totalOnLeave s + 1)
    (totalWorkingDays s).

(** The argument of [Math.floor] in the working-days assignment. *)
Definition working_days_sum (s : Summaries) : Q :=
  (totalPresent s
   + inject_Z (totalOff s)
   + inject_Z (totalSundays s)
   + inject_Z (totalHolidays s)
   + inject_Z (totalNightShift s)
   + inject_Z (totalHolyDayWorking s) * 2
   + inject_Z (totalOffDayWorking s) * (1 # 2))%Q.

(** [summaries.totalWorkingDays = Math.floor(...)]. *)
Definition set_totalWorkingDays (s : Summaries) : Summaries :=
  mkSummaries (totalPresent s) (totalOff s) (totalSundays s)
    (totalHolidays s) (totalNightShift s) (totalHolyDayWorking s)
    (totalOffDayWorking s) (totalAbsent s) (totalOnLeave s)
    (Qfloor (working_days_sum s)).

(** [summaries.totalPresent = Math.floor(summaries.totalPresent)]. *)
Definition floor_totalPresent (s : Summaries) : Summaries :=
  mkSummaries (inject_Z (Qfloor (totalPresent s))) (totalOff s)
    (totalSundays s) (totalHolidays s) (totalNightShift s)
    (totalHolyDayWorking s) (totalOffDayWorking s) (totalAbsent s)
    (totalOnLeave s) (totalWorkingDays s).

(** The [switch (upperCode)] of the first pass. *)
Definition count_code (upperCode : string) (s : Summaries) : Summaries :=
  if String.eqb upperCode "P" then add_totalPresent 1 s
  else if String.eqb upperCode "A" then incr_totalAbsent s
  else if String.eqb upperCode "O" then incr_totalOff s
  else if String.eqb upperCode "S" then incr_totalSundays s
  else if String.eqb upperCode "H" then incr_totalHolidays s
  else if String.eqb upperCode "N" then incr_totalNightShift s
  else if String.eqb upperCode "L" then incr_totalOnLeave s
  else if String.eqb upperCode "WFH" then add_totalPresent 1 s
  else if String.eqb upperCode "HD" then add_totalPresent (1 # 2) s
  else s.

(** Body of the first loop. *)
Definition pass1_body (attendance : gmap Z string) (s : Summaries)
    (day : Z) : Summaries :=
  match attendance !! day with
  | None => s
  | Some code =>
      if negb (truthy code) then s
      else count_code (toUpperCase code) s
  end.

(** [upperCode === 'P' || upperCode === 'N' || upperCode === 'WFH']. *)
Definition is_working (upperCode : string) : bool :=
  String.eqb upperCode "P" || String.eqb upperCode "N"
  || String.eqb upperCode "WFH".

(** [attendance[day - 1]?.toUpperCase() === 'O']. *)
Definition prev_is_off (attendance : gmap Z string) (day : Z) : bool :=
  match toUpperCase <$> attendance !! (day - 1) with
  | Some prevDayCode => String.eqb prevDayCode "O"
  | None => false
  end.

(** Body of the second loop. *)
Definition pass2_body (attendance : gmap Z string) (sundays : list Z)
    (holidays : holidays_value) (s : Summaries) (day : Z)
    : result Summaries :=
  match attendance !! day with
  | None => Ok s
  | Some code =>
      if negb (truthy code) then Ok s
      else
        let upperCode := toUpperCase code in
        bind (if includes sundays day then Ok true
              else holidays_includes holidays day)
          (fun holy =>
             let s1 := if holy && is_working upperCode
                       then incr_totalHolyDayWorking s else s in
             Ok (if (1 <? day) && prev_is_off attendance day
                    && is_working upperCode
                 then incr_totalOffDayWorking s1 else s1))
  end.

(** A [for] loop whose body may throw. *)
Fixpoint for_each {St} (body : St -> Z -> result St) (days : list Z)
    (s : St) : result St :=
  match days with
  | [] => Ok s
  | day :: days' => bind (body s day) (for_each body days')
  end.

(** [calculateSummaries]. *)
Definition calculateSummaries (attendance : gmap Z string) (month : string)
    (year : Z) : result Summaries :=
  let daysInMonth := getDaysInMonth month year in
  let sundays := getSundaysInMonth month year in
  let holidays := getHolidaysInMonth month year in
  let s1 := foldl (pass1_body attendance) zero_summaries
                  (days_of_loop daysInMonth) in
  bind (for_each (pass2_body attendance sundays holidays)
                 (days_of_loop daysInMonth) s1)
    (fun s2 => Ok (floor_totalPresent (set_totalWorkingDays s2))).

(** ** The attendance service: record mutators

    An employee record holds its attendance by reference: the object spread
    [{ ...employee }] copies the reference, not the attendance object.  The
    store maps each attendance object to its current contents.  The record
    itself is a value: no mutator assigns to a field of the record it
    receives, only to fields of the copy.  [summaries] objects are never
    updated in place, so they are values too. *)

Definition loc : Type := positive.

Record Employee : Type := mkEmployee {
  slNo : Z;
  empId : string;
  employeeName : string;
  month : string;
  attendance : loc;
  summaries : Summaries
}.

(** [updatedEmployee.summaries = s]. *)
Definition set_summaries (e : Employee) (s : Summaries) : Employee :=
  mkEmployee (slNo e) (empId e) (employeeName e) (month e) (attendance e) s.

(** Contents of the attendance object at [l].  Every record in use points
    to an allocated object; a reference to none reads as the empty
    object. *)
Definition read_object (h : gmap loc (gmap Z string)) (l : loc)
    : gmap Z string :=
  default ∅ (h !! l).

(** [obj[day] = code] on the object at [l]. *)
Definition write_property (h : gmap loc (gmap Z string)) (l : loc) (day : Z)
    (code : string) : gmap loc (gmap Z string) :=
  <[l := <[day := code]> (read_object h l)]> h.

(** [delete obj[day]] on the object at [l]. *)
Definition delete_property (h : gmap loc (gmap Z string)) (l : loc)
    (day : Z) : gmap loc (gmap Z string) :=
  <[l := delete day (read_object h l)]> h.

(** The statement shared by [updateEmployeeAttendance] and the callback of
    [bulkUpdateAttendance]: store the upper-cased code, or delete the key
    when the code is falsy. *)
Definition assign_day (h : gmap loc (gmap Z string)) (l : loc) (day : Z)
    (code : string) : gmap loc (gmap Z string) :=
  if truthy code then write_property h l day (toUpperCase code)
  else delete_property h l day.

(** The tail shared by the mutators: recompute the summaries from the
    attendance reachable from the copy and return the copy. *)
Definition recalculate (h : gmap loc (gmap Z string))
    (updatedEmployee : Employee) (month : string) (year : Z)
    : result Employee :=
  fmap_result (set_summaries updatedEmployee)
    (calculateSummaries (read_object h (attendance updatedEmployee))
                        month year).

(** [updateEmployeeAttendance]: the final store and the returned record. *)
Definition updateEmployeeAttendance (h : gmap loc (gmap Z string))
    (employee : Employee) (day : Z) (code : string) (month : string)
    (year : Z) : gmap loc (gmap Z string) * result Employee :=
  let updatedEmployee := employee in
  let h' := assign_day h (attendance updatedEmployee) day code in
  (h', recalculate h' updatedEmployee month year).

(** [bulkUpdateAttendance]; [updates] is the sequence [Object.entries]
    yields, each key already read by [parseInt]. *)
Definition bulkUpdateAttendance (h : gmap loc (gmap Z string))
    (employee : Employee) (updates : list (Z * string)) (month : string)
    (year : Z) : gmap loc (gmap Z string) * result Employee :=
  let updatedEmployee := employee in
  let h' := foldl (fun h0 '(day, code) =>
                     assign_day h0 (attendance updatedEmployee) day code)
                  h updates in
  (h', recalculate h' updatedEmployee month year).

(** The callback of [markWeekends] and [markHolidays]:
    [if (!attendance[day]) attendance[day] = code]. *)
Definition fill_day (l : loc) (code : string)
    (h : gmap loc (gmap Z string)) (day : Z) : gmap loc (gmap Z string) :=
  if negb (truthy_opt (read_object h l !! day))
  then write_property h l day code
  else h.

(** [markWeekends]; the caller passes ["S"] for the default [code]. *)
Definition markWeekends (h : gmap loc (gmap Z string)) (employee : Employee)
    (month : string) (year : Z) (code : string)
    : gmap loc (gmap Z string) * result Employee :=
  let updatedEmployee := employee in
  let sundays := getSundaysInMonth month year in
  let h' := foldl (fill_day (attendance updatedEmployee) code) h sundays in
  (h', recalculate h' updatedEmployee month year).

(** [markHolidays]; the caller passes ["H"] for the default [code].
    [holidays.forEach] throws when [holidays] is no array. *)
Definition markHolidays (h : gmap loc (gmap Z string)) (employee : Employee)
    (month : string) (year : Z) (code : string)
    : gmap loc (gmap Z string) * result Employee :=
  let updatedEmployee := employee in
  match getHolidaysInMonth month year with
  | NotAnArray => (h, TypeError)
  | HolidayArray holidays =>
      let h' := foldl (fill_day (attendance updatedEmployee) code)
                      h holidays in
      (h', recalculate h' updatedEmployee month year)
  end.

(** [clearAttendance]: the literal [{}] is a new object. *)
Definition clearAttendance (h : gmap loc (gmap Z string))
    (employee : Employee) : gmap loc (gmap Z string) * Employee :=
  let l := fresh (dom h) in
  (<[l := ∅]> h,
   mkEmployee (slNo employee) (empId employee) (employeeName employee)
              (month employee) l zero_summaries).

(** What a holder of [employee] observes: the fields of the record and the
    contents of its attendance mapping. *)
Definition observe (h : gmap loc (gmap Z string)) (employee : Employee)
    : Employee * gmap Z string :=
  (employee, read_object h (attendance employee)).

(** ** [src/utils/calculations.js]: consecutive absences *)

Record Instance : Type := mkInstance {
  start : Z;
  end_ : Z;
  count : Z
}.

(** The four variables the [forEach] callback closes over. *)
Record AbsenceState : Type := mkAbsenceState {
  st_maxConsecutive : Z;
  st_currentConsecutive : Z;
  st_totalInstances : Z;
  st_instances : list Instance
}.

(** The returned object. *)
Record ConsecutiveAbsences : Type := mkConsecutiveAbsences {
  maxConsecutive : Z;
  totalInstances : Z;
  instances : list Instance
}.

(** [attendance[key]?.toUpperCase() === 'A'], where [key] is [undefined]
    when it was read past the end of [days]. *)
Definition coded_A (attendance : gmap Z string) (key : option Z) : bool :=
  match toUpperCase <$> (key ≫= (attendance !!.)) with
  | Some c => String.eqb c "A"
  | None => false
  end.

(** The callback of [days.forEach((day, index) => ...)]. *)
Definition absences_body (attendance : gmap Z string) (days : list Z)
    (st : AbsenceState) (index : nat) (day : Z) : AbsenceState :=
  if coded_A attendance (Some day) then
    let currentConsecutive := st_currentConsecutive st + 1 in
    if (Z.of_nat index =? Z.of_nat (length days) - 1)
       || negb (coded_A attendance (days !! (index + 1)%nat))
    then
      if 0 <? currentConsecutive then
        mkAbsenceState
          (Z.max (st_maxConsecutive st) currentConsecutive)
          0
          (st_totalInstances st + 1)
          (st_instances st ++
             [mkInstance (day - currentConsecutive + 1) day
                         currentConsecutive])%list
      else
        mkAbsenceState (st_maxConsecutive st) currentConsecutive
          (st_totalInstances st) (st_instances st)
    else
      mkAbsenceState (st_maxConsecutive st) currentConsecutive
        (st_totalInstances st) (st_instances st)
  else
    mkAbsenceState (st_maxConsecutive st) 0 (st_totalInstances st)
      (st_instances st).

(** [arr.forEach((x, index) => ...)] from position [index] on. *)
Fixpoint forEach_indexed {St} (body : St -> nat -> Z -> St) (index : nat)
    (todo : list Z) (s : St) : St :=
  match todo with
  | [] => s
  | x :: todo' => forEach_indexed body (S index) todo' (body s index x)
  end.

(** [Object.keys(attendance).map(Number).sort((a, b) => a - b)]. *)
Definition sorted_days (attendance : gmap Z string) : list Z :=
  merge_sort Z.le (elements (dom attendance)).

(** [calculateConsecutiveAbsences]. *)
Definition calculateConsecutiveAbsences (attendance : gmap Z string)
    : ConsecutiveAbsences :=
  let days := sorted_days attendance in
  let st := forEach_indexed (absences_body attendance days) 0 days
              (mkAbsenceState 0 0 0 []) in
  mkConsecutiveAbsences (st_maxConsecutive st) (st_totalInstances st)
    (st_instances st).

(** ** [src/utils/calculations.js]: range summaries, trend, patterns *)

(** The object [getDateRangeSummary] fills. *)
Module Range.
Record Summary : Type := mkSummary {
  present : Z;
  absent : Z;
  leave : Z;
  off : Z;
  holiday : Z;
  sunday : Z;
  nightShift : Z;
  total : Z
}.
End Range.

Definition zero_range : Range.Summary := Range.mkSummary 0 0 0 0 0 0 0 0.

(** The [switch (code.toUpperCase())] of [getDateRangeSummary]; it runs
    after [summary.total++]. *)
Definition range_count (upperCode : string) (s : Range.Summary)
    : Range.Summary :=
  let s := Range.mkSummary (Range.present s) (Range.absent s)
             (Range.leave s) (Range.off s) (Range.holiday s)
             (Range.sunday s) (Range.nightShift s) (Range.total s + 1) in
  if String.eqb upperCode "P" || String.eqb upperCode "WFH" then
    Range.mkSummary (Range.present s + 1) (Range.absent s) (Range.leave s)
      (Range.off s) (Range.holiday s) (Range.sunday s) (Range.nightShift s)
      (Range.total s)
  else if String.eqb upperCode "A" then
    Range.mkSummary (Range.present s) (Range.absent s + 1) (Range.leave s)
      (Range.off s) (Range.holiday s) (Range.sunday s) (Range.nightShift s)
      (Range.total s)
  else if String.eqb upperCode "L" then
    Range.mkSummary (Range.present s) (Range.absent s) (Range.leave s + 1)
      (Range.off s) (Range.holiday s) (Range.sunday s) (Range.nightShift s)
      (Range.total s)
  else if String.eqb upperCode "O" then
    Range.mkSummary (Range.present s) (Range.absent s) (Range.leave s)
      (Range.off s + 1) (Range.holiday s) (Range.sunday s)
      (Range.nightShift s) (Range.total s)
  else if String.eqb upperCode "H" then
    Range.mkSummary (Range.present s) (Range.absent s) (Range.leave s)
      (Range.off s) (Range.holiday s + 1) (Range.sunday s)
      (Range.nightShift s) (Range.total s)
  else if String.eqb upperCode "S" then
    Range.mkSummary (Range.present s) (Range.absent s) (Range.leave s)
      (Range.off s) (Range.holiday s) (Range.sunday s + 1)
      (Range.nightShift s) (Range.total s)
  else if String.eqb upperCode "N" then
    Range.mkSummary (Range.present s + 1) (Range.absent s) (Range.leave s)
      (Range.off s) (Range.holiday s) (Range.sunday s)
      (Range.nightShift s + 1) (Range.total s)
  else s.

(** Body of the loop of [getDateRangeSummary]. *)
Definition range_body (attendance : gmap Z string) (s : Range.Summary)
    (day : Z) : Range.Summary :=
  match attendance !! day with
  | None => s
  | Some code =>
      if negb (truthy code) then s
      else range_count (toUpperCase code) s
  end.

(** [getDateRangeSummary]: the loop visits [startDay], ..., [endDay]. *)
Definition getDateRangeSummary (attendance : gmap Z string)
    (startDay endDay : Z) : Range.Summary :=
  foldl (range_body attendance) zero_range
        (seqZ startDay (endDay - startDay + 1)).

(** [getWeeklySummary]. *)
Definition getWeeklySummary (attendance : gmap Z string) (weekNumber : Z)
    : Range.Summary :=
  let startDay := (weekNumber - 1) * 7 + 1 in
  let endDay := Z.min (weekNumber * 7) 31 in
  getDateRangeSummary attendance startDay endDay.

(** One element of the array [generateAttendanceTrend] returns. *)
Record TrendEntry : Type := mkTrendEntry {
  trend_day : Z;
  trend_code : string;
  isPresent : bool;
  isAbsent : bool;
  isLeave : bool;
  isWeekend : bool;
  isHoliday : bool
}.

(** [attendance[day] || '']. *)
Definition code_or_empty (attendance : gmap Z string) (day : Z) : string :=
  match attendance !! day with
  | Some code => if truthy code then code else ""
  | None => ""
  end.

(** [generateAttendanceTrend]. *)
Definition generateAttendanceTrend (attendance : gmap Z string)
    (month : string) (year : Z) : list TrendEntry :=
  let daysInMonth := getDaysInMonth month year in
  foldl (fun trend day =>
           let code := code_or_empty attendance day in
           (trend ++
              [mkTrendEntry day code
                 (existsb (String.eqb (toUpperCase code)) ["P"; "WFH"; "N"])
                 (String.eqb (toUpperCase code) "A")
                 (String.eqb (toUpperCase code) "L")
                 (String.eqb (toUpperCase code) "S")
                 (String.eqb (toUpperCase code) "H")])%list)
        [] (days_of_loop daysInMonth).

(** The object [analyzeAttendancePatterns] returns. *)
Record Patterns : Type := mkPatterns {
  mondayAbsences : Z;
  fridayAbsences : Z;
  afterHolidayAbsences : Z;
  beforeHolidayAbsences : Z
}.

(** [attendance[key]?.toUpperCase()] is ['H'] or ['S']. *)
Definition coded_H_or_S (attendance : gmap Z string) (key : Z) : bool :=
  match toUpperCase <$> attendance !! key with
  | Some c => String.eqb c "H" || String.eqb c "S"
  | None => false
  end.

(** [dayOfWeek === n], where [dayOfWeek] may be [NaN]. *)
Definition weekday_is (dayOfWeek : option Z) (n : Z) : bool :=
  match dayOfWeek with
  | Some w => w =? n
  | None => false
  end.

(** Body of the loop of [analyzeAttendancePatterns]. *)
Definition patterns_body (attendance : gmap Z string) (year monthIndex : Z)
    (p : Patterns) (day : Z) : Patterns :=
  let dayOfWeek := JSDate.getDay year monthIndex day in
  if coded_A attendance (Some day) then
    let p1 := if weekday_is dayOfWeek 1
              then mkPatterns (mondayAbsences p + 1) (fridayAbsences p)
                     (afterHolidayAbsences p) (beforeHolidayAbsences p)
              else p in
    let p2 := if weekday_is dayOfWeek 5
              then mkPatterns (mondayAbsences p1) (fridayAbsences p1 + 1)
                     (afterHolidayAbsences p1) (beforeHolidayAbsences p1)
              else p1 in
    let p3 := if coded_H_or_S attendance (day - 1)
              then mkPatterns (mondayAbsences p2) (fridayAbsences p2)
                     (afterHolidayAbsences p2 + 1) (beforeHolidayAbsences p2)
              else p2 in
    if coded_H_or_S attendance (day + 1)
    then mkPatterns (mondayAbsences p3) (fridayAbsences p3)
           (afterHolidayAbsences p3) (beforeHolidayAbsences p3 + 1)
    else p3
  else p.

(** [analyzeAttendancePatterns]. *)
Definition analyzeAttendancePatterns (attendance : gmap Z string)
    (month : string) (year : Z) : Patterns :=
  let monthIndex := indexOf month_names month in
  let daysInMonth := getDaysInMonth month year in
  foldl (patterns_body attendance year monthIndex) (mkPatterns 0 0 0 0)
        (days_of_loop daysInMonth).

(** ** The [useExcelData] hook: roster and selection updates

    The part of the hook's state these callbacks read and write.  Each
    callback is modelled by the new state its state updaters produce. *)

Record HookState : Type := mkHookState {
  employees : list Employee;
  hasUnsavedChanges : bool;
  selectedEmployees : list string
}.

(** [{ ...emp, slNo: n }]. *)
Definition set_slNo (emp : Employee) (n : Z) : Employee :=
  mkEmployee n (empId emp) (employeeName emp) (month emp) (attendance emp)
             (summaries emp).

(** [.map((emp, index) => ({ ...emp, slNo: index + 1 }))]. *)
Definition renumber (l : list Employee) : list Employee :=
  imap (fun index emp => set_slNo emp (Z.of_nat index + 1)) l.

(** [deleteEmployee]. *)
Definition deleteEmployee (employeeId : string) (st : HookState)
    : HookState :=
  let updatedEmployees :=
    renumber (filter (fun emp => empId emp <> employeeId) (employees st)) in
  mkHookState updatedEmployees true (selectedEmployees st).

(** [deleteMultipleEmployees]. *)
Definition deleteMultipleEmployees (employeeIds : list string)
    (st : HookState) : HookState :=
  let updatedEmployees :=
    renumber (filter (fun emp => empId emp ∉ employeeIds) (employees st)) in
  mkHookState updatedEmployees true [].

(** [toggleEmployeeSelection]. *)
Definition toggleEmployeeSelection (employeeId : string) (st : HookState)
    : HookState :=
  let prev := selectedEmployees st in
  mkHookState (employees st) (hasUnsavedChanges st)
    (if bool_decide (employeeId ∈ prev)
     then filter (fun id => id <> employeeId) prev
     else (prev ++ [employeeId])%list).

(** [selectAllEmployees]. *)
Definition selectAllEmployees (st : HookState) : HookState :=
  mkHookState (employees st) (hasUnsavedChanges st)
    (empId <$> employees st).

(** ** Regular expressions

    The fragment of ECMAScript patterns in which
    [VALIDATION.EMP_ID_PATTERN] is written, with the backtracking matcher
    of the language definition: a matcher takes the match state (the
    index reached and the input from there on) and a continuation that
    matches the rest of the pattern. *)

Module RegExp.

Inductive Pattern : Type :=
| Bol
| Eol
| Char (ch : ascii)
| Range (lo hi : ascii)
| Quant (p : Pattern) (min max : nat)
| Seq (p q : Pattern).

Definition State : Type := (nat * list ascii)%type.

(** [lo <= ch <= hi] on code units. *)
Definition in_range (lo hi ch : ascii) : bool :=
  ((N_of_ascii lo <=? N_of_ascii ch) && (N_of_ascii ch <=? N_of_ascii hi))%N.

(** The matcher of a one-character atom. *)
Definition one_char (accept : ascii -> bool) (x : State)
    (c : State -> bool) : bool :=
  match x with
  | (index, ch :: rest) => if accept ch then c (S index, rest) else false
  | (_, []) => false
  end.

(** [RepeatMatcher] for a greedy quantifier with a finite upper bound:
    at [max = 0] the rest of the pattern runs; below [min] the atom must
    match; from [min] on one more round is tried first, and a round that
    consumed nothing fails. *)
Fixpoint repeatMatcher (m : State -> (State -> bool) -> bool)
    (min max : nat) (x : State) (c : State -> bool) : bool :=
  match max with
  | O => c x
  | S max' =>
      match min with
      | S min' => m x (fun y => repeatMatcher m min' max' y c)
      | O =>
          m x (fun y =>
                 if Nat.eqb (fst y) (fst x) then false
                 else repeatMatcher m O max' y c)
          || c x
      end
  end.

(** [^] and [$] are the assertions of a pattern without the [m] flag. *)
Fixpoint matcher (p : Pattern) (x : State) (c : State -> bool) : bool :=
  match p with
  | Bol => if Nat.eqb (fst x) 0 then c x else false
  | Eol => match snd x with [] => c x | _ :: _ => false end
  | Char ch => one_char (Ascii.eqb ch) x c
  | Range lo hi => one_char (in_range lo hi) x c
  | Quant p min max => repeatMatcher (matcher p) min max x c
  | Seq p q => matcher p x (fun y => matcher q y c)
  end.

(** [pattern.test(s)] for a pattern without the [g] and [y] flags: a
    match is tried from index 0, then from every later index up to the
    length of the input. *)
Definition test (p : Pattern) (s : string) : bool :=
  let input := list_ascii_of_string s in
  existsb (fun lastIndex =>
             matcher p (lastIndex, drop lastIndex input) (fun _ => true))
          (seq 0 (S (length input))).

End RegExp.

(** ** [constants.js]: validation rules *)

(** [/^[A-Z]{2,3}-\d{3,5}$/]; without the [u] flag [\d] is [[0-9]]. *)
Definition EMP_ID_PATTERN : RegExp.Pattern :=
  RegExp.Seq RegExp.Bol
    (RegExp.Seq (RegExp.Quant (RegExp.Range "A" "Z") 2 3)
       (RegExp.Seq (RegExp.Char "-")
          (RegExp.Seq (RegExp.Quant (RegExp.Range "0" "9") 3 5)
             RegExp.Eol))).

Definition EMP_ID_EXAMPLE : string := "QR-417".
Definition MIN_NAME_LENGTH : Z := 3.
Definition MAX_NAME_LENGTH : Z := 50.

(** ** [validateEmployee] *)

Record ValidationResult : Type := mkValidationResult {
  isValid : bool;
  errors : list string
}.

(** [validateEmployee]; the template literals render the two lengths in
    decimal. *)
Definition validateEmployee (employee : Employee) : ValidationResult :=
  let errors : list string := [] in
  let errors :=
    if negb (truthy (empId employee))
    then (errors ++ ["Employee ID is required"])%list
    else if negb (RegExp.test EMP_ID_PATTERN (empId employee))
    then (errors
          ++ ["Employee ID must be in format like " +:+ EMP_ID_EXAMPLE])%list
    else errors in
  let name_length := Z.of_nat (String.length (employeeName employee)) in
  let errors :=
    if negb (truthy (employeeName employee))
    then (errors ++ ["Employee name is required"])%list
    else if name_length <? MIN_NAME_LENGTH
    then (errors
          ++ ["Employee name must be at least " +:+ pretty MIN_NAME_LENGTH
              +:+ " characters"])%list
    else if MAX_NAME_LENGTH <? name_length
    then (errors
          ++ ["Employee name must not exceed " +:+ pretty MAX_NAME_LENGTH
              +:+ " characters"])%list
    else errors in
  mkValidationResult (Nat.eqb (length errors) 0) errors.

(** ** [filterEmployees] *)

(** [c.toLowerCase()] on one ASCII code unit. *)
Definition downcase_char (c : ascii) : ascii :=
  let n := N_of_ascii c in
  if ((65 <=? n) && (n <=? 90))%N then ascii_of_N (n + 32) else c.

(** [s.toLowerCase()]. *)
Fixpoint toLowerCase (s : string) : string :=
  match s with
  | EmptyString => EmptyString
  | String c s' => String (downcase_char c) (toLowerCase s')
  end.

(** [haystack.includes(needle)]: [needle] starts at some index of
    [haystack]. *)
Fixpoint string_includes (haystack needle : string) : bool :=
  String.prefix needle haystack
  || match haystack with
     | EmptyString => false
     | String _ haystack' => string_includes haystack' needle
     end.

(** The filter criteria.  A criterion that is left out reads [undefined],
    which the callback treats like the empty string or zero. *)
Module Filters.

Record t : Type := mk {
  name : string;
  empId : string;
  status : string;
  minPresent : Q
}.

(** [filters = {}]. *)
Definition none : t := mk "" "" "" 0.

End Filters.

(** The callback of [filterEmployees]. *)
Definition filterEmployees_callback (filters : Filters.t)
    (employee : Employee) : bool :=
  if truthy (Filters.name filters)
     && negb (string_includes (toLowerCase (employeeName employee))
                              (toLowerCase (Filters.name filters)))
  then false
  else if truthy (Filters.empId filters)
          && negb (string_includes (toLowerCase (empId employee))
                                   (toLowerCase (Filters.empId filters)))
  then false
  else if String.eqb (Filters.status filters) "perfect"
          && (0 <? totalAbsent (summaries employee))
  then false
  else if String.eqb (Filters.status filters) "absent"
          && (totalAbsent (summaries employee) =? 0)
  then false
  else if negb (Qeq_bool (Filters.minPresent filters) 0)
          && negb (Qle_bool (Filters.minPresent filters)
                            (totalPresent (summaries employee)))
  then false
  else true.

(** [filterEmployees]. *)
Definition filterEmployees (employees : list Employee)
    (filters : Filters.t) : list Employee :=
  List.filter (filterEmployees_callback filters) employees.

(** ** [excelService.js]: the rows of the exported sheet *)

(** A cell of the sheet: a string or a number. *)
Inductive Cell : Type :=
| Str (s : string)
| Num (q : Q).

Module EXCEL_COLUMNS.
Definition SL_NO : string := "Sl#".
Definition EMP_ID : string := "Emp ID".
Definition EMP_NAME : string := "Employee Name".
Definition MONTH : string := "Month".
Definition TOTAL_PRESENT : string := "Total Present".
Definition TOTAL_OFF : string := "Total Off".
Definition TOTAL_SUNDAYS : string := "Total Sunday's".
Definition TOTAL_HOLIDAYS : string := "Total Holidays".
Definition TOTAL_NIGHT_SHIFT : string := "Total Night Shift".
Definition TOTAL_HOLY_DAY_WORKING : string := "Total Holy Day Working".
Definition TOTAL_OFF_DAY_WORKING : string := "Total Off Day Working".
Definition TOTAL_ABSENT : string := "Total Absent".
Definition TOTAL_ON_LEAVE : string := "Total On Leave".
Definition TOTAL_WORKING_DAYS : string :=
  "Total Working Days in this Month".
End EXCEL_COLUMNS.

(** [n || 0] on an integer and on a rational counter. *)
Definition or_zero (n : Z) : Cell := Num (inject_Z (if n =? 0 then 0 else n)).

Definition or_zero_Q (q : Q) : Cell := Num (if Qeq_bool q 0 then 0%Q else q).

(** The header row. *)
Definition headers : list Cell :=
  ([ Str EXCEL_COLUMNS.SL_NO; Str EXCEL_COLUMNS.EMP_ID;
     Str EXCEL_COLUMNS.EMP_NAME; Str EXCEL_COLUMNS.MONTH ]
   ++ ((fun i => Num (inject_Z (i + 1))) <$> seqZ 0 31)
   ++ [ Str EXCEL_COLUMNS.TOTAL_PRESENT; Str EXCEL_COLUMNS.TOTAL_OFF;
        Str EXCEL_COLUMNS.TOTAL_SUNDAYS; Str EXCEL_COLUMNS.TOTAL_HOLIDAYS;
        Str EXCEL_COLUMNS.TOTAL_NIGHT_SHIFT;
        Str EXCEL_COLUMNS.TOTAL_HOLY_DAY_WORKING;
        Str EXCEL_COLUMNS.TOTAL_OFF_DAY_WORKING;
        Str EXCEL_COLUMNS.TOTAL_ABSENT; Str EXCEL_COLUMNS.TOTAL_ON_LEAVE;
        Str EXCEL_COLUMNS.TOTAL_WORKING_DAYS ])%list.

(** The row of one employee: four leading cells, a cell per day 1..31,
    ten summary cells. *)
Definition employee_row (h : gmap loc (gmap Z string)) (daysInMonth : Z)
    (month0 : string) (index : nat) (employee : Employee) : list Cell :=
  let row :=
    [ Num (inject_Z (if slNo employee =? 0 then Z.of_nat index + 1
                     else slNo employee));
      Str (empId employee);
      Str (employeeName employee);
      Str (if truthy (month employee) then month employee else month0) ] in
  let row :=
    foldl (fun row day =>
             if day <=? daysInMonth
             then (row ++ [Str (code_or_empty
                                  (read_object h (attendance employee))
                                  day)])%list
             else (row ++ [Str ""])%list)
          row (days_of_loop 31) in
  let s := summaries employee in
  (row ++ [ or_zero_Q (totalPresent s); or_zero (totalOff s);
            or_zero (totalSundays s); or_zero (totalHolidays s);
            or_zero (totalNightShift s); or_zero (totalHolyDayWorking s);
            or_zero (totalOffDayWorking s); or_zero (totalAbsent s);
            or_zero (totalOnLeave s); or_zero (totalWorkingDays s) ])%list.

(** [prepareExcelData]: the header row, an empty row, and a row pushed for
    each employee in turn. *)
Definition prepareExcelData (h : gmap loc (gmap Z string))
    (employees : list Employee) (month0 : string) (year : Z)
    : list (list Cell) :=
  let daysInMonth := getDaysInMonth month0 year in
  let data := [headers; []] in
  (data ++ imap (employee_row h daysInMonth month0) employees)%list.

(** * Specification-side definitions and sample data *)

(** ** Month lengths *)

#[local] Instance Z_divide_dec (a b : Z) : Decision (a | b).
Proof.
  destruct (decide (a = 0)) as [->|Ha].
  - destruct (decide (b = 0)) as [->|Hb].
    + left. apply Z.divide_0_r.
    + right. intros H. now apply Z.divide_0_l in H.
  - destruct (decide (b mod a = 0)) as [E|E].
    + left. now apply Z.mod_divide.
    + right. intros H. now apply Z.mod_divide in H.
Defined.

(** The Gregorian leap-year rule, in the words of the specification. *)
Definition leap_year (year : Z) : Prop :=
  ((4 | year) /\ ~ (100 | year)) \/ (400 | year).

#[local] Instance leap_year_dec (year : Z) : Decision (leap_year year).
Proof. unfold leap_year. apply _. Defined.

(** Month lengths as the specification words them. *)
Definition spec_daysInMonth (month : string) (year : Z) : Z :=
  if bool_decide (month = "Feb") then
    if bool_decide (leap_year year) then 29 else 28
  else if bool_decide (month ∈ ["Apr"; "Jun"; "Sep"; "Nov"]) then 30
  else 31.

(** ** Counting days by code *)

(** The upper-cased code a day carries, when it carries one. *)
Definition code_on (attendance : gmap Z string) (day : Z) : option string :=
  match attendance !! day with
  | Some code => if truthy code then Some (toUpperCase code) else None
  | None => None
  end.

(** [day] carries one of [codes]. *)
Definition coded (attendance : gmap Z string) (codes : list string)
    (day : Z) : Prop :=
  match code_on attendance day with
  | Some upperCode => upperCode ∈ codes
  | None => False
  end.

#[local] Instance coded_dec attendance codes day :
  Decision (coded attendance codes day).
Proof. unfold coded. destruct (code_on attendance day); apply _. Defined.

(** Number of days of [1..daysInMonth] carrying one of [codes]. *)
Definition count_days (attendance : gmap Z string) (daysInMonth : Z)
    (codes : list string) : Z :=
  Z.of_nat (length (filter (coded attendance codes) (seqZ 1 daysInMonth))).

(** Working on a Sunday or a listed holiday. *)
Definition holy_day_working (attendance : gmap Z string)
    (sundays holidays : list Z) (day : Z) : Prop :=
  (day ∈ sundays \/ day ∈ holidays)
  /\ coded attendance ["P"; "N"; "WFH"] day.

(** Working on the day after a day coded off. *)
Definition off_day_working (attendance : gmap Z string) (day : Z) : Prop :=
  1 < day
  /\ coded attendance ["O"] (day - 1)
  /\ coded attendance ["P"; "N"; "WFH"] day.

#[local] Instance holy_day_working_dec attendance sundays holidays day :
  Decision (holy_day_working attendance sundays holidays day).
Proof. unfold holy_day_working. apply _. Defined.

#[local] Instance off_day_working_dec attendance day :
  Decision (off_day_working attendance day).
Proof. unfold off_day_working. apply _. Defined.

(** 1 when the proposition holds, 0 otherwise. *)
Definition indicator (P : Prop) `{Decision P} : Z :=
  if decide P then 1 else 0.

(** What the second loop adds to the two composite counters. *)
Definition add_composite (holy off : Z) (s : Summaries) : Summaries :=
  mkSummaries (totalPresent s) (totalOff s) (totalSundays s)
    (totalHolidays s) (totalNightShift s) (totalHolyDayWorking s + holy)
    (totalOffDayWorking s + off) (totalAbsent s) (totalOnLeave s)
    (totalWorkingDays s).

(** The summaries after the first loop. *)
Definition first_pass (attendance : gmap Z string) (daysInMonth : Z)
    : Summaries :=
  foldl (pass1_body attendance) zero_summaries (days_of_loop daysInMonth).

(** Case analysis on the [switch]: compare [u] with each case label, and
    evaluate comparisons between literals. *)
Ltac eval_eqb :=
  repeat match goal with
  | |- context [String.eqb ?a ?b] =>
      let v := eval vm_compute in (String.eqb a b) in
      first [constr_eq v true | constr_eq v false];
      change (String.eqb a b) with v
  end.

Ltac case_codes u :=
  repeat (match goal with
          | |- context [String.eqb u ?k] =>
              destruct (String.eqb_spec u k) as [->|?]
          end; eval_eqb; cbv iota).

(** The code a day carries when it is one of the nine registry codes. *)
Definition recognized_code (attendance : gmap Z string) (day : Z)
    : option string :=
  match code_on attendance day with
  | Some u => if bool_decide (u ∈ ATTENDANCE_CODES_keys) then Some u
              else None
  | None => None
  end.

(** ** Sample months and records *)

(** A half day, an off day, and a working day after the off day. *)
Definition half_day_month : gmap Z string :=
  {[ 1 := "HD"; 2 := "O"; 3 := "P" ]}.

(** New Year worked as a night shift, a Sunday worked from home, and a
    working day after an off day; key 0 is outside the month. *)
Definition holiday_work_month : gmap Z string :=
  {[ 0 := "O"; 1 := "N"; 7 := "wfh"; 9 := "O"; 10 := "P" ]}.

(** An unknown code on day 2 and a key past the end of February. *)
Definition stray_entries_month : gmap Z string :=
  {[ 1 := "P"; 2 := "X"; 30 := "A" ]}.

(** A store holding one attendance object, empty, and a record pointing
    to it. *)
Definition empty_month_store : gmap loc (gmap Z string) :=
  {[ 1%positive := ∅ ]}.

Definition sample_employee : Employee :=
  mkEmployee 1 "QR-417" "Asha Rao" "Jan" 1%positive zero_summaries.

(** The entry the single-cell edit would store if it normalized the code:
    the normalized code, or no entry when that is empty. *)
Definition normalized_entry (code : string) : option string :=
  let normalized := normalizeAttendanceCode code in
  if truthy normalized then Some normalized else None.

(** A store whose attendance object has a blank entry on Sunday the 7th
    (what the import stores for an unrecognized cell) and an explicit
    present on Sunday the 14th. *)
Definition blank_sunday_store : gmap loc (gmap Z string) :=
  {[ 1%positive := {[ 7 := ""; 14 := "P" ]} ]}.

(** ** Runs of absences *)

(** The maximal runs of adjacent flagged entries of a sequence of days,
    each run listing its days in order. *)
Fixpoint absence_runs (entries : list (Z * bool)) : list (list Z) :=
  match entries with
  | [] => []
  | (day, false) :: rest => absence_runs rest
  | (day, true) :: rest =>
      match rest with
      | (_, true) :: _ =>
          match absence_runs rest with
          | run :: runs => (day :: run) :: runs
          | [] => [[day]]
          end
      | _ => [day] :: absence_runs rest
      end
  end.

(** What is recorded for a run: its last day, its length, and the start
    computed from the two. *)
Definition instance_of_run (run : list Z) : Instance :=
  let n := Z.of_nat (length run) in
  let e := List.last run 0 in
  mkInstance (e - n + 1) e n.

(** The marked days in scanning order, each with whether it is coded A. *)
Definition absence_flags (attendance : gmap Z string) (days : list Z)
    : list (Z * bool) :=
  (fun day => (day, coded_A attendance (Some day))) <$> days.

(** The scan as a function of the days still to visit and of the current
    count. *)
Fixpoint scan (attendance : gmap Z string) (current : Z) (todo : list Z)
    : list Instance :=
  match todo with
  | [] => []
  | day :: rest =>
      if coded_A attendance (Some day) then
        if negb (coded_A attendance (head rest)) then
          mkInstance (day - (current + 1) + 1) day (current + 1)
          :: scan attendance 0 rest
        else scan attendance (current + 1) rest
      else scan attendance 0 rest
  end.

Definition max_count (l : list Instance) : Z :=
  foldr Z.max 0 (count <$> l).

(** A run that was already [current] days long when the scan reached it. *)
Definition extend_run (current : Z) (i : Instance) : Instance :=
  mkInstance (end_ i - (count i + current) + 1) (end_ i) (count i + current).

(** Three absences in a row, then a present day. *)
Definition three_absences : gmap Z string :=
  {[ 3 := "A"; 4 := "A"; 5 := "A"; 6 := "P" ]}.

(** [attendance] with days [d1] and [d1 + 1 + gap] coded A and every day
    strictly between them unmarked. *)
Definition spaced_absences (attendance : gmap Z string) (d1 : Z) (gap : nat)
    : gmap Z string :=
  let d2 := d1 + 1 + Z.of_nat gap in
  <[d1 := "A"]>
    (<[d2 := "A"]>
       (filter (fun kv : Z * string => ~ (d1 < kv.1 < d2)) attendance)).

(** Absences on the 3rd and the 5th, the 4th unmarked. *)
Definition absences_around_gap : gmap Z string :=
  {[ 3 := "A"; 5 := "A" ]}.

(** ** Calendar *)

(** [new Date(year, monthIndex, day).getDay() === 0]. *)
Definition is_sunday (year monthIndex day : Z) : bool :=
  match JSDate.getDay year monthIndex day with
  | Some 0 => true
  | _ => false
  end.

(** ** The second loop in terms of the codes it reads *)

(** One iteration of the second loop, given the upper-cased code of the
    day and that of the day before, when they carry one. *)
Definition pass2_on_codes (current previous : option string)
    (sundays : list Z) (holidays : holidays_value) (s : Summaries)
    (day : Z) : result Summaries :=
  match current with
  | None => Ok s
  | Some upperCode =>
      bind (if includes sundays day then Ok true
            else holidays_includes holidays day)
        (fun holy =>
           let s1 := if holy && is_working upperCode
                     then incr_totalHolyDayWorking s else s in
           Ok (if (1 <? day)
                  && match previous with
                     | Some prevDayCode => String.eqb prevDayCode "O"
                     | None => false
                     end
                  && is_working upperCode
               then incr_totalOffDayWorking s1 else s1))
  end.

(** ** Range summaries *)

(** [day] carries a non-empty code. *)
Definition carries_code (attendance : gmap Z string) (day : Z) : Prop :=
  is_Some (code_on attendance day).

#[local] Instance carries_code_dec attendance day :
  Decision (carries_code attendance day).
Proof. unfold carries_code. apply _. Defined.

(** Field by field sum of two range summaries. *)
Definition range_add (s t : Range.Summary) : Range.Summary :=
  Range.mkSummary
    (Range.present s + Range.present t) (Range.absent s + Range.absent t)
    (Range.leave s + Range.leave t) (Range.off s + Range.off t)
    (Range.holiday s + Range.holiday t) (Range.sunday s + Range.sunday t)
    (Range.nightShift s + Range.nightShift t)
    (Range.total s + Range.total t).

(** The range summary of a list of days, by counting. *)
Definition range_of_days (attendance : gmap Z string) (days : list Z)
    : Range.Summary :=
  let n codes := Z.of_nat (length (filter (coded attendance codes) days)) in
  Range.mkSummary (n ["P"; "WFH"; "N"]) (n ["A"]) (n ["L"]) (n ["O"])
    (n ["H"]) (n ["S"]) (n ["N"])
    (Z.of_nat (length (filter (carries_code attendance) days))).

(** ** Trend *)

(** The element [generateAttendanceTrend] pushes for [day]. *)
Definition trend_entry (attendance : gmap Z string) (day : Z) : TrendEntry :=
  let code := code_or_empty attendance day in
  mkTrendEntry day code
    (existsb (String.eqb (toUpperCase code)) ["P"; "WFH"; "N"])
    (String.eqb (toUpperCase code) "A")
    (String.eqb (toUpperCase code) "L")
    (String.eqb (toUpperCase code) "S")
    (String.eqb (toUpperCase code) "H").

(** ** Totals and order of absence instances *)

Definition sum_counts (l : list Instance) : Z :=
  foldr Z.add 0 (count <$> l).

(** Every instance follows [bound]: it starts after it, is not empty, and
    the next instance starts after it ends. *)
Fixpoint follows (bound : Z) (l : list Instance) : Prop :=
  match l with
  | [] => True
  | i :: l' => bound < start i /\ start i <= end_ i /\ follows (end_ i) l'
  end.

(** The ranges are not empty and each begins after the one before it has
    ended. *)
Fixpoint ascending_ranges (l : list Instance) : Prop :=
  match l with
  | [] => True
  | i :: l' =>
      start i <= end_ i
      /\ match l' with
         | [] => True
         | j :: _ => end_ i < start j
         end
      /\ ascending_ranges l'
  end.

(** ** Roster *)

(** A record with its serial number blanked: everything [renumber]
    leaves alone. *)
Definition without_slNo (emp : Employee) : Employee := set_slNo emp 0.

(** A hook state with three employees, serial numbers 1 to 3. *)
Definition sample_roster : HookState :=
  mkHookState
    [ mkEmployee 1 "QR-417" "Asha Rao" "Jan" 1%positive zero_summaries;
      mkEmployee 2 "QR-418" "Ravi Iyer" "Jan" 2%positive zero_summaries;
      mkEmployee 3 "QR-419" "Meera Nair" "Jan" 3%positive zero_summaries ]
    false ["QR-418"].

(** ** Employee ids *)

Definition upper_case_letters : list ascii :=
  list_ascii_of_string "ABCDEFGHIJKLMNOPQRSTUVWXYZ".

Definition decimal_digits : list ascii :=
  list_ascii_of_string "0123456789".

(** Two or three capital letters, a hyphen, three to five digits, and
    nothing else. *)
Definition well_formed_empId (s : string) : Prop :=
  exists letters digits : list ascii,
    list_ascii_of_string s = (letters ++ "-"%char :: digits)%list
    /\ (2 <= length letters <= 3)%nat
    /\ Forall (fun ch => ch ∈ upper_case_letters) letters
    /\ (3 <= length digits <= 5)%nat
    /\ Forall (fun ch => ch ∈ decimal_digits) digits.

(** ** Filters *)

(** [{ ...filters, status }]. *)
Definition with_status (filters : Filters.t) (status : string)
    : Filters.t :=
  Filters.mk (Filters.name filters) (Filters.empId filters) status
             (Filters.minPresent filters).

(** Three employees: no absence, two absences, none. *)
Definition sample_summaries (absent : Z) : Summaries :=
  mkSummaries 20 4 4 1 0 0 0 absent 0 22.

Definition sample_staff : list Employee :=
  [ mkEmployee 1 "QR-417" "Asha Rao" "Jan" 1%positive (sample_summaries 0);
    mkEmployee 2 "QR-418" "Ravi Iyer" "Jan" 2%positive (sample_summaries 2);
    mkEmployee 3 "QR-419" "Meera Nair" "Jan" 3%positive
               (sample_summaries 0) ].

(** ** Sheet layout *)

(** The cell of day [day] in an employee's row. *)
Definition day_cell (h : gmap loc (gmap Z string)) (daysInMonth : Z)
    (employee : Employee) (day : Z) : Cell :=
  Str (if day <=? daysInMonth
       then code_or_empty (read_object h (attendance employee)) day
       else "").

(** ** Time zones *)

(** A zone that keeps one offset throughout. *)
Definition fixed_offset (offset : Z) : Host.TimeZone :=
  Host.mkTimeZone (fun _ => offset) (fun _ => offset).

(** India Standard Time, five and a half hours ahead of UTC. *)
Definition india : Host.TimeZone := fixed_offset 19800000.

(** Kwajalein, which moved from twelve hours behind UTC to twelve hours
    ahead at the end of 20 August 1993 and so had no 21 August: local
    times before midnight of the 22nd are read twelve hours behind. *)
Definition kwajalein : Host.TimeZone :=
  let half_day := 43200000 in
  let skipped := Host.midnight 1993 7 21 in
  Host.mkTimeZone
    (fun t => if t <? skipped + half_day then - half_day else half_day)
    (fun t => if t <? skipped + Host.msPerDay then - half_day
              else half_day).

(** No local midnight of days 1 to 31 of the month is moved to another
    calendar day by the zone, whose offsets there are at most a day. *)
Definition keeps_calendar_days (tz : Host.TimeZone) (year monthIndex : Z)
    : Prop :=
  forall day, 1 <= day <= 31 ->
    let t := Host.midnight year monthIndex day in
    Z.abs (Host.LocalTZA_local tz t) <= Host.msPerDay
    /\ Host.Day (Host.LocalTime tz (Host.UTC tz t)) = Host.Day t.

(** * Properties *)

(** ** Code registry *)

Section Normalize.

(** Any upper-casing primitive whose results hold no ASCII lower-case
    letter and which fixes the nine registry keys. *)
Variable upper : string -> string.
Hypothesis upper_no_lower : forall s, has_lower (upper s) = false.
Hypothesis upper_fixes_keys :
  forall k, In k ATTENDANCE_CODES_keys -> upper k = k.

Lemma inherited_has_lower (name : string) :
  inherited name = true -> has_lower name = true.
Proof.
  unfold inherited. rewrite existsb_exists.
  intros [k [Hk Heq]]. apply String.eqb_eq in Heq. subst k.
  cbn in Hk. intuition (subst; reflexivity).
Qed.

Lemma upper_not_inherited (s : string) : inherited (upper s) = false.
Proof.
  destruct (inherited (upper s)) eqn:E; [|reflexivity].
  apply inherited_has_lower in E. now rewrite upper_no_lower in E.
Qed.

Lemma normalize_with_closed (x : string) :
  normalizeAttendanceCode_with upper x = ""
  \/ In (normalizeAttendanceCode_with upper x) ATTENDANCE_CODES_keys.
Proof.
  unfold normalizeAttendanceCode_with, ATTENDANCE_CODES_has.
  destruct (negb (truthy x)); [now left|].
  destruct (String.eqb (upper x) "A"); [right; cbn; tauto|].
  rewrite upper_not_inherited, orb_false_r.
  destruct (existsb _ _) eqn:E; [|now left].
  right. apply existsb_exists in E. destruct E as [k [Hk Heq]].
  apply String.eqb_eq in Heq. now rewrite Heq.
Qed.

Lemma normalize_with_key (k : string) :
  In k ATTENDANCE_CODES_keys -> normalizeAttendanceCode_with upper k = k.
Proof.
  intros Hk. unfold normalizeAttendanceCode_with.
  rewrite (upper_fixes_keys k Hk).
  cbn in Hk. intuition (subst; reflexivity).
Qed.

Lemma normalize_with_idempotent (x : string) :
  normalizeAttendanceCode_with upper (normalizeAttendanceCode_with upper x)
  = normalizeAttendanceCode_with upper x.
Proof.
  destruct (normalize_with_closed x) as [E | Hk].
  - rewrite E. reflexivity.
  - now apply normalize_with_key.
Qed.

End Normalize.

Lemma upcase_char_not_lower (c : ascii) : is_lower (upcase_char c) = false.
Proof. destruct c as [[] [] [] [] [] [] [] []]; reflexivity. Qed.

Lemma toUpperCase_no_lower (s : string) : has_lower (toUpperCase s) = false.
Proof.
  induction s as [|c s IH]; [reflexivity|].
  cbn [toUpperCase has_lower]. now rewrite upcase_char_not_lower, IH.
Qed.

Lemma toUpperCase_fixes_keys (k : string) :
  In k ATTENDANCE_CODES_keys -> toUpperCase k = k.
Proof. cbn. intuition (subst; reflexivity). Qed.

(** C4. [normalizeAttendanceCode] is idempotent, its result is always the
    empty string or one of the nine registry codes, and it sends ["a"] to
    ["A"]. *)
Theorem normalizeAttendanceCode_idempotent_closed :
  forall x : string,
    normalizeAttendanceCode (normalizeAttendanceCode x)
    = normalizeAttendanceCode x
    /\ (normalizeAttendanceCode x = ""
        \/ In (normalizeAttendanceCode x)
              ["P"; "A"; "O"; "S"; "H"; "N"; "L"; "HD"; "WFH"])
    /\ normalizeAttendanceCode "a" = "A".
Proof.
  intros x. unfold normalizeAttendanceCode. split; [|split].
  - apply normalize_with_idempotent.
    + apply toUpperCase_no_lower.
    + apply toUpperCase_fixes_keys.
  - apply normalize_with_closed, toUpperCase_no_lower.
  - reflexivity.
Qed.

(** ** Calendar helper: month lengths *)

Lemma rem_zero_divide (a b : Z) :
  b <> 0 -> (Z.rem a b =? 0) = bool_decide (b | a).
Proof.
  intros Hb. destruct (Z.rem a b =? 0) eqn:E.
  - apply Z.eqb_eq in E. apply Z.rem_divide in E; [|assumption].
    symmetry. now apply bool_decide_eq_true.
  - apply Z.eqb_neq in E. symmetry. apply bool_decide_eq_false.
    intros Hd. apply E. now apply Z.rem_divide.
Qed.

Lemma leap_test_spec (year : Z) :
  ((Z.rem year 4 =? 0) && negb (Z.rem year 100 =? 0)) || (Z.rem year 400 =? 0)
  = bool_decide (leap_year year).
Proof.
  rewrite !rem_zero_divide by lia. unfold leap_year.
  repeat case_bool_decide; cbn; tauto.
Qed.

Lemma getDaysInMonth_table (month : string) (year : Z) :
  getDaysInMonth month year = spec_daysInMonth month year.
Proof.
  unfold getDaysInMonth, spec_daysInMonth, findIndex, MONTHS.
  cbn [findIndex_from fst].
  repeat match goal with
  | |- context [String.eqb ?k month] =>
      destruct (String.eqb_spec k month) as [<-|?]
  end; cbn; try reflexivity;
    try apply (f_equal (fun b : bool => if b then 29 else 28)), leap_test_spec.
  all: repeat case_bool_decide; try reflexivity; try congruence.
  exfalso.
  repeat match goal with
  | H : _ ∈ _ :: _ |- _ => apply elem_of_cons in H; destruct H as [->|H]
  | H : _ ∈ [] |- _ => now apply elem_of_nil in H
  end; congruence.
Qed.

(** C5. [getDaysInMonth] returns the standard length of every known month,
    applies the leap-year rule to February (29 exactly when the year is
    divisible by 4 and not by 100, or divisible by 400, and 28 otherwise),
    and falls back to 31 on any name outside the twelve. *)
Theorem getDaysInMonth_spec :
  forall (month : string) (year : Z),
    getDaysInMonth month year = spec_daysInMonth month year
    /\ (getDaysInMonth "Feb" year = 29 <-> leap_year year)
    /\ (getDaysInMonth "Feb" year = 28 <-> ~ leap_year year)
    /\ (month ∈ month_names \/ getDaysInMonth month year = 31)
    /\ getDaysInMonth "Feb" 2024 = 29
    /\ getDaysInMonth "Feb" 2023 = 28
    /\ getDaysInMonth "Feb" 2000 = 29
    /\ getDaysInMonth "Feb" 1900 = 28.
Proof.
  intros month year.
  split; [apply getDaysInMonth_table|].
  split; [|split; [|split; [|repeat split; reflexivity]]].
  - rewrite getDaysInMonth_table. unfold spec_daysInMonth.
    rewrite (bool_decide_eq_true_2 ("Feb" = "Feb")) by reflexivity.
    case_bool_decide as H; (split; [intros E|intros L]);
      first [assumption | reflexivity | discriminate | tauto].
  - rewrite getDaysInMonth_table. unfold spec_daysInMonth.
    rewrite (bool_decide_eq_true_2 ("Feb" = "Feb")) by reflexivity.
    case_bool_decide as H; (split; [intros E|intros L]);
      first [assumption | reflexivity | discriminate | tauto].
  - destruct (decide (month ∈ month_names)) as [Hin|Hout]; [now left|].
    right. rewrite getDaysInMonth_table. unfold spec_daysInMonth.
    assert (Hsub : forall k, k ∈ month_names -> month <> k).
    { intros k Hk ->. now apply Hout. }
    rewrite bool_decide_eq_false_2.
    2:{ apply Hsub. unfold month_names. rewrite !elem_of_cons. tauto. }
    rewrite bool_decide_eq_false_2; [reflexivity|].
    intros Hin. apply Hout. unfold month_names.
    rewrite !elem_of_cons in Hin. rewrite !elem_of_cons. tauto.
Qed.

(** ** Summary engine *)

Lemma for_each_pure {St} (body : St -> Z -> result St) (f : St -> Z -> St)
    (days : list Z) :
  (forall s day, day ∈ days -> body s day = Ok (f s day)) ->
  forall s, for_each body days s = Ok (foldl f s days).
Proof.
  induction days as [|d days IH]; intros Hb s; [reflexivity|].
  cbn [for_each foldl]. rewrite Hb by apply list_elem_of_here.
  cbn [bind]. apply IH. intros s' day Hday. apply Hb.
  now apply list_elem_of_further.
Qed.

Lemma includes_elem_of (l : list Z) (day : Z) :
  includes l day = bool_decide (day ∈ l).
Proof.
  unfold includes. induction l as [|x l IH]; cbn [existsb].
  - symmetry. apply bool_decide_eq_false. apply not_elem_of_nil.
  - rewrite IH. destruct (Z.eqb_spec day x) as [->|Hne]; cbn [orb].
    + symmetry. apply bool_decide_eq_true. apply list_elem_of_here.
    + apply bool_decide_ext. rewrite elem_of_cons. tauto.
Qed.

Lemma is_working_elem_of (u : string) :
  is_working u = bool_decide (u ∈ ["P"; "N"; "WFH"]).
Proof.
  unfold is_working.
  destruct (String.eqb_spec u "P") as [->|HP]; [reflexivity|].
  destruct (String.eqb_spec u "N") as [->|HN]; [reflexivity|].
  destruct (String.eqb_spec u "WFH") as [->|HW]; [reflexivity|].
  symmetry. apply bool_decide_eq_false.
  rewrite !elem_of_cons, elem_of_nil. tauto.
Qed.

Lemma truthy_toUpperCase (code : string) :
  truthy (toUpperCase code) = truthy code.
Proof. destruct code; reflexivity. Qed.

Lemma bool_eq_decide (b : bool) (P : Prop) `{Decision P} :
  (b = true <-> P) -> b = bool_decide P.
Proof.
  intros Hiff. destruct b.
  - symmetry. apply bool_decide_eq_true. now apply Hiff.
  - symmetry. apply bool_decide_eq_false. intros HP.
    apply Hiff in HP. discriminate.
Qed.

Lemma coded_iff (attendance : gmap Z string) codes day :
  coded attendance codes day
  <-> exists code, attendance !! day = Some code /\ truthy code = true
                   /\ toUpperCase code ∈ codes.
Proof.
  unfold coded, code_on. destruct (attendance !! day) as [c|].
  - destruct (truthy c) eqn:E.
    + split; [intros H; now exists c|].
      intros [c' [[= <-] [_ H]]]. exact H.
    + split; [tauto|]. intros [c' [[= <-] [H _]]]. congruence.
  - split; [tauto|]. intros [c' [[=] _]].
Qed.

Lemma prev_is_off_coded (attendance : gmap Z string) (day : Z) :
  prev_is_off attendance day = bool_decide (coded attendance ["O"] (day - 1)).
Proof.
  apply bool_eq_decide. rewrite coded_iff. unfold prev_is_off.
  destruct (attendance !! (day - 1)) as [c|] eqn:E; cbn.
  - rewrite String.eqb_eq. split.
    + intros Hc. exists c. split; [reflexivity|].
      rewrite list_elem_of_singleton. split; [|assumption].
      rewrite <- truthy_toUpperCase, Hc. reflexivity.
    + intros [c' [[= <-] [_ H]]]. now apply list_elem_of_singleton in H.
  - split; [discriminate|]. intros [c' [[=] _]].
Qed.

Lemma indicator_ext (P Q : Prop) `{Decision P} `{Decision Q} :
  (P <-> Q) -> indicator P = indicator Q.
Proof. intros Hiff. unfold indicator. repeat case_decide; tauto. Qed.

Lemma indicator_filter {A} (P : A -> Prop) `{forall x, Decision (P x)}
    (x : A) (l : list A) :
  Z.of_nat (length (filter P (x :: l)))
  = indicator (P x) + Z.of_nat (length (filter P l)).
Proof.
  rewrite filter_cons. unfold indicator.
  destruct (decide (P x)); cbn [length]; lia.
Qed.

Lemma add_composite_add (a b a' b' : Z) (s : Summaries) :
  add_composite a b (add_composite a' b' s)
  = add_composite (a' + a) (b' + b) s.
Proof. destruct s. unfold add_composite. cbn. f_equal; lia. Qed.

Lemma add_composite_zero (s : Summaries) : add_composite 0 0 s = s.
Proof. destruct s. unfold add_composite. cbn. f_equal; lia. Qed.

(** One iteration of the second loop, when [holidays] is an array. *)
Lemma pass2_body_spec attendance sundays holidays s day :
  pass2_body attendance sundays (HolidayArray holidays) s day
  = Ok (add_composite
          (indicator (holy_day_working attendance sundays holidays day))
          (indicator (off_day_working attendance day)) s).
Proof.
  unfold pass2_body, holy_day_working, off_day_working.
  destruct (attendance !! day) as [c|] eqn:E.
  2:{ rewrite <- (add_composite_zero s) at 1. f_equal. f_equal.
      - unfold indicator. case_decide as H; [|reflexivity].
        destruct H as [_ H]. apply coded_iff in H.
        destruct H as [c [H _]]. congruence.
      - unfold indicator. case_decide as H; [|reflexivity].
        destruct H as [_ [_ H]]. apply coded_iff in H.
        destruct H as [c [H _]]. congruence. }
  assert (Hcoded : forall codes, coded attendance codes day
            <-> truthy c = true /\ toUpperCase c ∈ codes).
  { intros codes. rewrite coded_iff. split.
    - intros [c' [Hc' H]]. congruence.
    - intros H. now exists c. }
  destruct (truthy c) eqn:Ht; cbn [negb].
  2:{ rewrite <- (add_composite_zero s) at 1. f_equal. f_equal.
      - unfold indicator. case_decide as H; [|reflexivity].
        destruct H as [_ H]. apply Hcoded in H. now destruct H.
      - unfold indicator. case_decide as H; [|reflexivity].
        destruct H as [_ [_ H]]. apply Hcoded in H. now destruct H. }
  cbn [holidays_includes].
  assert ((if includes sundays day then Ok true
           else Ok (includes holidays day))
          = Ok (bool_decide (day ∈ sundays \/ day ∈ holidays))) as ->.
  { rewrite !includes_elem_of.
    repeat case_bool_decide; try reflexivity; tauto. }
  cbn [bind]. f_equal.
  rewrite is_working_elem_of, prev_is_off_coded.
  destruct s. unfold add_composite, indicator, incr_totalHolyDayWorking,
    incr_totalOffDayWorking. cbn.
  destruct (Z.ltb_spec 1 day);
    repeat case_bool_decide; repeat case_decide; cbn;
    try (f_equal; lia);
    exfalso; rewrite ?Hcoded in *; tauto.
Qed.

Lemma pass2_fold attendance sundays holidays days s :
  foldl (fun s day =>
           add_composite
             (indicator (holy_day_working attendance sundays holidays day))
             (indicator (off_day_working attendance day)) s) s days
  = add_composite
      (Z.of_nat (length (filter
         (holy_day_working attendance sundays holidays) days)))
      (Z.of_nat (length (filter (off_day_working attendance) days))) s.
Proof.
  revert s. induction days as [|d days IH]; intros s.
  - cbn. now rewrite add_composite_zero.
  - cbn [foldl]. rewrite IH, add_composite_add, !indicator_filter.
    reflexivity.
Qed.

(** [calculateSummaries] when the holiday lookup yields an array: no
    iteration throws, and the second loop adds the two composite counts. *)
Lemma calculateSummaries_array attendance month year holidays :
  getHolidaysInMonth month year = HolidayArray holidays ->
  calculateSummaries attendance month year
  = Ok (floor_totalPresent (set_totalWorkingDays
          (add_composite
             (Z.of_nat (length (filter
                (holy_day_working attendance
                   (getSundaysInMonth month year) holidays)
                (seqZ 1 (getDaysInMonth month year)))))
             (Z.of_nat (length (filter (off_day_working attendance)
                (seqZ 1 (getDaysInMonth month year)))))
             (first_pass attendance (getDaysInMonth month year))))).
Proof.
  intros Hh. unfold calculateSummaries. rewrite Hh.
  erewrite for_each_pure
    by (intros; apply pass2_body_spec).
  cbn [bind]. rewrite pass2_fold. reflexivity.
Qed.

Lemma bool_decide_elem_of_strings (u : string) (l : list string) :
  bool_decide (u ∈ l) = existsb (String.eqb u) l.
Proof.
  symmetry. apply bool_eq_decide. rewrite existsb_exists. split.
  - intros [k [Hk Heq]]. apply String.eqb_eq in Heq. subst k.
    now apply list_elem_of_In.
  - intros H. exists u. split; [now apply list_elem_of_In|].
    apply String.eqb_refl.
Qed.

Lemma count_code_composite (u : string) (s : Summaries) :
  totalHolyDayWorking (count_code u s) = totalHolyDayWorking s
  /\ totalOffDayWorking (count_code u s) = totalOffDayWorking s.
Proof. unfold count_code. case_codes u; split; reflexivity. Qed.

Lemma first_pass_composite attendance days s :
  totalHolyDayWorking (foldl (pass1_body attendance) s days)
  = totalHolyDayWorking s
  /\ totalOffDayWorking (foldl (pass1_body attendance) s days)
     = totalOffDayWorking s.
Proof.
  revert s. induction days as [|d days IH]; intros s; [now split|].
  cbn [foldl]. destruct (IH (pass1_body attendance s d)) as [-> ->].
  unfold pass1_body. destruct (attendance !! d) as [c|]; [|now split].
  destruct (negb (truthy c)); [now split|]. apply count_code_composite.
Qed.

Lemma count_code_present (u : string) (s : Summaries) :
  (totalPresent (count_code u s)
   == totalPresent s
      + inject_Z (if bool_decide (u ∈ ["P"; "WFH"]) then 1 else 0)
      + (1 # 2) * inject_Z (if bool_decide (u ∈ ["HD"]) then 1 else 0))%Q.
Proof.
  rewrite !bool_decide_elem_of_strings. unfold count_code.
  cbn [existsb orb].
  case_codes u; cbn [orb totalPresent add_totalPresent incr_totalAbsent
    incr_totalOff incr_totalSundays incr_totalHolidays incr_totalNightShift
    incr_totalOnLeave]; unfold inject_Z; ring.
Qed.

Lemma pass1_body_present attendance s day :
  (totalPresent (pass1_body attendance s day)
   == totalPresent s
      + inject_Z (indicator (coded attendance ["P"; "WFH"] day))
      + (1 # 2) * inject_Z (indicator (coded attendance ["HD"] day)))%Q.
Proof.
  unfold pass1_body.
  assert (Hnone : forall codes, code_on attendance day = None ->
            indicator (coded attendance codes day) = 0).
  { intros codes E. unfold indicator. case_decide as H; [|reflexivity].
    unfold coded in H. now rewrite E in H. }
  assert (Hsome : forall codes u, code_on attendance day = Some u ->
            indicator (coded attendance codes day)
            = if bool_decide (u ∈ codes) then 1 else 0).
  { intros codes u E. unfold indicator.
    case_decide as H; case_bool_decide as H'; try reflexivity;
      unfold coded in H; rewrite E in H; tauto. }
  destruct (attendance !! day) as [c|] eqn:E.
  - destruct (truthy c) eqn:Ht; cbn [negb].
    + rewrite !(Hsome _ (toUpperCase c))
        by (unfold code_on; now rewrite E, Ht).
      apply count_code_present.
    + rewrite !Hnone by (unfold code_on; now rewrite E, Ht).
      unfold inject_Z. ring.
  - rewrite !Hnone by (unfold code_on; now rewrite E).
    unfold inject_Z. ring.
Qed.

Lemma first_pass_present attendance days s :
  (totalPresent (foldl (pass1_body attendance) s days)
   == totalPresent s
      + inject_Z (Z.of_nat (length (filter
                    (coded attendance ["P"; "WFH"]) days)))
      + (1 # 2) * inject_Z (Z.of_nat (length (filter
                    (coded attendance ["HD"]) days))))%Q.
Proof.
  revert s. induction days as [|d days IH]; intros s.
  - cbn. unfold inject_Z. ring.
  - cbn [foldl]. rewrite IH, pass1_body_present, !indicator_filter.
    rewrite !inject_Z_plus. ring.
Qed.

(** C1. [totalWorkingDays] is the floor of the weighted sum taken with the
    unfloored present count, which holds one half per ['HD'] day; the
    returned [totalPresent] is the floor of that same unfloored count. *)
Theorem calculateSummaries_working_days_formula :
  forall (attendance : gmap Z string) (month : string) (year : Z)
         (holidays : list Z),
    getHolidaysInMonth month year = HolidayArray holidays ->
    exists s,
      calculateSummaries attendance month year = Ok s
      /\ let daysInMonth := getDaysInMonth month year in
         let unfloored :=
           (inject_Z (count_days attendance daysInMonth ["P"; "WFH"])
            + (1 # 2) * inject_Z (count_days attendance daysInMonth ["HD"]))%Q
         in
         totalWorkingDays s
         = Qfloor (unfloored
                   + inject_Z (totalOff s)
                   + inject_Z (totalSundays s)
                   + inject_Z (totalHolidays s)
                   + inject_Z (totalNightShift s)
                   + 2 * inject_Z (totalHolyDayWorking s)
                   + (1 # 2) * inject_Z (totalOffDayWorking s))%Q
         /\ totalPresent s = inject_Z (Qfloor unfloored).
Proof.
  intros attendance month year holidays Hh.
  rewrite (calculateSummaries_array _ _ _ _ Hh).
  eexists. split; [reflexivity|].
  cbn zeta.
  assert (Hp : (totalPresent (first_pass attendance
                                (getDaysInMonth month year))
                == inject_Z (count_days attendance
                               (getDaysInMonth month year) ["P"; "WFH"])
                   + (1 # 2) * inject_Z (count_days attendance
                               (getDaysInMonth month year) ["HD"]))%Q).
  { unfold first_pass, count_days, days_of_loop.
    rewrite first_pass_present. cbn [totalPresent zero_summaries]. ring. }
  split.
  - cbn [totalWorkingDays floor_totalPresent set_totalWorkingDays
         totalOff totalSundays totalHolidays totalNightShift
         totalHolyDayWorking totalOffDayWorking add_composite].
    apply Qfloor_comp. unfold working_days_sum.
    cbn [totalPresent totalOff totalSundays totalHolidays totalNightShift
         totalHolyDayWorking totalOffDayWorking add_composite].
    rewrite Hp. ring.
  - cbn [totalPresent floor_totalPresent set_totalWorkingDays
         add_composite].
    f_equal. apply Qfloor_comp. exact Hp.
Qed.

(** C2. In the second loop the holy-day counter grows by one exactly on a
    Sunday or listed holiday coded P, N or WFH, and the off-day counter
    grows by one exactly on a day after the first whose predecessor is
    coded O and which is itself coded P, N or WFH; day 1 never changes
    the off-day counter.  The returned counters are the numbers of such
    days in [1..daysInMonth]. *)
Theorem calculateSummaries_composite_counters :
  forall (attendance : gmap Z string) (month : string) (year : Z)
         (holidays : list Z),
    getHolidaysInMonth month year = HolidayArray holidays ->
    let sundays := getSundaysInMonth month year in
    let daysInMonth := getDaysInMonth month year in
    (forall (s : Summaries) (day : Z),
        fmap_result
          (fun s' => (totalHolyDayWorking s', totalOffDayWorking s'))
          (pass2_body attendance sundays (HolidayArray holidays) s day)
        = Ok (totalHolyDayWorking s
              + indicator (holy_day_working attendance sundays holidays day),
              totalOffDayWorking s
              + indicator (off_day_working attendance day)))
    /\ (forall s : Summaries,
          fmap_result totalOffDayWorking
            (pass2_body attendance sundays (HolidayArray holidays) s 1)
          = Ok (totalOffDayWorking s))
    /\ exists s,
         calculateSummaries attendance month year = Ok s
         /\ totalHolyDayWorking s
            = Z.of_nat (length (filter
                (holy_day_working attendance sundays holidays)
                (seqZ 1 daysInMonth)))
         /\ totalOffDayWorking s
            = Z.of_nat (length (filter (off_day_working attendance)
                                      (seqZ 1 daysInMonth))).
Proof.
  intros attendance month year holidays Hh sundays daysInMonth.
  split; [|split].
  - intros s day. rewrite pass2_body_spec. reflexivity.
  - intros s. rewrite pass2_body_spec. cbn. f_equal.
    unfold indicator. case_decide as H; [|lia].
    destruct H as [H _]. lia.
  - rewrite (calculateSummaries_array _ _ _ _ Hh).
    eexists. split; [reflexivity|].
    destruct (first_pass_composite attendance
                (days_of_loop (getDaysInMonth month year)) zero_summaries)
      as [H1 H2].
    cbn [totalHolyDayWorking totalOffDayWorking floor_totalPresent
         set_totalWorkingDays add_composite].
    unfold first_pass. rewrite H1, H2. cbn. split; reflexivity.
Qed.

Lemma filter_ext_elem {A} (P Q : A -> Prop) `{forall x, Decision (P x)}
    `{forall x, Decision (Q x)} (l : list A) :
  (forall x, x ∈ l -> (P x <-> Q x)) -> filter P l = filter Q l.
Proof.
  induction l as [|x l IH]; intros Hext; [reflexivity|].
  rewrite !filter_cons.
  rewrite IH by (intros y Hy; apply Hext; now apply list_elem_of_further).
  pose proof (Hext x (list_elem_of_here x l)).
  repeat case_decide; tauto.
Qed.

Lemma count_code_unrecognized (u : string) (s : Summaries) :
  u ∉ ATTENDANCE_CODES_keys -> count_code u s = s.
Proof.
  intros Hu. unfold count_code.
  case_codes u; try reflexivity; exfalso; apply Hu;
    unfold ATTENDANCE_CODES_keys; rewrite !elem_of_cons; tauto.
Qed.

Lemma pass1_body_recognized attendance s day :
  pass1_body attendance s day
  = match recognized_code attendance day with
    | Some u => count_code u s
    | None => s
    end.
Proof.
  unfold pass1_body, recognized_code, code_on.
  destruct (attendance !! day) as [c|]; [|reflexivity].
  destruct (truthy c); cbn [negb]; [|reflexivity].
  case_bool_decide as H; [reflexivity|].
  now apply count_code_unrecognized.
Qed.

Lemma coded_recognized attendance codes day :
  codes ⊆ ATTENDANCE_CODES_keys ->
  coded attendance codes day
  <-> exists u, recognized_code attendance day = Some u /\ u ∈ codes.
Proof.
  intros Hsub. unfold coded, recognized_code.
  destruct (code_on attendance day) as [u|].
  - case_bool_decide as H.
    + split; [intros Hu; now exists u|].
      intros [u' [[= <-] Hu]]. exact Hu.
    + split; [intros Hu; exfalso; apply H, Hsub, Hu|].
      intros [u' [[=] _]].
  - split; [tauto|]. intros [u' [[=] _]].
Qed.

(** Two mappings that carry the same registry codes on [1..daysInMonth]
    have the same summaries. *)
Lemma calculateSummaries_congr att1 att2 month year holidays :
  getHolidaysInMonth month year = HolidayArray holidays ->
  (forall day, 1 <= day <= getDaysInMonth month year ->
     recognized_code att1 day = recognized_code att2 day) ->
  calculateSummaries att1 month year = calculateSummaries att2 month year.
Proof.
  intros Hh Hagree.
  rewrite !(calculateSummaries_array _ _ _ _ Hh).
  set (dim := getDaysInMonth month year) in *.
  assert (Hin : forall day, day ∈ seqZ 1 dim -> 1 <= day <= dim).
  { intros day Hd. apply elem_of_seqZ in Hd. lia. }
  assert (Hcoded : forall codes day, codes ⊆ ATTENDANCE_CODES_keys ->
            1 <= day <= dim ->
            coded att1 codes day <-> coded att2 codes day).
  { intros codes day Hsub Hd.
    rewrite !coded_recognized by assumption. now rewrite Hagree. }
  assert (Hw : ["P"; "N"; "WFH"] ⊆ ATTENDANCE_CODES_keys).
  { intros u. unfold ATTENDANCE_CODES_keys. rewrite !elem_of_cons.
    rewrite !elem_of_nil. tauto. }
  assert (Ho : ["O"] ⊆ ATTENDANCE_CODES_keys).
  { intros u. unfold ATTENDANCE_CODES_keys. rewrite !elem_of_cons.
    rewrite !elem_of_nil. tauto. }
  f_equal. f_equal. f_equal. f_equal; [f_equal; f_equal | f_equal; f_equal |].
  - apply filter_ext_elem. intros day Hd. apply Hin in Hd.
    unfold holy_day_working. now rewrite (Hcoded _ _ Hw Hd).
  - apply filter_ext_elem. intros day Hd. apply Hin in Hd.
    unfold off_day_working.
    rewrite (Hcoded _ _ Hw Hd).
    split; intros [H1 [H2 H3]]; (split; [assumption|split; [|assumption]]);
      apply (Hcoded _ _ Ho); (lia || assumption).
  - unfold first_pass, days_of_loop.
    generalize zero_summaries. revert Hin.
    generalize (seqZ 1 dim).
    intros l. induction l as [|d l IH]; intros Hin s; [reflexivity|].
    cbn [foldl]. rewrite !pass1_body_recognized.
    rewrite Hagree by (apply Hin, list_elem_of_here).
    apply IH. intros day Hd. apply Hin. now apply list_elem_of_further.
Qed.

(** The holiday lookup yields an array for every month name that is not a
    member name of [Object.prototype]; the twelve month names are such. *)
Lemma getHolidaysInMonth_array (month : string) (year : Z) :
  inherited month = false ->
  exists holidays, getHolidaysInMonth month year = HolidayArray holidays.
Proof.
  intros Hi. unfold getHolidaysInMonth.
  destruct (own_property holidays_table month) as [l|]; [now exists l|].
  rewrite Hi. now exists [].
Qed.

Lemma month_names_not_inherited (month : string) :
  In month month_names -> inherited month = false.
Proof. cbn. intuition (subst; reflexivity). Qed.

(** C3, counterexample. The error path: the name of a member of
    [Object.prototype] in place of a month, and a coded day that is not a
    Sunday.  The lookup
    [holidays[month]] then yields a function, which is truthy and has no
    [includes]. *)
Example calculateSummaries_throws :
  calculateSummaries {[ 1 := "P" ]} "constructor" 2024 = TypeError.
Proof. vm_compute. reflexivity. Qed.

Lemma calculateSummaries_empty (month : string) (year : Z) :
  calculateSummaries ∅ month year = Ok zero_summaries.
Proof.
  unfold calculateSummaries.
  assert (H1 : forall l s, foldl (pass1_body ∅) s l = s).
  { induction l as [|d l IH]; intros s; [reflexivity|].
    cbn [foldl]. unfold pass1_body at 2. rewrite lookup_empty. apply IH. }
  rewrite H1.
  erewrite (for_each_pure _ (fun s _ => s)).
  2:{ intros s day _. unfold pass2_body. now rewrite lookup_empty. }
  assert (H2 : forall (l : list Z) (s : Summaries),
            foldl (fun s _ => s) s l = s).
  { induction l as [|d l IH]; intros s; [reflexivity|]. apply IH. }
  rewrite H2. reflexivity.
Qed.

Lemma recognized_code_filter_codes (attendance : gmap Z string) (day : Z) :
  recognized_code
    (filter (fun kv : Z * string =>
               toUpperCase kv.2 ∈ ATTENDANCE_CODES_keys) attendance) day
  = recognized_code attendance day.
Proof.
  unfold recognized_code, code_on.
  destruct (attendance !! day) as [c|] eqn:E.
  - destruct (decide (toUpperCase c ∈ ATTENDANCE_CODES_keys)) as [Hc|Hc].
    + now rewrite (map_lookup_filter_Some_2 _ _ _ _ E Hc).
    + rewrite (proj2 (map_lookup_filter_None _ _ _)).
      2:{ right. intros x Hx. rewrite E in Hx. injection Hx as <-.
          exact Hc. }
      destruct (truthy c); [|reflexivity].
      now rewrite bool_decide_eq_false_2.
  - rewrite (proj2 (map_lookup_filter_None _ _ _)); [reflexivity|].
    now left.
Qed.

Lemma recognized_code_filter_range (attendance : gmap Z string)
    (daysInMonth day : Z) :
  1 <= day <= daysInMonth ->
  recognized_code
    (filter (fun kv : Z * string => 1 <= kv.1 <= daysInMonth) attendance)
    day
  = recognized_code attendance day.
Proof.
  intros Hd. unfold recognized_code, code_on.
  destruct (attendance !! day) as [c|] eqn:E.
  - now rewrite (map_lookup_filter_Some_2 _ _ _ _ E Hd).
  - rewrite (proj2 (map_lookup_filter_None _ _ _)); [reflexivity|].
    now left.
Qed.

(** C3, amended. For every month string that is not the name of a member
    of [Object.prototype], and the twelve month names are such,
    [calculateSummaries] returns on every day-to-code mapping: it yields the
    all-zero summary on the empty mapping, entries whose code is not a
    registry code contribute nothing, and keys outside [1..daysInMonth]
    are ignored. *)
Theorem calculateSummaries_total :
  forall (attendance : gmap Z string) (month : string) (year : Z),
    inherited month = false ->
    (exists s, calculateSummaries attendance month year = Ok s)
    /\ calculateSummaries ∅ month year = Ok zero_summaries
    /\ calculateSummaries
         (filter (fun kv : Z * string =>
                    toUpperCase kv.2 ∈ ATTENDANCE_CODES_keys) attendance)
         month year
       = calculateSummaries attendance month year
    /\ calculateSummaries
         (filter (fun kv : Z * string =>
                    1 <= kv.1 <= getDaysInMonth month year) attendance)
         month year
       = calculateSummaries attendance month year
    /\ Forall (fun name => inherited name = false) month_names.
Proof.
  intros attendance month year Hmonth.
  destruct (getHolidaysInMonth_array month year Hmonth) as [holidays Hh].
  split; [|split; [|split; [|split]]].
  - rewrite (calculateSummaries_array _ _ _ _ Hh). eauto.
  - apply calculateSummaries_empty.
  - apply (calculateSummaries_congr _ _ _ _ _ Hh).
    intros day _. apply recognized_code_filter_codes.
  - apply (calculateSummaries_congr _ _ _ _ _ Hh).
    intros day Hd. now apply recognized_code_filter_range.
  - apply Forall_forall. intros name Hname.
    apply month_names_not_inherited. now apply list_elem_of_In.
Qed.

(** On [half_day_month] the unfloored present count is 1.5: the sum is
    1.5 + 1 + 0.5 = 3, while the returned present count is 1. *)
Example half_day_month_summary :
  calculateSummaries half_day_month "Jan" 2024
  = Ok (mkSummaries 1 1 0 0 0 0 1 0 0 3).
Proof. vm_compute. reflexivity. Qed.

Lemma calculateSummaries_working_days_formula_witness :
  getHolidaysInMonth "Jan" 2024 = HolidayArray [1; 26]
  /\ exists s,
       calculateSummaries half_day_month "Jan" 2024 = Ok s
       /\ let daysInMonth := getDaysInMonth "Jan" 2024 in
          let unfloored :=
            (inject_Z (count_days half_day_month daysInMonth ["P"; "WFH"])
             + (1 # 2)
               * inject_Z (count_days half_day_month daysInMonth ["HD"]))%Q
          in
          totalWorkingDays s
          = Qfloor (unfloored
                    + inject_Z (totalOff s)
                    + inject_Z (totalSundays s)
                    + inject_Z (totalHolidays s)
                    + inject_Z (totalNightShift s)
                    + 2 * inject_Z (totalHolyDayWorking s)
                    + (1 # 2) * inject_Z (totalOffDayWorking s))%Q
          /\ totalPresent s = inject_Z (Qfloor unfloored).
Proof.
  split; [reflexivity|].
  apply (calculateSummaries_working_days_formula
           half_day_month "Jan" 2024 [1; 26]).
  reflexivity.
Defined.

Example holiday_work_month_summary :
  calculateSummaries holiday_work_month "Jan" 2024
  = Ok (mkSummaries 2 1 0 0 1 2 1 0 0 8).
Proof. vm_compute. reflexivity. Qed.

Lemma calculateSummaries_composite_counters_witness :
  getHolidaysInMonth "Jan" 2024 = HolidayArray [1; 26]
  /\ exists s,
       calculateSummaries holiday_work_month "Jan" 2024 = Ok s
       /\ totalHolyDayWorking s
          = Z.of_nat (length (filter
              (holy_day_working holiday_work_month
                 (getSundaysInMonth "Jan" 2024) [1; 26])
              (seqZ 1 (getDaysInMonth "Jan" 2024))))
       /\ totalOffDayWorking s
          = Z.of_nat (length (filter (off_day_working holiday_work_month)
                                    (seqZ 1 (getDaysInMonth "Jan" 2024)))).
Proof.
  split; [reflexivity|].
  apply (calculateSummaries_composite_counters
           holiday_work_month "Jan" 2024 [1; 26]).
  reflexivity.
Defined.

Lemma calculateSummaries_total_witness :
  inherited "Feb" = false
  /\ (exists s, calculateSummaries stray_entries_month "Feb" 2023 = Ok s)
  /\ calculateSummaries ∅ "Feb" 2023 = Ok zero_summaries
  /\ calculateSummaries
       (filter (fun kv : Z * string =>
                  toUpperCase kv.2 ∈ ATTENDANCE_CODES_keys)
               stray_entries_month)
       "Feb" 2023
     = calculateSummaries stray_entries_month "Feb" 2023
  /\ calculateSummaries
       (filter (fun kv : Z * string =>
                  1 <= kv.1 <= getDaysInMonth "Feb" 2023)
               stray_entries_month)
       "Feb" 2023
     = calculateSummaries stray_entries_month "Feb" 2023
  /\ Forall (fun name => inherited name = false) month_names.
Proof.
  split; [reflexivity|].
  apply (calculateSummaries_total stray_entries_month "Feb" 2023).
  reflexivity.
Defined.

Example stray_entries_month_summary :
  calculateSummaries stray_entries_month "Feb" 2023
  = Ok (mkSummaries 1 0 0 0 0 0 0 0 0 1).
Proof. vm_compute. reflexivity. Qed.

(** ** Record mutators *)

Lemma read_write_property h l day code :
  read_object (write_property h l day code) l
  = <[day := code]> (read_object h l).
Proof.
  unfold write_property, read_object at 1. now rewrite lookup_insert_eq.
Qed.

Lemma read_delete_property h l day :
  read_object (delete_property h l day) l = delete day (read_object h l).
Proof.
  unfold delete_property, read_object at 1. now rewrite lookup_insert_eq.
Qed.

Lemma read_assign_day h l day code :
  read_object (assign_day h l day code) l
  = if truthy code then <[day := toUpperCase code]> (read_object h l)
    else delete day (read_object h l).
Proof.
  unfold assign_day. destruct (truthy code).
  - apply read_write_property.
  - apply read_delete_property.
Qed.

(** With an array of holidays the recalculation returns, and the record
    it returns carries the summaries of the attendance it points to. *)
Lemma recalculate_returns h e month year holidays :
  getHolidaysInMonth month year = HolidayArray holidays ->
  exists e',
    recalculate h e month year = Ok e'
    /\ attendance e' = attendance e
    /\ calculateSummaries (read_object h (attendance e')) month year
       = Ok (summaries e').
Proof.
  intros Hh. unfold recalculate.
  pose proof (calculateSummaries_array (read_object h (attendance e))
                month year holidays Hh) as Hs.
  rewrite Hs. cbn. eexists. split; [reflexivity|].
  split; [reflexivity|]. exact Hs.
Qed.

(** The entry of [day] after the callback of [markWeekends] and
    [markHolidays] has run over [days]. *)
Lemma fill_day_lookup l code h d day :
  read_object (fill_day l code h d) l !! day
  = if decide (d = day /\ truthy_opt (read_object h l !! day) = false)
    then Some code
    else read_object h l !! day.
Proof.
  unfold fill_day. case_decide as H.
  - destruct H as [-> Ht]. rewrite Ht. cbn [negb].
    now rewrite read_write_property, lookup_insert_eq.
  - destruct (negb (truthy_opt (read_object h l !! d))) eqn:Ht;
      [|reflexivity].
    rewrite read_write_property.
    destruct (decide (d = day)) as [->|Hne].
    + exfalso. apply H. split; [reflexivity|].
      now apply negb_true_iff in Ht.
    + now apply lookup_insert_ne.
Qed.

Lemma fill_days_lookup l code days h day :
  read_object (foldl (fill_day l code) h days) l !! day
  = if decide (day ∈ days /\ truthy_opt (read_object h l !! day) = false)
    then Some code
    else read_object h l !! day.
Proof.
  revert h. induction days as [|d days IH]; intros h.
  - cbn [foldl]. case_decide as H; [|reflexivity].
    destruct H as [H _]. now apply elem_of_nil in H.
  - cbn [foldl]. rewrite IH, fill_day_lookup.
    destruct (decide (d = day /\ truthy_opt (read_object h l !! day) = false))
      as [[-> Ht]|Hd].
    + rewrite (decide_True (P := _ ∈ _ :: _ /\ _))
        by (split; [apply list_elem_of_here|assumption]).
      now destruct (decide (_ /\ _)).
    + destruct (decide (day ∈ days /\ _)) as [H1|H1];
        destruct (decide (day ∈ d :: days /\ _)) as [H2|H2];
        try reflexivity; exfalso.
      * apply H2. destruct H1 as [H1 H1']. split; [|assumption].
        now apply list_elem_of_further.
      * apply H1. destruct H2 as [H2 H2']. split; [|assumption].
        apply elem_of_cons in H2. destruct H2 as [->|H2]; [|assumption].
        exfalso. apply Hd. now split.
Qed.

(** [clearAttendance] leaves the record it receives as it was. *)
Lemma clearAttendance_pure h e :
  observe (clearAttendance h e).1 e = observe h e.
Proof.
  unfold observe, clearAttendance. cbn [fst]. f_equal.
  unfold read_object.
  destruct (decide (fresh (dom h) = attendance e)) as [E|E].
  - rewrite <- E, lookup_insert_eq.
    assert (h !! fresh (dom h) = None) as ->; [|reflexivity].
    apply not_elem_of_dom. apply is_fresh.
  - now rewrite lookup_insert_ne.
Qed.

(** C6. Evaluation at the failing inputs: after each of
    [updateEmployeeAttendance], [bulkUpdateAttendance], [markWeekends] and
    [markHolidays] has run on [sample_employee], whose attendance mapping
    was empty, the record that was passed in observes the new entries. *)
Theorem mutators_write_through_input :
  observe empty_month_store sample_employee = (sample_employee, ∅)
  /\ observe
       (updateEmployeeAttendance empty_month_store sample_employee
          1 "P" "Jan" 2024).1
       sample_employee
     = (sample_employee, {[ 1 := "P" ]})
  /\ observe
       (bulkUpdateAttendance empty_month_store sample_employee
          [(1, "P"); (2, "A")] "Jan" 2024).1
       sample_employee
     = (sample_employee, {[ 1 := "P"; 2 := "A" ]})
  /\ observe
       (markWeekends empty_month_store sample_employee "Jan" 2024 "S").1
       sample_employee
     = (sample_employee, {[ 7 := "S"; 14 := "S"; 21 := "S"; 28 := "S" ]})
  /\ observe
       (markHolidays empty_month_store sample_employee "Jan" 2024 "H").1
       sample_employee
     = (sample_employee, {[ 1 := "H"; 26 := "H" ]}).
Proof. repeat split; vm_compute; reflexivity. Qed.

(** C7, counterexample. An unrecognized code is stored upper-cased, where
    normalization would leave the day without an entry. *)
Lemma updateEmployeeAttendance_not_normalized :
  read_object
    (updateEmployeeAttendance empty_month_store sample_employee
       3 "xyz" "Jan" 2024).1
    (attendance sample_employee) !! 3
  <> normalized_entry "xyz".
Proof. vm_compute. discriminate. Qed.

(** C7, amended. [updateEmployeeAttendance] upper-cases a non-empty code
    before storing it and deletes the day's key when the code is empty;
    the record it returns shares the updated attendance and carries the
    summaries computed from it. *)
Theorem updateEmployeeAttendance_spec :
  forall (h : gmap loc (gmap Z string)) (employee : Employee) (day : Z)
         (code month : string) (year : Z) (holidays : list Z),
    getHolidaysInMonth month year = HolidayArray holidays ->
    let r := updateEmployeeAttendance h employee day code month year in
    read_object r.1 (attendance employee) !! day
    = (if truthy code then Some (toUpperCase code) else None)
    /\ read_object r.1 (attendance employee)
       = (if truthy code
          then <[day := toUpperCase code]>
                 (read_object h (attendance employee))
          else delete day (read_object h (attendance employee)))
    /\ exists e',
         r.2 = Ok e'
         /\ attendance e' = attendance employee
         /\ calculateSummaries (read_object r.1 (attendance e')) month year
            = Ok (summaries e').
Proof.
  intros h employee day code month year holidays Hh r.
  unfold r, updateEmployeeAttendance. cbn [fst snd].
  rewrite read_assign_day. split; [|split].
  - destruct (truthy code).
    + apply lookup_insert_eq.
    + apply lookup_delete_eq.
  - reflexivity.
  - apply (recalculate_returns _ _ _ _ _ Hh).
Qed.

Lemma updateEmployeeAttendance_spec_witness :
  getHolidaysInMonth "Jan" 2024 = HolidayArray [1; 26]
  /\ read_object
       (updateEmployeeAttendance empty_month_store sample_employee
          3 "xyz" "Jan" 2024).1
       (attendance sample_employee) !! 3
     = (if truthy "xyz" then Some (toUpperCase "xyz") else None).
Proof.
  split; [reflexivity|].
  apply (updateEmployeeAttendance_spec empty_month_store sample_employee
           3 "xyz" "Jan" 2024 [1; 26]).
  reflexivity.
Defined.

(** C8, counterexample. Day 7 has an entry, and [markWeekends] replaces
    it. *)
Lemma markWeekends_overwrites_blank_entry :
  is_Some (read_object blank_sunday_store
             (attendance sample_employee) !! 7)
  /\ read_object
       (markWeekends blank_sunday_store sample_employee "Jan" 2024 "S").1
       (attendance sample_employee) !! 7
     <> read_object blank_sunday_store (attendance sample_employee) !! 7.
Proof.
  split.
  - exists "". vm_compute. reflexivity.
  - vm_compute. discriminate.
Qed.

(** C8, amended. After [markWeekends] (resp. [markHolidays]) a day holds
    the fill code exactly when it is a Sunday (resp. a listed holiday)
    whose entry was missing or the empty string; every other day, among
    them every day with a non-empty code, keeps what it had.  The
    returned record carries the summaries of the filled attendance. *)
Theorem markWeekends_markHolidays_fill_unmarked :
  forall (h : gmap loc (gmap Z string)) (employee : Employee)
         (month : string) (year : Z) (code : string) (holidays : list Z)
         (day : Z),
    getHolidaysInMonth month year = HolidayArray holidays ->
    let old := read_object h (attendance employee) in
    let w := markWeekends h employee month year code in
    let hd := markHolidays h employee month year code in
    read_object w.1 (attendance employee) !! day
    = (if decide (day ∈ getSundaysInMonth month year
                  /\ truthy_opt (old !! day) = false)
       then Some code else old !! day)
    /\ read_object hd.1 (attendance employee) !! day
       = (if decide (day ∈ holidays /\ truthy_opt (old !! day) = false)
          then Some code else old !! day)
    /\ (exists e',
          w.2 = Ok e'
          /\ attendance e' = attendance employee
          /\ calculateSummaries (read_object w.1 (attendance e')) month year
             = Ok (summaries e'))
    /\ (exists e',
          hd.2 = Ok e'
          /\ attendance e' = attendance employee
          /\ calculateSummaries (read_object hd.1 (attendance e')) month year
             = Ok (summaries e')).
Proof.
  intros h employee month year code holidays day Hh old w hd.
  unfold w, hd, markWeekends, markHolidays. rewrite Hh. cbn [fst snd].
  repeat split.
  - apply fill_days_lookup.
  - apply fill_days_lookup.
  - apply (recalculate_returns _ _ _ _ _ Hh).
  - apply (recalculate_returns _ _ _ _ _ Hh).
Qed.

Lemma markWeekends_markHolidays_fill_unmarked_witness :
  getHolidaysInMonth "Jan" 2024 = HolidayArray [1; 26]
  /\ read_object
       (markWeekends blank_sunday_store sample_employee "Jan" 2024 "S").1
       (attendance sample_employee) !! 14
     = (if decide (14 ∈ getSundaysInMonth "Jan" 2024
                   /\ truthy_opt
                        (read_object blank_sunday_store
                           (attendance sample_employee) !! 14) = false)
        then Some "S"
        else read_object blank_sunday_store
               (attendance sample_employee) !! 14).
Proof.
  split; [reflexivity|].
  apply (markWeekends_markHolidays_fill_unmarked blank_sunday_store
           sample_employee "Jan" 2024 "S" [1; 26] 14).
  reflexivity.
Defined.

Example markWeekends_keeps_explicit_code :
  read_object
    (markWeekends blank_sunday_store sample_employee "Jan" 2024 "S").1
    (attendance sample_employee)
  = {[ 7 := "S"; 14 := "P"; 21 := "S"; 28 := "S" ]}.
Proof. vm_compute. reflexivity. Qed.

(** ** Consecutive absences *)

Lemma foldr_max_nonneg (l : list Z) : 0 <= foldr Z.max 0 l.
Proof. induction l as [|x l IH]; cbn; lia. Qed.

Lemma max_count_cons (i : Instance) (l : list Instance) :
  max_count (i :: l) = Z.max (count i) (max_count l).
Proof. reflexivity. Qed.

(** The loop from position [index] on, in terms of [scan]. *)
Lemma forEach_scan attendance days todo index st :
  drop index days = todo ->
  0 <= st_currentConsecutive st ->
  0 <= st_maxConsecutive st ->
  let st' := forEach_indexed (absences_body attendance days) index todo st in
  let found := scan attendance (st_currentConsecutive st) todo in
  st_instances st' = (st_instances st ++ found)%list
  /\ st_maxConsecutive st'
     = Z.max (st_maxConsecutive st) (max_count found)
  /\ st_totalInstances st'
     = st_totalInstances st + Z.of_nat (length found).
Proof.
  revert index st. induction todo as [|day rest IH];
    intros index st Hdrop Hcur Hmax.
  - cbn. rewrite app_nil_r. unfold max_count. cbn. repeat split; lia.
  - assert (Hnext : days !! (index + 1)%nat = head rest).
    { rewrite <- (lookup_drop days index 1), Hdrop. now destruct rest. }
    assert (Hlen : length days = (index + S (length rest))%nat).
    { pose proof (length_drop days index) as Hl. rewrite Hdrop in Hl.
      cbn [length] in Hl. lia. }
    assert (Hdrop' : drop (S index) days = rest).
    { replace (S index) with (index + 1)%nat by lia.
      rewrite <- drop_drop, Hdrop. reflexivity. }
    assert (Hlast : (Z.of_nat index =? Z.of_nat (length days) - 1)
                    || negb (coded_A attendance (head rest))
                    = negb (coded_A attendance (head rest))).
    { destruct (Z.eqb_spec (Z.of_nat index) (Z.of_nat (length days) - 1))
        as [E|E]; [|reflexivity].
      assert (rest = []) as ->
        by (destruct rest; [reflexivity|cbn in Hlen; lia]).
      reflexivity. }
    cbn [forEach_indexed scan]. unfold absences_body at 2 4 6.
    rewrite Hnext, Hlast.
    destruct (coded_A attendance (Some day)).
    + destruct (negb (coded_A attendance (head rest))).
      * destruct (Z.ltb_spec 0 (st_currentConsecutive st + 1)); [|lia].
        match goal with
        | |- context [forEach_indexed _ _ _ ?st1] =>
            destruct (IH (S index) st1 Hdrop' (Z.le_refl 0)) as [H1 [H2 H3]];
              [cbn; lia|]
        end.
        cbn [st_currentConsecutive st_instances st_maxConsecutive
             st_totalInstances] in H1, H2, H3 |- *.
        rewrite H1, H2, H3, max_count_cons. rewrite <- app_assoc.
        cbn [app length count]. repeat split; lia.
      * assert (Hc : 0 <= st_currentConsecutive st + 1) by lia.
        destruct (IH (S index)
                    (mkAbsenceState (st_maxConsecutive st)
                       (st_currentConsecutive st + 1)
                       (st_totalInstances st) (st_instances st))
                    Hdrop' Hc Hmax) as [H1 [H2 H3]].
        cbn [st_currentConsecutive st_instances st_maxConsecutive
             st_totalInstances] in H1, H2, H3 |- *.
        now rewrite H1, H2, H3.
    + destruct (IH (S index)
                  (mkAbsenceState (st_maxConsecutive st) 0
                     (st_totalInstances st) (st_instances st))
                  Hdrop' (Z.le_refl 0) Hmax) as [H1 [H2 H3]].
      cbn [st_currentConsecutive st_instances st_maxConsecutive
           st_totalInstances] in H1, H2, H3 |- *.
      now rewrite H1, H2, H3.
Qed.

Lemma extend_run_zero (run : list Z) :
  extend_run 0 (instance_of_run run) = instance_of_run run.
Proof. unfold extend_run, instance_of_run. cbn. f_equal; lia. Qed.

(** A sequence that begins with a flagged day has a first run, and that
    run is not empty. *)
Lemma absence_runs_head (day : Z) (rest : list (Z * bool)) :
  exists run runs, absence_runs ((day, true) :: rest) = (day :: run) :: runs.
Proof.
  revert day. induction rest as [|[d' [|]] rest IH]; intros day.
  - now exists [], [].
  - destruct (IH d') as [run [runs E]].
    exists (d' :: run), runs.
    change (absence_runs ((day, true) :: (d', true) :: rest))
      with (match absence_runs ((d', true) :: rest) with
            | run :: runs => (day :: run) :: runs
            | [] => [[day]]
            end).
    now rewrite E.
  - now exists [], (absence_runs rest).
Qed.

Lemma scan_runs attendance (todo : list Z) (current : Z) :
  scan attendance current todo
  = match absence_runs (absence_flags attendance todo) with
    | run :: runs =>
        if coded_A attendance (head todo)
        then extend_run current (instance_of_run run)
             :: (instance_of_run <$> runs)
        else instance_of_run <$> (run :: runs)
    | [] => []
    end.
Proof.
  revert current. induction todo as [|day rest IH]; intros current;
    [reflexivity|].
  cbn [scan head]. unfold absence_flags. cbn [fmap list_fmap].
  fold (absence_flags attendance rest).
  destruct (coded_A attendance (Some day)) eqn:Eday.
  - destruct rest as [|d' rest'].
    + cbn. unfold extend_run, instance_of_run. cbn. do 2 f_equal; lia.
    + cbn [head]. destruct (coded_A attendance (Some d')) eqn:Ed'; cbn [negb].
      * rewrite IH. cbn [head].
        unfold absence_flags. cbn [fmap list_fmap].
        fold (absence_flags attendance rest'). rewrite ?Ed'.
        destruct (absence_runs_head d' (absence_flags attendance rest'))
          as [run [runs E]].
        change (absence_runs
                  ((day, true) :: (d', true) :: absence_flags attendance rest'))
          with (match absence_runs
                        ((d', true) :: absence_flags attendance rest') with
                | run :: runs => (day :: run) :: runs
                | [] => [[day]]
                end).
        rewrite E. f_equal.
        unfold extend_run, instance_of_run.
        cbn [end_ count length]. change (List.last (day :: d' :: run) 0)
          with (List.last (d' :: run) 0).
        f_equal; lia.
      * rewrite IH. cbn [head].
        unfold absence_flags. cbn [fmap list_fmap].
        fold (absence_flags attendance rest'). rewrite ?Ed'.
        cbn [absence_runs]. f_equal.
        -- unfold extend_run, instance_of_run. cbn. f_equal; lia.
        -- now destruct (absence_runs (absence_flags attendance rest')).
  - rewrite IH. cbn [absence_runs].
    destruct (absence_runs (absence_flags attendance rest)) as [|run runs];
      [reflexivity|].
    destruct (coded_A attendance (head rest)); [|reflexivity].
    cbn [fmap list_fmap]. now rewrite extend_run_zero.
Qed.

(** The result in terms of [scan]. *)
Lemma calculateConsecutiveAbsences_scan (attendance : gmap Z string) :
  let found := scan attendance 0 (sorted_days attendance) in
  calculateConsecutiveAbsences attendance
  = mkConsecutiveAbsences (max_count found) (Z.of_nat (length found)) found.
Proof.
  cbn zeta. unfold calculateConsecutiveAbsences.
  destruct (forEach_scan attendance (sorted_days attendance)
              (sorted_days attendance) 0 (mkAbsenceState 0 0 0 []))
    as [H1 [H2 H3]]; try reflexivity.
  cbn [st_currentConsecutive st_instances st_maxConsecutive
       st_totalInstances] in H1, H2, H3.
  rewrite H1, H2, H3. cbn [app]. f_equal.
  pose proof (foldr_max_nonneg
                (count <$> scan attendance 0 (sorted_days attendance))).
  unfold max_count. lia.
Qed.

Lemma sorted_days_sorted (attendance : gmap Z string) :
  Sorted Z.le (sorted_days attendance).
Proof. unfold sorted_days. apply Sorted_merge_sort. apply _. Qed.

Lemma sorted_days_NoDup (attendance : gmap Z string) :
  NoDup (sorted_days attendance).
Proof.
  unfold sorted_days. rewrite merge_sort_Permutation. apply NoDup_elements.
Qed.

Lemma elem_of_sorted_days (attendance : gmap Z string) (day : Z) :
  day ∈ sorted_days attendance <-> is_Some (attendance !! day).
Proof.
  unfold sorted_days.
  rewrite merge_sort_Permutation, elem_of_elements. apply elem_of_dom.
Qed.

(** C9. [calculateConsecutiveAbsences] visits the marked days in
    ascending order and reports one instance for each maximal run of
    adjacent days coded A, a run ending where the next marked day is not
    coded A or where the days end: the instance holds the run's last day
    as [end], its length as [count] and [end - count + 1] as [start];
    [maxConsecutive] is the longest count and [totalInstances] the number
    of instances.  On [three_absences] the result is the single instance
    from 3 to 5 of count 3. *)
Theorem calculateConsecutiveAbsences_runs :
  forall attendance : gmap Z string,
    let days := sorted_days attendance in
    let r := calculateConsecutiveAbsences attendance in
    Sorted Z.le days
    /\ NoDup days
    /\ (forall day, day ∈ days <-> is_Some (attendance !! day))
    /\ instances r
       = instance_of_run <$> absence_runs (absence_flags attendance days)
    /\ maxConsecutive r = foldr Z.max 0 (count <$> instances r)
    /\ totalInstances r = Z.of_nat (length (instances r))
    /\ calculateConsecutiveAbsences three_absences
       = mkConsecutiveAbsences 3 1 [mkInstance 3 5 3].
Proof.
  intros attendance days r.
  split; [apply sorted_days_sorted|].
  split; [apply sorted_days_NoDup|].
  split; [apply elem_of_sorted_days|].
  unfold r. rewrite calculateConsecutiveAbsences_scan.
  cbn [instances maxConsecutive totalInstances].
  repeat split.
  rewrite scan_runs. fold days.
  destruct (absence_runs (absence_flags attendance days)) as [|run runs];
    [reflexivity|].
  destruct (coded_A attendance (head days)); [|reflexivity].
  cbn [fmap list_fmap]. now rewrite extend_run_zero.
Qed.

(** Two marked days with no marked day between them are neighbours in the
    scanning order. *)
Lemma sorted_days_adjacent (attendance : gmap Z string) (d1 d2 : Z) :
  d1 < d2 ->
  is_Some (attendance !! d1) ->
  is_Some (attendance !! d2) ->
  (forall d, d1 < d < d2 -> attendance !! d = None) ->
  exists pre post, sorted_days attendance = (pre ++ d1 :: d2 :: post)%list.
Proof.
  intros Hlt H1 H2 Hgap.
  assert (Hss : StronglySorted Z.le (sorted_days attendance)).
  { apply Sorted_StronglySorted; [apply _|apply sorted_days_sorted]. }
  pose proof (sorted_days_NoDup attendance) as Hnd.
  pose proof (elem_of_sorted_days attendance) as Hin.
  apply Hin in H1. apply Hin in H2.
  destruct (list_elem_of_split _ _ H1) as [pre [rest E]].
  rewrite E in Hss, Hnd, H2, Hin.
  apply StronglySorted_app in Hss. destruct Hss as [Hpre [_ Hrest]].
  apply StronglySorted_cons in Hrest. destruct Hrest as [Hge Hrest].
  apply NoDup_app in Hnd. destruct Hnd as [_ [_ Hnd]].
  apply NoDup_cons in Hnd. destruct Hnd as [Hd1 _].
  assert (Hd2 : d2 ∈ rest).
  { apply elem_of_app in H2. destruct H2 as [H2|H2].
    - specialize (Hpre d2 d1 H2 (list_elem_of_here _ _)). lia.
    - apply elem_of_cons in H2. destruct H2 as [H2|H2]; [lia|assumption]. }
  destruct rest as [|x post]; [now apply elem_of_nil in Hd2|].
  exists pre, post. rewrite E. do 3 f_equal.
  assert (d1 <= x) by (apply Forall_cons in Hge; tauto).
  assert (x <> d1).
  { intros ->. apply Hd1. apply list_elem_of_here. }
  assert (x <= d2).
  { apply elem_of_cons in Hd2. destruct Hd2 as [->|Hd2]; [lia|].
    apply StronglySorted_cons in Hrest. destruct Hrest as [Hx _].
    rewrite Forall_forall in Hx. now apply Hx. }
  destruct (decide (x = d2)) as [|Hne]; [assumption|].
  assert (Hx : is_Some (attendance !! x)).
  { apply Hin. apply elem_of_app. right. apply list_elem_of_further.
    apply list_elem_of_here. }
  rewrite Hgap in Hx by lia. now destruct Hx.
Qed.

Lemma scan_cons attendance (current day : Z) (rest : list Z) :
  scan attendance current (day :: rest)
  = if coded_A attendance (Some day) then
      if negb (coded_A attendance (head rest)) then
        mkInstance (day - (current + 1) + 1) day (current + 1)
        :: scan attendance 0 rest
      else scan attendance (current + 1) rest
    else scan attendance 0 rest.
Proof. reflexivity. Qed.

(** Every instance ends on one of the days scanned. *)
Lemma scan_end_elem_of attendance (todo : list Z) (current : Z) :
  Forall (fun i => end_ i ∈ todo) (scan attendance current todo).
Proof.
  revert current. induction todo as [|day rest IH]; intros current;
    cbn [scan]; [constructor|].
  assert (Hrest : forall k, Forall (fun i => end_ i ∈ day :: rest)
                              (scan attendance k rest)).
  { intros k. eapply Forall_impl; [apply IH|].
    intros i Hi. now apply list_elem_of_further. }
  destruct (coded_A attendance (Some day)); [|apply Hrest].
  destruct (negb _); [|apply Hrest].
  constructor; [apply list_elem_of_here|apply Hrest].
Qed.

(** No instance ends on a day whose successor in the scanning order is
    coded A. *)
Lemma scan_not_closed attendance (d1 d2 : Z) (pre post : list Z)
    (current : Z) :
  coded_A attendance (Some d2) = true ->
  d1 ∉ pre -> d1 ∉ d2 :: post ->
  Forall (fun i => end_ i <> d1)
    (scan attendance current (pre ++ d1 :: d2 :: post)).
Proof.
  intros Hd2 Hpre Hpost. revert current.
  assert (Htail : forall k, Forall (fun i => end_ i <> d1)
                              (scan attendance k (d2 :: post))).
  { intros k. eapply Forall_impl; [apply scan_end_elem_of|].
    intros i Hi E. apply Hpost. now rewrite <- E. }
  induction pre as [|x pre IH]; intros current; cbn [app];
    rewrite scan_cons; cbn [head].
  - rewrite Hd2. cbn [negb].
    destruct (coded_A attendance (Some d1)); apply Htail.
  - assert (x <> d1 /\ d1 ∉ pre) as [Hx Hpre'].
    { split.
      - intros ->. apply Hpre. apply list_elem_of_here.
      - intros H. apply Hpre. now apply list_elem_of_further. }
    specialize (IH Hpre').
    destruct (coded_A attendance (Some x)); [|apply IH].
    destruct (negb _); [|apply IH].
    constructor; [exact Hx|apply IH].
Qed.

Lemma scan_start attendance (todo : list Z) (current : Z) :
  Forall (fun i => start i = end_ i - count i + 1)
    (scan attendance current todo).
Proof.
  revert current. induction todo as [|day rest IH]; intros current;
    cbn [scan]; [constructor|].
  destruct (coded_A attendance (Some day)); [|apply IH].
  destruct (negb _); [|apply IH].
  constructor; [reflexivity|apply IH].
Qed.

(** Days that are neighbours in the scanning order and both coded A lie
    in one run. *)
Lemma absence_runs_adjacent (pre post : list (Z * bool)) (d1 d2 : Z) :
  Exists (fun run => d1 ∈ run /\ d2 ∈ run)
    (absence_runs (pre ++ (d1, true) :: (d2, true) :: post)).
Proof.
  induction pre as [|[x [|]] pre IH].
  - cbn [app].
    destruct (absence_runs_head d2 post) as [run [runs E]].
    change (absence_runs ((d1, true) :: (d2, true) :: post))
      with (match absence_runs ((d2, true) :: post) with
            | run :: runs => (d1 :: run) :: runs
            | [] => [[d1]]
            end).
    rewrite E. apply Exists_cons_hd.
    split; [apply list_elem_of_here|].
    apply list_elem_of_further, list_elem_of_here.
  - cbn [app absence_runs].
    destruct (pre ++ (d1, true) :: (d2, true) :: post)%list
      as [|[y [|]] tail] eqn:E.
    + apply Exists_cons_tl. exact IH.
    + destruct (absence_runs ((y, true) :: tail)) as [|run runs].
      * inversion IH.
      * apply Exists_cons in IH. destruct IH as [[Ha Hb]|IH].
        -- apply Exists_cons_hd. split; now apply list_elem_of_further.
        -- now apply Exists_cons_tl.
    + apply Exists_cons_tl. exact IH.
  - cbn [app absence_runs]. exact IH.
Qed.

Lemma spaced_absences_neighbours (attendance : gmap Z string) (d1 : Z)
    (gap : nat) :
  let spaced := spaced_absences attendance d1 gap in
  coded_A spaced (Some d1) = true
  /\ coded_A spaced (Some (d1 + 1 + Z.of_nat gap)) = true
  /\ exists pre post,
       sorted_days spaced
       = (pre ++ d1 :: (d1 + 1 + Z.of_nat gap) :: post)%list.
Proof.
  cbn zeta. unfold spaced_absences. cbn zeta.
  set (d2 := d1 + 1 + Z.of_nat gap).
  set (m := filter _ attendance).
  assert (Hlt : d1 < d2) by (unfold d2; lia).
  assert (H1 : <[d1:="A"]> (<[d2:="A"]> m) !! d1 = Some "A")
    by apply lookup_insert_eq.
  assert (H2 : <[d1:="A"]> (<[d2:="A"]> m) !! d2 = Some "A").
  { rewrite lookup_insert_ne by lia. apply lookup_insert_eq. }
  split; [|split].
  - unfold coded_A. cbn [mbind option_bind]. now rewrite H1.
  - unfold coded_A. cbn [mbind option_bind]. now rewrite H2.
  - apply sorted_days_adjacent; [assumption|now rewrite H1|now rewrite H2|].
    intros d Hd. rewrite !lookup_insert_ne by lia.
    apply map_lookup_filter_None. right. intros x _ Hp.
    apply Hp. cbn. fold d2. lia.
Qed.

(** The instances are the runs of the scanning order, one for one. *)
Lemma calculateConsecutiveAbsences_instances (attendance : gmap Z string) :
  instances (calculateConsecutiveAbsences attendance)
  = instance_of_run
      <$> absence_runs (absence_flags attendance (sorted_days attendance)).
Proof.
  rewrite calculateConsecutiveAbsences_scan. cbn [instances].
  rewrite scan_runs.
  destruct (absence_runs _) as [|run runs]; [reflexivity|].
  destruct (coded_A attendance (head (sorted_days attendance)));
    [|reflexivity].
  cbn [fmap list_fmap]. now rewrite extend_run_zero.
Qed.

Lemma absence_runs_extend (day y : Z) (tail : list (Z * bool)) :
  absence_runs ((day, true) :: (y, true) :: tail)
  = match absence_runs ((y, true) :: tail) with
    | run :: runs => (day :: run) :: runs
    | [] => [[day]]
    end.
Proof. reflexivity. Qed.

(** Every run is a non-empty stretch of consecutive entries, all of them
    flagged; a sequence that begins with a flagged entry begins with its
    first run. *)
Lemma absence_runs_segments (entries : list (Z * bool)) :
  Forall (fun run =>
            run <> []
            /\ exists pre post,
                 entries
                 = (pre ++ ((fun d : Z => (d, true)) <$> run) ++ post)%list)
         (absence_runs entries)
  /\ forall day rest,
       entries = (day, true) :: rest ->
       exists run runs post,
         absence_runs entries = (day :: run) :: runs
         /\ entries
            = (((fun d : Z => (d, true)) <$> day :: run) ++ post)%list.
Proof.
  induction entries as [|[day b] rest [IHall IHhead]].
  - split; [constructor|]. intros day rest E. discriminate.
  - assert (Hlater :
              Forall (fun run =>
                        run <> []
                        /\ exists pre post,
                             (day, b) :: rest
                             = (pre ++ ((fun d : Z => (d, true)) <$> run)
                                    ++ post)%list)
                     (absence_runs rest)).
    { eapply Forall_impl; [exact IHall|].
      intros run [Hne (pre & post & E)]. split; [exact Hne|].
      exists ((day, b) :: pre), post. now rewrite E. }
    destruct b.
    + destruct rest as [|[y [|]] tail].
      * split.
        -- cbn [absence_runs]. constructor; [|constructor].
           split; [discriminate|]. now exists [], [].
        -- intros day' rest' [= <- <-]. now exists [], [], [].
      * destruct (IHhead y tail eq_refl) as (run & runs & post & Er & Ee).
        rewrite absence_runs_extend, Er. rewrite Er in Hlater.
        apply Forall_cons in Hlater as [_ Hlater].
        split.
        -- constructor; [|exact Hlater].
           split; [discriminate|]. exists [], post.
           cbn [app]. rewrite Ee. reflexivity.
        -- intros day' rest' [= <- <-]. exists (y :: run), runs, post.
           split; [reflexivity|]. rewrite Ee. reflexivity.
      * change (absence_runs ((day, true) :: (y, false) :: tail))
          with ([day] :: absence_runs ((y, false) :: tail)).
        split.
        -- constructor; [|exact Hlater].
           split; [discriminate|]. now exists [], ((y, false) :: tail).
        -- intros day' rest' [= <- <-].
           now exists [], (absence_runs ((y, false) :: tail)),
                      ((y, false) :: tail).
    + split; [exact Hlater|]. intros day' rest' E. discriminate.
Qed.

Lemma fst_flagged (flag : Z -> bool) (days : list Z) :
  fst <$> ((fun d => (d, flag d)) <$> days) = days.
Proof.
  induction days as [|d days IH]; [reflexivity|].
  cbn [fmap list_fmap fst]. f_equal. exact IH.
Qed.

Lemma last_nonempty (run : list Z) :
  run <> [] -> last run = Some (List.last run 0).
Proof.
  induction run as [|d [|d' run] IH]; intros Hne; [contradiction|reflexivity|].
  change (last (d :: d' :: run)) with (last (d' :: run)).
  change (List.last (d :: d' :: run) 0) with (List.last (d' :: run) 0).
  now apply IH.
Qed.

(** C10. Runs follow adjacency in the ascending list of marked days, not
    adjacency in the calendar.  Every reported instance has
    [start = end - count + 1].  When two days coded A have only unmarked
    days between them, no reported instance ends on the first of them,
    and one reported instance counts them both: it is the instance of a
    stretch of consecutive marked days, all coded A, that holds both
    days, with the last day of the stretch as [end] and its length as
    [count].  On [absences_around_gap] the single instance runs from 4 to
    5 with count 2, and day 4 has no entry. *)
Theorem calculateConsecutiveAbsences_sorted_adjacency :
  forall (attendance : gmap Z string) (d1 : Z) (gap : nat),
    let d2 := d1 + 1 + Z.of_nat gap in
    let spaced := spaced_absences attendance d1 gap in
    Forall (fun i => start i = end_ i - count i + 1)
      (instances (calculateConsecutiveAbsences attendance))
    /\ Forall (fun i => end_ i <> d1)
         (instances (calculateConsecutiveAbsences spaced))
    /\ (exists (i : Instance) (pre run post : list Z),
          i ∈ instances (calculateConsecutiveAbsences spaced)
          /\ sorted_days spaced = (pre ++ run ++ post)%list
          /\ d1 ∈ run /\ d2 ∈ run
          /\ Forall (fun d => coded_A spaced (Some d) = true) run
          /\ last run = Some (end_ i)
          /\ count i = Z.of_nat (length run)
          /\ start i = end_ i - count i + 1)
    /\ Exists (fun run => d1 ∈ run /\ d2 ∈ run)
         (absence_runs (absence_flags spaced (sorted_days spaced)))
    /\ spaced_absences ∅ 3 1 = absences_around_gap
    /\ calculateConsecutiveAbsences absences_around_gap
       = mkConsecutiveAbsences 2 1 [mkInstance 4 5 2]
    /\ absences_around_gap !! 4 = None.
Proof.
  intros attendance d1 gap d2 spaced.
  destruct (spaced_absences_neighbours attendance d1 gap)
    as [H1 [H2 [pre [post E]]]].
  fold spaced d2 in H1, H2, E.
  assert (Hruns : Exists (fun run => d1 ∈ run /\ d2 ∈ run)
                    (absence_runs
                       (absence_flags spaced (sorted_days spaced)))).
  { rewrite E. unfold absence_flags.
    rewrite fmap_app. cbn [fmap list_fmap]. rewrite H1, H2.
    apply absence_runs_adjacent. }
  split; [|split; [|split; [|split; [|split; [|split]]]]].
  - rewrite calculateConsecutiveAbsences_scan. cbn [instances].
    apply scan_start.
  - rewrite calculateConsecutiveAbsences_scan. cbn [instances].
    pose proof (sorted_days_NoDup spaced) as Hnd.
    rewrite E in Hnd |- *.
    apply NoDup_app in Hnd. destruct Hnd as [_ [Hpre Hnd]].
    apply NoDup_cons in Hnd. destruct Hnd as [Hpost _].
    apply scan_not_closed; [assumption| |assumption].
    intros Hin. apply (Hpre d1 Hin). apply list_elem_of_here.
  - apply Exists_exists in Hruns as (run & Hrun & Hd1 & Hd2).
    pose proof (proj1 (absence_runs_segments
                         (absence_flags spaced (sorted_days spaced))))
      as Hseg.
    rewrite Forall_forall in Hseg.
    destruct (Hseg run Hrun) as [Hne (before & after & Eseg)].
    exists (instance_of_run run), (fst <$> before), run, (fst <$> after).
    split.
    { rewrite calculateConsecutiveAbsences_instances.
      apply list_elem_of_fmap. now exists run. }
    split.
    { apply (f_equal (fmap fst)) in Eseg.
      unfold absence_flags in Eseg.
      now rewrite !fmap_app, !fst_flagged in Eseg. }
    split; [exact Hd1|]. split; [exact Hd2|].
    split.
    { apply Forall_forall. intros d Hd.
      assert (Hin : (d, true) ∈ absence_flags spaced (sorted_days spaced)).
      { rewrite Eseg. apply elem_of_app. right. apply elem_of_app. left.
        apply list_elem_of_fmap. now exists d. }
      unfold absence_flags in Hin.
      apply list_elem_of_fmap in Hin as (d' & [= <- Hc] & _).
      now symmetry. }
    split; [now apply last_nonempty|].
    split; [reflexivity|].
    unfold instance_of_run. cbn [start end_ count]. lia.
  - exact Hruns.
  - vm_compute. reflexivity.
  - vm_compute. reflexivity.
  - reflexivity.
Qed.

(** * Further properties of the modelled code *)

(** ** Calendar helper: Sundays and holidays *)

Lemma getDaysInMonth_cases (month : string) (year : Z) :
  getDaysInMonth month year = 28 \/ getDaysInMonth month year = 29
  \/ getDaysInMonth month year = 30 \/ getDaysInMonth month year = 31.
Proof.
  rewrite getDaysInMonth_table. unfold spec_daysInMonth.
  repeat case_bool_decide; tauto.
Qed.

Lemma push_sundays_filter (year monthIndex : Z) (l acc : list Z) :
  foldl (fun sundays day =>
           match JSDate.getDay year monthIndex day with
           | Some 0 => (sundays ++ [day])%list
           | _ => sundays
           end) acc l
  = (acc ++ List.filter (is_sunday year monthIndex) l)%list.
Proof.
  revert acc. induction l as [|d l IH]; intros acc; cbn [foldl List.filter].
  - now rewrite app_nil_r.
  - rewrite IH. unfold is_sunday at 2.
    destruct (JSDate.getDay _ _ _) as [[| |]|]; try reflexivity.
    now rewrite <- app_assoc.
Qed.

Lemma getSundaysInMonth_filter (month : string) (year : Z) :
  getSundaysInMonth month year
  = List.filter (is_sunday year (indexOf month_names month))
      (seqZ 1 (getDaysInMonth month year)).
Proof.
  unfold getSundaysInMonth, days_of_loop. now rewrite push_sundays_filter.
Qed.

Lemma month_start_bounds (mn : Z) :
  0 <= nth (Z.to_nat mn) JSDate.month_start 0 <= 334.
Proof.
  unfold JSDate.month_start.
  destruct (Z.to_nat mn) as [|[|[|[|[|[|[|[|[|[|[|[|[|n]]]]]]]]]]]]];
    cbn; lia.
Qed.

Lemma indexOf_month_names_bounds (month : string) :
  -1 <= indexOf month_names month <= 11.
Proof.
  unfold indexOf, findIndex, month_names. cbn [findIndex_from].
  repeat match goal with
  | |- context [String.eqb month ?k] => destruct (String.eqb month k)
  end; lia.
Qed.

(** Within the years below, every date the calendar helper builds is a
    valid date, and its weekday advances with the day of the month. *)
Lemma getDay_in_range (year monthIndex : Z) :
  -200000 <= year <= 200000 -> -1 <= monthIndex <= 11 ->
  exists base, forall d, 1 <= d <= 31 ->
    JSDate.getDay year monthIndex d = Some ((base + d) mod 7).
Proof.
  intros Hy Hm.
  set (yr := if (0 <=? year) && (year <=? 99) then 1900 + year else year).
  assert (Hyr : -200000 <= yr <= 200000).
  { unfold yr. destruct ((0 <=? year) && (year <=? 99)) eqn:E; [|lia].
    apply andb_prop in E. destruct E as [E1 E2].
    apply Z.leb_le in E1, E2. lia. }
  exists (JSDate.MakeDay yr monthIndex 0 + 4).
  intros d Hd. unfold JSDate.getDay. fold yr.
  assert (Hlin : JSDate.MakeDay yr monthIndex d
                 = JSDate.MakeDay yr monthIndex 0 + d).
  { unfold JSDate.MakeDay. lia. }
  assert (Hb : -99000000 <= JSDate.MakeDay yr monthIndex 0 <= 99000000).
  { unfold JSDate.MakeDay, JSDate.DayFromYear.
    pose proof (month_start_bounds (monthIndex mod 12)) as Hs.
    assert (Hq : -1 <= monthIndex / 12 <= 0)
      by (Z.to_euclidean_division_equations; lia).
    set (ym := yr + monthIndex / 12) in *.
    assert (Hym : -200001 <= ym <= 200000) by (unfold ym; lia).
    clearbody ym.
    generalize dependent (nth (Z.to_nat (monthIndex mod 12))
                            JSDate.month_start 0).
    intros start Hs.
    destruct (JSDate.InLeapYear ym && _);
      Z.to_euclidean_division_equations; lia. }
  rewrite Hlin.
  destruct (Z.leb_spec (Z.abs (JSDate.MakeDay yr monthIndex 0 + d))
              100000000) as [_|Hbig]; [|lia].
  unfold JSDate.WeekDay. f_equal. f_equal. lia.
Qed.

(** On a host in UTC and within years -200000..200000, the Sundays of a
    month are four or five days, seven apart, the first within the first
    week. *)
Lemma getSundaysInMonth_seven_apart :
  forall (month : string) (year : Z),
    -200000 <= year <= 200000 ->
    exists first,
      1 <= first <= 7
      /\ getSundaysInMonth month year
         = ([first; first + 7; first + 14; first + 21]
            ++ (if first + 28 <=? getDaysInMonth month year
                then [first + 28] else []))%list.
Proof.
  intros month year Hy. rewrite getSundaysInMonth_filter.
  destruct (getDay_in_range year (indexOf month_names month) Hy
              (indexOf_month_names_bounds month)) as [base Hb].
  set (r := base mod 7).
  assert (Hr : 0 <= r < 7) by (unfold r; apply Z.mod_pos_bound; lia).
  assert (Hf : forall dim, 28 <= dim <= 31 ->
            List.filter (is_sunday year (indexOf month_names month))
              (seqZ 1 dim)
            = List.filter (fun d => (r + d) mod 7 =? 0) (seqZ 1 dim)).
  { intros dim Hdim. apply List.filter_ext_in. intros d Hd.
    apply list_elem_of_In, elem_of_seqZ in Hd.
    unfold is_sunday. rewrite Hb by lia.
    replace ((base + d) mod 7) with ((r + d) mod 7)
      by (unfold r; now rewrite Zplus_mod_idemp_l).
    destruct ((r + d) mod 7) as [|p|p] eqn:E; reflexivity. }
  assert (Hcases : r = 0 \/ r = 1 \/ r = 2 \/ r = 3 \/ r = 4 \/ r = 5
                   \/ r = 6) by lia.
  clearbody r.
  destruct (getDaysInMonth_cases month year) as [E|[E|[E|E]]];
    rewrite E; rewrite Hf by lia;
    destruct Hcases as [-> | [-> | [-> | [-> | [-> | [-> | ->]]]]]];
    match goal with
    | |- exists _, _ /\ ?l = _ =>
        let v := eval vm_compute in l in
        match v with
        | ?f :: _ => exists f; split; [lia|vm_compute; reflexivity]
        end
    end.
Qed.

(** Where the zone keeps local midnight on its calendar day, the weekday
    read in local time is the weekday of that calendar day. *)
Lemma Host_getDay_calendar (tz : Host.TimeZone) (year monthIndex day : Z) :
  -200000 <= year <= 200000 -> -1 <= monthIndex <= 11 -> 1 <= day <= 31 ->
  let t := Host.midnight year monthIndex day in
  Z.abs (Host.LocalTZA_local tz t) <= Host.msPerDay ->
  Host.Day (Host.LocalTime tz (Host.UTC tz t)) = Host.Day t ->
  Host.getDay tz year monthIndex day = JSDate.getDay year monthIndex day.
Proof.
  intros Hy Hm Hd t Hoff Hday.
  unfold Host.getDay, JSDate.getDay, Host.TimeClip. fold t.
  unfold Host.midnight in t.
  set (yr := if (0 <=? year) && (year <=? 99) then 1900 + year else year)
    in *.
  assert (Hyr : -200000 <= yr <= 200000).
  { unfold yr. destruct ((0 <=? year) && (year <=? 99)) eqn:E; [|lia].
    apply andb_prop in E. destruct E as [E1 E2].
    apply Z.leb_le in E1, E2. lia. }
  assert (Hb : -99000000 <= JSDate.MakeDay yr monthIndex day <= 99000031).
  { unfold JSDate.MakeDay, JSDate.DayFromYear.
    pose proof (month_start_bounds (monthIndex mod 12)) as Hs.
    assert (Hq : -1 <= monthIndex / 12 <= 0)
      by (Z.to_euclidean_division_equations; lia).
    set (ym := yr + monthIndex / 12) in *.
    assert (Hym : -200001 <= ym <= 200000) by (unfold ym; lia).
    clearbody ym.
    generalize dependent (nth (Z.to_nat (monthIndex mod 12))
                            JSDate.month_start 0).
    intros start Hs.
    destruct (JSDate.InLeapYear ym && _);
      Z.to_euclidean_division_equations; lia. }
  set (d := JSDate.MakeDay yr monthIndex day) in *.
  assert (Et : Host.Day t = d).
  { unfold t, Host.Day, Host.MakeDate, Host.msPerDay.
    rewrite Z.add_0_r. apply Z.div_mul. lia. }
  assert (Hclip : Z.abs (Host.UTC tz t) <= 8640000000000000).
  { unfold Host.UTC. unfold Host.msPerDay in Hoff.
    assert (t = d * 86400000)
      by (unfold t, Host.MakeDate, Host.msPerDay; lia).
    lia. }
  apply Z.leb_le in Hclip. rewrite Hclip, Hday, Et.
  assert (Hvalid : (Z.abs d <=? 100000000) = true)
    by (apply Z.leb_le; lia).
  now rewrite Hvalid.
Qed.

Lemma push_sundays_ext (f g : Z -> option Z) (l acc : list Z) :
  Forall (fun day => f day = g day) l ->
  foldl (fun sundays day =>
           match f day with
           | Some 0 => (sundays ++ [day])%list
           | _ => sundays
           end) acc l
  = foldl (fun sundays day =>
             match g day with
             | Some 0 => (sundays ++ [day])%list
             | _ => sundays
             end) acc l.
Proof.
  intros Hall. revert acc.
  induction Hall as [|d l Hd Hall IH]; intros acc; [reflexivity|].
  cbn [foldl]. rewrite Hd. apply IH.
Qed.

(** X1. On a host whose time zone moves no local midnight of the month to
    another calendar day, and within years -200000..200000,
    [getSundaysInMonth] returns what it returns on a host in UTC: four or
    five days, seven apart, the first within the first week, all within
    the month. *)
Theorem getSundaysInMonth_weekly :
  forall (tz : Host.TimeZone) (month : string) (year : Z),
    -200000 <= year <= 200000 ->
    keeps_calendar_days tz year (indexOf month_names month) ->
    Host.getSundaysInMonth tz month year = getSundaysInMonth month year
    /\ exists first,
         1 <= first <= 7
         /\ Host.getSundaysInMonth tz month year
            = ([first; first + 7; first + 14; first + 21]
               ++ (if first + 28 <=? getDaysInMonth month year
                   then [first + 28] else []))%list.
Proof.
  intros tz month year Hy Hkeeps.
  assert (E : Host.getSundaysInMonth tz month year
              = getSundaysInMonth month year).
  { unfold Host.getSundaysInMonth, getSundaysInMonth, days_of_loop.
    apply push_sundays_ext. apply Forall_forall. intros day Hday.
    apply elem_of_seqZ in Hday.
    assert (Hd : 1 <= day <= 31).
    { destruct (getDaysInMonth_cases month year) as [H|[H|[H|H]]]; lia. }
    destruct (Hkeeps day Hd) as [Hoff Hsame].
    apply Host_getDay_calendar;
      [exact Hy|apply indexOf_month_names_bounds|exact Hd|exact Hoff
      |exact Hsame]. }
  split; [exact E|]. rewrite E.
  now apply getSundaysInMonth_seven_apart.
Qed.

Lemma getSundaysInMonth_weekly_witness :
  -200000 <= 2024 <= 200000
  /\ keeps_calendar_days india 2024 (indexOf month_names "Feb")
  /\ Host.getSundaysInMonth india "Feb" 2024 = getSundaysInMonth "Feb" 2024
  /\ exists first,
       1 <= first <= 7
       /\ Host.getSundaysInMonth india "Feb" 2024
          = ([first; first + 7; first + 14; first + 21]
             ++ (if first + 28 <=? getDaysInMonth "Feb" 2024
                 then [first + 28] else []))%list.
Proof.
  assert (Hy : -200000 <= 2024 <= 200000) by lia.
  assert (Hk : keeps_calendar_days india 2024 (indexOf month_names "Feb")).
  { intros day Hday. cbv zeta. split.
    - vm_compute. discriminate.
    - unfold Host.LocalTime, Host.UTC, india, fixed_offset.
      cbn [Host.LocalTZA_utc Host.LocalTZA_local]. f_equal. lia. }
  split; [exact Hy|]. split; [exact Hk|].
  exact (getSundaysInMonth_weekly india "Feb" 2024 Hy Hk).
Defined.

(** In August 1993 Kwajalein had no 21st: local midnight of the 21st is
    the instant at which the 22nd, a Sunday, began, and the helper lists
    both days. *)
Example getSundaysInMonth_skipped_day :
  Host.getSundaysInMonth kwajalein "Aug" 1993 = [1; 8; 15; 21; 22; 29]
  /\ getSundaysInMonth "Aug" 1993 = [1; 8; 15; 22; 29]
  /\ ~ keeps_calendar_days kwajalein 1993 (indexOf month_names "Aug").
Proof.
  split; [vm_compute; reflexivity|]. split; [vm_compute; reflexivity|].
  intros Hkeeps. destruct (Hkeeps 21 ltac:(lia)) as [_ Hsame].
  vm_compute in Hsame. discriminate.
Qed.

(** ** Summary engine: closed form and bounds *)

Lemma indicator_coded attendance codes day :
  indicator (coded attendance codes day)
  = match code_on attendance day with
    | Some u => if existsb (String.eqb u) codes then 1 else 0
    | None => 0
    end.
Proof.
  unfold indicator.
  destruct (decide (coded attendance codes day)) as [H|H];
    unfold coded in H;
    destruct (code_on attendance day) as [u|]; try tauto;
    rewrite <- bool_decide_elem_of_strings.
  - now rewrite bool_decide_eq_true_2.
  - now rewrite bool_decide_eq_false_2.
Qed.

Lemma pass1_body_code_on attendance s day :
  pass1_body attendance s day
  = match code_on attendance day with
    | Some u => count_code u s
    | None => s
    end.
Proof.
  unfold pass1_body, code_on.
  destruct (attendance !! day) as [c|]; [|reflexivity].
  now destruct (truthy c).
Qed.

(** What one iteration of the first loop adds to the integer counters. *)
Lemma pass1_body_counts attendance s day :
  let s' := pass1_body attendance s day in
  totalOff s' = totalOff s + indicator (coded attendance ["O"] day)
  /\ totalSundays s'
     = totalSundays s + indicator (coded attendance ["S"] day)
  /\ totalHolidays s'
     = totalHolidays s + indicator (coded attendance ["H"] day)
  /\ totalNightShift s'
     = totalNightShift s + indicator (coded attendance ["N"] day)
  /\ totalAbsent s'
     = totalAbsent s + indicator (coded attendance ["A"] day)
  /\ totalOnLeave s'
     = totalOnLeave s + indicator (coded attendance ["L"] day)
  /\ totalWorkingDays s' = totalWorkingDays s.
Proof.
  cbn zeta. rewrite pass1_body_code_on, !indicator_coded.
  destruct (code_on attendance day) as [u|]; [|repeat split; lia].
  unfold count_code. cbn [existsb orb].
  case_codes u; cbn; repeat split; lia.
Qed.

Lemma first_pass_counts attendance days s :
  let s' := foldl (pass1_body attendance) s days in
  let n codes := Z.of_nat (length (filter (coded attendance codes) days)) in
  totalOff s' = totalOff s + n ["O"]
  /\ totalSundays s' = totalSundays s + n ["S"]
  /\ totalHolidays s' = totalHolidays s + n ["H"]
  /\ totalNightShift s' = totalNightShift s + n ["N"]
  /\ totalAbsent s' = totalAbsent s + n ["A"]
  /\ totalOnLeave s' = totalOnLeave s + n ["L"]
  /\ totalWorkingDays s' = totalWorkingDays s.
Proof.
  cbn zeta. revert s. induction days as [|d days IH]; intros s.
  - cbn. repeat split; lia.
  - cbn [foldl].
    destruct (IH (pass1_body attendance s d))
      as (H1 & H2 & H3 & H4 & H5 & H6 & H7).
    destruct (pass1_body_counts attendance s d)
      as (K1 & K2 & K3 & K4 & K5 & K6 & K7).
    rewrite H1, H2, H3, H4, H5, H6, H7, K1, K2, K3, K4, K5, K6, K7.
    rewrite !indicator_filter. repeat split; lia.
Qed.

(** Flooring a whole number plus a number of halves. *)
Lemma Qfloor_halves (a b : Z) :
  Qfloor (inject_Z a + (1 # 2) * inject_Z b) = a + b / 2.
Proof.
  rewrite (Qfloor_comp _ ((2 * a + b) # 2)).
  - cbn [Qfloor]. rewrite Z.add_comm, Z.mul_comm, Z.div_add by lia. lia.
  - unfold Qeq, inject_Z, Qplus, Qmult. cbn. lia.
Qed.

(** The returned record, field by field, in whole numbers. *)
Lemma calculateSummaries_record :
  forall (attendance : gmap Z string) (month : string) (year : Z)
         (holidays : list Z),
    getHolidaysInMonth month year = HolidayArray holidays ->
    let daysInMonth := getDaysInMonth month year in
    let n := count_days attendance daysInMonth in
    let holy :=
      Z.of_nat (length (filter
        (holy_day_working attendance (getSundaysInMonth month year) holidays)
        (seqZ 1 daysInMonth))) in
    let offw :=
      Z.of_nat (length (filter (off_day_working attendance)
                               (seqZ 1 daysInMonth))) in
    calculateSummaries attendance month year
    = Ok (mkSummaries
            (inject_Z (n ["P"; "WFH"] + n ["HD"] / 2))
            (n ["O"]) (n ["S"]) (n ["H"]) (n ["N"])
            holy offw (n ["A"]) (n ["L"])
            (n ["P"; "WFH"] + n ["O"] + n ["S"] + n ["H"] + n ["N"]
             + 2 * holy + (n ["HD"] + offw) / 2)).
Proof.
  intros attendance month year holidays Hh dim n holy offw.
  rewrite (calculateSummaries_array _ _ _ _ Hh). fold dim holy offw.
  f_equal. subst n. unfold count_days. cbv beta.
  destruct (first_pass_counts attendance (seqZ 1 dim) zero_summaries)
    as (H1 & H2 & H3 & H4 & H5 & H6 & H7).
  pose proof (first_pass_present attendance (seqZ 1 dim) zero_summaries)
    as Hp.
  destruct (first_pass_composite attendance (seqZ 1 dim) zero_summaries)
    as [C1 C2].
  cbn [totalPresent totalOff totalSundays totalHolidays totalNightShift
       totalAbsent totalOnLeave totalWorkingDays totalHolyDayWorking
       totalOffDayWorking zero_summaries] in H1, H2, H3, H4, H5, H6, H7,
       Hp, C1, C2.
  unfold first_pass, days_of_loop.
  set (s1 := foldl (pass1_body attendance) zero_summaries (seqZ 1 dim)) in *.
  set (nPW := Z.of_nat (length (filter (coded attendance ["P"; "WFH"])
                                       (seqZ 1 dim)))) in *.
  set (nHD := Z.of_nat (length (filter (coded attendance ["HD"])
                                       (seqZ 1 dim)))) in *.
  unfold floor_totalPresent, set_totalWorkingDays, add_composite,
    working_days_sum.
  cbn [totalPresent totalOff totalSundays totalHolidays totalNightShift
       totalHolyDayWorking totalOffDayWorking totalAbsent totalOnLeave
       totalWorkingDays].
  rewrite H1, H2, H3, H4, H5, H6, C1, C2, !Z.add_0_l.
  assert (E1 : Qfloor (totalPresent s1) = nPW + nHD / 2).
  { rewrite <- Qfloor_halves. apply Qfloor_comp. rewrite Hp. ring. }
  rewrite E1. f_equal.
  match goal with
  | |- _ = ?a + ?b + ?c + ?d + ?e + ?f + ?g / 2 =>
      replace (a + b + c + d + e + f + g / 2)
        with ((a + b + c + d + e + f) + g / 2) by lia
  end.
  rewrite <- Qfloor_halves. apply Qfloor_comp. rewrite Hp.
  rewrite !inject_Z_plus, inject_Z_mult. ring.
Qed.

(** X2. The summaries in whole numbers: a half day counts for the present
    total only in pairs, and half days and off-day-working halves pair up
    in the working days. *)
Theorem calculateSummaries_closed_form :
  forall (attendance : gmap Z string) (month : string) (year : Z)
         (holidays : list Z),
    getHolidaysInMonth month year = HolidayArray holidays ->
    let daysInMonth := getDaysInMonth month year in
    let n := count_days attendance daysInMonth in
    let holy :=
      Z.of_nat (length (filter
        (holy_day_working attendance (getSundaysInMonth month year) holidays)
        (seqZ 1 daysInMonth))) in
    let offw :=
      Z.of_nat (length (filter (off_day_working attendance)
                               (seqZ 1 daysInMonth))) in
    calculateSummaries attendance month year
    = Ok (mkSummaries
            (inject_Z (n ["P"; "WFH"] + n ["HD"] / 2))
            (n ["O"]) (n ["S"]) (n ["H"]) (n ["N"])
            holy offw (n ["A"]) (n ["L"])
            (n ["P"; "WFH"] + n ["O"] + n ["S"] + n ["H"] + n ["N"]
             + 2 * holy + (n ["HD"] + offw) / 2)).
Proof.
  intros attendance month year holidays Hh dim n holy offw.
  pose proof (calculateSummaries_record attendance month year holidays Hh)
    as Hrec.
  cbn zeta in Hrec. fold dim in Hrec. fold holy offw in Hrec.
  rewrite Hrec. subst n. reflexivity.
Qed.

Lemma calculateSummaries_closed_form_witness :
  getHolidaysInMonth "Jan" 2024 = HolidayArray [1; 26]
  /\ calculateSummaries half_day_month "Jan" 2024
     = Ok (mkSummaries 1 1 0 0 0 0 1 0 0 3).
Proof.
  split; [reflexivity|].
  rewrite (calculateSummaries_closed_form half_day_month "Jan" 2024 [1; 26]
             eq_refl).
  vm_compute. reflexivity.
Defined.

Lemma length_filter_le {A} (P Q : A -> Prop) `{forall x, Decision (P x)}
    `{forall x, Decision (Q x)} (l : list A) :
  (forall x, x ∈ l -> P x -> Q x) ->
  (length (filter P l) <= length (filter Q l))%nat.
Proof.
  induction l as [|x l IH]; intros Himp; [reflexivity|].
  rewrite !filter_cons.
  specialize (IH (fun y Hy => Himp y (list_elem_of_further _ _ _ Hy))).
  pose proof (Himp x (list_elem_of_here _ _)).
  repeat case_decide; cbn [length]; try lia. tauto.
Qed.

(** A day carries at most one code. *)
Lemma count_days_disjoint attendance (days : list Z) :
  let n codes := Z.of_nat (length (filter (coded attendance codes) days)) in
  n ["P"; "WFH"] + n ["HD"] + n ["O"] + n ["S"] + n ["H"] + n ["N"]
  + n ["A"] + n ["L"] <= Z.of_nat (length days)
  /\ n ["P"; "N"; "WFH"] = n ["P"; "WFH"] + n ["N"].
Proof.
  cbn zeta. induction days as [|d days [IH1 IH2]]; [cbn; lia|].
  rewrite !indicator_filter, !indicator_coded. cbn [length].
  destruct (code_on attendance d) as [u|]; [|lia].
  cbn [existsb orb]. case_codes u; cbn [orb]; lia.
Qed.

(** Each day worked after an off day has its own off day. *)
Lemma off_day_working_le_off attendance (daysInMonth : Z) :
  (length (filter (off_day_working attendance) (seqZ 1 daysInMonth))
   <= length (filter (coded attendance ["O"]) (seqZ 1 daysInMonth)))%nat.
Proof.
  rewrite <- (length_fmap Z.pred
                (filter (off_day_working attendance) (seqZ 1 daysInMonth))).
  apply submseteq_length, NoDup_submseteq.
  - apply NoDup_fmap_2; [intros x y; lia|].
    apply NoDup_filter, NoDup_seqZ.
  - intros x Hx. apply list_elem_of_fmap in Hx.
    destruct Hx as [d [-> Hd]].
    apply list_elem_of_filter in Hd. destruct Hd as [[H1 [H2 _]] Hd].
    apply elem_of_seqZ in Hd.
    apply list_elem_of_filter. split.
    + now replace (Z.pred d) with (d - 1) by lia.
    + apply elem_of_seqZ. lia.
Qed.

(** X3. Bounds the returned counters keep: none is negative, the seven
    day counters together do not exceed the days of the month, neither
    composite counter exceeds the days worked, off-day working does not
    exceed the off days, and the working days are at least the sum of
    the counters they are built from. *)
Theorem calculateSummaries_bounds :
  forall (attendance : gmap Z string) (month : string) (year : Z)
         (holidays : list Z),
    getHolidaysInMonth month year = HolidayArray holidays ->
    exists s,
      calculateSummaries attendance month year = Ok s
      /\ let present := Qfloor (totalPresent s) in
         totalPresent s = inject_Z present
         /\ 0 <= present /\ 0 <= totalOff s /\ 0 <= totalSundays s
         /\ 0 <= totalHolidays s /\ 0 <= totalNightShift s
         /\ 0 <= totalHolyDayWorking s /\ 0 <= totalOffDayWorking s
         /\ 0 <= totalAbsent s /\ 0 <= totalOnLeave s
         /\ present + totalOff s + totalSundays s + totalHolidays s
            + totalNightShift s + totalAbsent s + totalOnLeave s
            <= getDaysInMonth month year
         /\ totalHolyDayWorking s <= present + totalNightShift s
         /\ totalOffDayWorking s <= present + totalNightShift s
         /\ totalOffDayWorking s <= totalOff s
         /\ present + totalOff s + totalSundays s + totalHolidays s
            + totalNightShift s + 2 * totalHolyDayWorking s
            <= totalWorkingDays s.
Proof.
  intros attendance month year holidays Hh.
  rewrite (calculateSummaries_record _ _ _ _ Hh).
  eexists. split; [reflexivity|].
  cbn [totalPresent totalOff totalSundays totalHolidays totalNightShift
       totalHolyDayWorking totalOffDayWorking totalAbsent totalOnLeave
       totalWorkingDays].
  rewrite Qfloor_Z. cbn zeta. unfold count_days.
  set (dim := getDaysInMonth month year).
  destruct (count_days_disjoint attendance (seqZ 1 dim)) as [Hsum Hw].
  cbn zeta in Hsum, Hw.
  pose proof (off_day_working_le_off attendance dim) as Hoff.
  pose proof (length_filter_le
                (holy_day_working attendance
                   (getSundaysInMonth month year) holidays)
                (coded attendance ["P"; "N"; "WFH"]) (seqZ 1 dim)
                (fun x _ H => proj2 H)) as Hholy.
  pose proof (length_filter_le (off_day_working attendance)
                (coded attendance ["P"; "N"; "WFH"]) (seqZ 1 dim)
                (fun x _ H => proj2 (proj2 H))) as Hoffw.
  rewrite length_seqZ in Hsum.
  apply Nat2Z.inj_le in Hoff, Hholy, Hoffw.
  assert (Hdim : 28 <= dim <= 31)
    by (destruct (getDaysInMonth_cases month year) as [E|[E|[E|E]]];
        unfold dim; rewrite E; lia).
  repeat match goal with
  | |- context [Z.of_nat (length ?l)] =>
      let k := fresh "k" in
      let Hk := fresh "Hk" in
      assert (Hk : 0 <= Z.of_nat (length l)) by lia;
      set (k := Z.of_nat (length l)) in *; clearbody k
  end.
  split; [reflexivity|].
  repeat split; Z.to_euclidean_division_equations; lia.
Qed.

Lemma calculateSummaries_bounds_witness :
  getHolidaysInMonth "Jan" 2024 = HolidayArray [1; 26]
  /\ exists s,
       calculateSummaries holiday_work_month "Jan" 2024 = Ok s
       /\ totalOffDayWorking s <= totalOff s.
Proof.
  split; [reflexivity|].
  destruct (calculateSummaries_bounds holiday_work_month "Jan" 2024 [1; 26]
              eq_refl) as [s [Hs Hb]].
  exists s. split; [exact Hs|]. cbn zeta in Hb. tauto.
Defined.

(** ** Summary engine: what the result depends on *)

Lemma toUpperCase_idempotent (s : string) :
  toUpperCase (toUpperCase s) = toUpperCase s.
Proof.
  induction s as [|c s IH]; [reflexivity|].
  cbn [toUpperCase]. rewrite IH. f_equal.
  destruct c as [[] [] [] [] [] [] [] []]; reflexivity.
Qed.

Lemma pass2_body_on_codes attendance sundays holidays s day :
  pass2_body attendance sundays holidays s day
  = pass2_on_codes (code_on attendance day) (code_on attendance (day - 1))
      sundays holidays s day.
Proof.
  unfold pass2_body, pass2_on_codes, code_on at 1.
  destruct (attendance !! day) as [c|]; [|reflexivity].
  destruct (truthy c); cbn [negb]; [|reflexivity].
  assert (prev_is_off attendance day
          = match code_on attendance (day - 1) with
            | Some p => String.eqb p "O"
            | None => false
            end) as ->; [|reflexivity].
  unfold prev_is_off, code_on.
  destruct (attendance !! (day - 1)) as [c'|]; cbn; [|reflexivity].
  destruct c'; reflexivity.
Qed.

Lemma for_each_ext {St} (f g : St -> Z -> result St) (days : list Z) :
  (forall s day, f s day = g s day) ->
  forall s, for_each f days s = for_each g days s.
Proof.
  intros Hfg. induction days as [|d days IH]; intros s; [reflexivity|].
  cbn [for_each]. rewrite Hfg. destruct (g s d); cbn [bind]; [apply IH|].
  reflexivity.
Qed.

(** Two mappings with the same non-empty codes up to letter case have the
    same summaries, whatever the month. *)
Lemma calculateSummaries_code_on_ext att1 att2 month year :
  (forall day, code_on att1 day = code_on att2 day) ->
  calculateSummaries att1 month year = calculateSummaries att2 month year.
Proof.
  intros Hext. unfold calculateSummaries.
  assert (H1 : forall l s, foldl (pass1_body att1) s l
                           = foldl (pass1_body att2) s l).
  { induction l as [|d l IH]; intros s; [reflexivity|].
    cbn [foldl]. rewrite !pass1_body_code_on, Hext. apply IH. }
  rewrite H1. f_equal. apply for_each_ext.
  intros s day. now rewrite !pass2_body_on_codes, !Hext.
Qed.

(** X4. The summaries do not depend on the letter case of the stored
    codes: upper-casing every code of the mapping leaves the result, or
    the error, as it was. *)
Theorem calculateSummaries_case_insensitive :
  forall (attendance : gmap Z string) (month : string) (year : Z),
    calculateSummaries (toUpperCase <$> attendance) month year
    = calculateSummaries attendance month year.
Proof.
  intros attendance month year. apply calculateSummaries_code_on_ext.
  intros day. unfold code_on. rewrite lookup_fmap.
  destruct (attendance !! day) as [c|]; cbn; [|reflexivity].
  rewrite truthy_toUpperCase, toUpperCase_idempotent. reflexivity.
Qed.

Lemma normalize_recognized (c : string) :
  truthy c = true ->
  normalizeAttendanceCode c
  = if bool_decide (toUpperCase c ∈ ATTENDANCE_CODES_keys)
    then toUpperCase c else "".
Proof.
  intros Ht. unfold normalizeAttendanceCode, normalizeAttendanceCode_with.
  rewrite Ht. cbn [negb]. unfold ATTENDANCE_CODES_has.
  rewrite (upper_not_inherited toUpperCase toUpperCase_no_lower), orb_false_r.
  rewrite bool_decide_elem_of_strings.
  destruct (String.eqb_spec (toUpperCase c) "A") as [E|E]; [|reflexivity].
  rewrite E. reflexivity.
Qed.

(** X5. Normalizing every stored code, as the import does, leaves the
    summaries as they were. *)
Theorem calculateSummaries_normalized :
  forall (attendance : gmap Z string) (month : string) (year : Z)
         (holidays : list Z),
    getHolidaysInMonth month year = HolidayArray holidays ->
    calculateSummaries (normalizeAttendanceCode <$> attendance) month year
    = calculateSummaries attendance month year.
Proof.
  intros attendance month year holidays Hh.
  apply (calculateSummaries_congr _ _ _ _ _ Hh). intros day _.
  unfold recognized_code, code_on. rewrite lookup_fmap.
  destruct (attendance !! day) as [c|]; cbn; [|reflexivity].
  destruct (truthy c) eqn:Ht.
  - rewrite (normalize_recognized c Ht).
    case_bool_decide as Hk.
    + rewrite truthy_toUpperCase, Ht, toUpperCase_idempotent.
      now rewrite bool_decide_eq_true_2.
    + reflexivity.
  - destruct c; [reflexivity|discriminate].
Qed.

Lemma calculateSummaries_normalized_witness :
  getHolidaysInMonth "Feb" 2023 = HolidayArray []
  /\ calculateSummaries (normalizeAttendanceCode <$> stray_entries_month)
       "Feb" 2023
     = calculateSummaries stray_entries_month "Feb" 2023.
Proof.
  split; [reflexivity|].
  apply (calculateSummaries_normalized stray_entries_month "Feb" 2023 []).
  reflexivity.
Defined.

(** ** Record mutators: invariants and composition *)

Lemma sundays_in_month (month : string) (year day : Z) :
  day ∈ getSundaysInMonth month year ->
  1 <= day <= getDaysInMonth month year.
Proof.
  rewrite getSundaysInMonth_filter. intros Hd.
  apply list_elem_of_In, List.filter_In in Hd. destruct Hd as [Hd _].
  apply list_elem_of_In, elem_of_seqZ in Hd. lia.
Qed.

Lemma holidays_in_month (month : string) (year : Z) (holidays : list Z)
    (day : Z) :
  getHolidaysInMonth month year = HolidayArray holidays ->
  day ∈ holidays ->
  1 <= day <= getDaysInMonth month year.
Proof.
  intros Hh Hd.
  assert (Hdim : 28 <= getDaysInMonth month year)
    by (destruct (getDaysInMonth_cases month year) as [E|[E|[E|E]]];
        rewrite E; lia).
  revert Hh. unfold getHolidaysInMonth, holidays_table.
  cbn [own_property].
  repeat match goal with
  | |- context [String.eqb ?k month] => destruct (String.eqb k month)
  end;
  try (destruct (inherited month));
  intros [= <-];
  repeat match goal with
  | H : _ ∈ _ :: _ |- _ => apply elem_of_cons in H; destruct H as [->|H]
  | H : _ ∈ [] |- _ => now apply elem_of_nil in H
  end; lia.
Qed.

Lemma fill_days_in_range l code days h (lo hi : Z) :
  (forall d, d ∈ days -> lo <= d <= hi) ->
  map_Forall (fun d _ => lo <= d <= hi) (read_object h l) ->
  map_Forall (fun d _ => lo <= d <= hi)
    (read_object (foldl (fill_day l code) h days) l).
Proof.
  intros Hdays Hold d x Hx. rewrite fill_days_lookup in Hx.
  destruct (decide (d ∈ days /\ _)) as [[Hd _]|_].
  - now apply Hdays.
  - exact (Hold d x Hx).
Qed.

(** X6. [markWeekends] and [markHolidays] keep the days of the mapping
    within the month: when every key lies in [1..daysInMonth] before the
    call, every key does so after it. *)
Theorem mark_keeps_days_in_month :
  forall (h : gmap loc (gmap Z string)) (employee : Employee)
         (month : string) (year : Z) (code : string) (holidays : list Z),
    getHolidaysInMonth month year = HolidayArray holidays ->
    map_Forall (fun d _ => 1 <= d <= getDaysInMonth month year)
      (read_object h (attendance employee)) ->
    map_Forall (fun d _ => 1 <= d <= getDaysInMonth month year)
      (read_object (markWeekends h employee month year code).1
                   (attendance employee))
    /\ map_Forall (fun d _ => 1 <= d <= getDaysInMonth month year)
         (read_object (markHolidays h employee month year code).1
                      (attendance employee)).
Proof.
  intros h employee month year code holidays Hh Hold.
  unfold markWeekends, markHolidays. rewrite Hh. cbn [fst]. split.
  - apply fill_days_in_range; [|assumption].
    intros d. apply sundays_in_month.
  - apply fill_days_in_range; [|assumption].
    intros d. now apply (holidays_in_month month year holidays).
Qed.

Lemma mark_keeps_days_in_month_witness :
  getHolidaysInMonth "Jan" 2024 = HolidayArray [1; 26]
  /\ map_Forall (fun d _ => 1 <= d <= getDaysInMonth "Jan" 2024)
       (read_object blank_sunday_store (attendance sample_employee))
  /\ map_Forall (fun d _ => 1 <= d <= getDaysInMonth "Jan" 2024)
       (read_object
          (markWeekends blank_sunday_store sample_employee
             "Jan" 2024 "S").1
          (attendance sample_employee)).
Proof.
  assert (Hold : map_Forall
            (fun d _ => 1 <= d <= getDaysInMonth "Jan" 2024)
            (read_object blank_sunday_store (attendance sample_employee))).
  { intros d x Hx.
    change (({[ 7 := ""; 14 := "P" ]} : gmap Z string) !! d = Some x) in Hx.
    apply lookup_insert_Some in Hx. destruct Hx as [[<- _]|[_ Hx]].
    - vm_compute. split; discriminate.
    - apply lookup_singleton_Some in Hx. destruct Hx as [<- _].
      vm_compute. split; discriminate. }
  split; [reflexivity|]. split; [exact Hold|].
  apply (mark_keeps_days_in_month blank_sunday_store sample_employee
           "Jan" 2024 "S" [1; 26] eq_refl Hold).
Defined.

Lemma recalculate_set_summaries h e s month year :
  recalculate h (set_summaries e s) month year = recalculate h e month year.
Proof. reflexivity. Qed.

Lemma recognized_code_insert_ne (m : gmap Z string) (day d : Z) (c : string) :
  d <> day -> recognized_code (<[day := c]> m) d = recognized_code m d.
Proof.
  intros Hne. unfold recognized_code, code_on.
  now rewrite lookup_insert_ne by congruence.
Qed.

Lemma recognized_code_delete_ne (m : gmap Z string) (day d : Z) :
  d <> day -> recognized_code (delete day m) d = recognized_code m d.
Proof.
  intros Hne. unfold recognized_code, code_on.
  now rewrite lookup_delete_ne by congruence.
Qed.

(** X7. An edit of a day outside [1..daysInMonth] is stored, and the
    record returned carries the summaries the untouched mapping has. *)
Theorem updateEmployeeAttendance_outside_month :
  forall (h : gmap loc (gmap Z string)) (employee : Employee) (day : Z)
         (code month : string) (year : Z) (holidays : list Z),
    getHolidaysInMonth month year = HolidayArray holidays ->
    ~ (1 <= day <= getDaysInMonth month year) ->
    let r := updateEmployeeAttendance h employee day code month year in
    read_object r.1 (attendance employee) !! day
    = (if truthy code then Some (toUpperCase code) else None)
    /\ r.2 = recalculate h employee month year.
Proof.
  intros h employee day code month year holidays Hh Hout r.
  unfold r, updateEmployeeAttendance. cbn [fst snd]. split.
  - rewrite read_assign_day. destruct (truthy code).
    + apply lookup_insert_eq.
    + apply lookup_delete_eq.
  - unfold recalculate. f_equal.
    apply (calculateSummaries_congr _ _ _ _ _ Hh).
    intros d Hd. rewrite read_assign_day.
    assert (d <> day) by (intros ->; tauto).
    destruct (truthy code).
    + now apply recognized_code_insert_ne.
    + now apply recognized_code_delete_ne.
Qed.

Lemma updateEmployeeAttendance_outside_month_witness :
  getHolidaysInMonth "Feb" 2023 = HolidayArray []
  /\ ~ (1 <= 30 <= getDaysInMonth "Feb" 2023)
  /\ (updateEmployeeAttendance empty_month_store sample_employee
        30 "A" "Feb" 2023).2
     = recalculate empty_month_store sample_employee "Feb" 2023.
Proof.
  assert (Hout : ~ (1 <= 30 <= getDaysInMonth "Feb" 2023))
    by (vm_compute; intros [_ H]; now apply H).
  split; [reflexivity|]. split; [exact Hout|].
  apply (updateEmployeeAttendance_outside_month empty_month_store
           sample_employee 30 "A" "Feb" 2023 [] eq_refl Hout).
Defined.

Lemma fill_days_again l code days h :
  read_object (foldl (fill_day l code)
                 (foldl (fill_day l code) h days) days) l
  = read_object (foldl (fill_day l code) h days) l.
Proof.
  apply map_eq. intros d. rewrite fill_days_lookup.
  destruct (decide (d ∈ days /\ _)) as [[Hd Hf]|_]; [|reflexivity].
  rewrite fill_days_lookup in Hf |- *.
  destruct (decide (d ∈ days /\ _)) as [_|Hn]; [reflexivity|].
  exfalso. apply Hn. split; [assumption|].
  destruct (truthy_opt (read_object h l !! d)) eqn:E; [|reflexivity].
  congruence.
Qed.

(** X8. Marking twice is marking once: [markWeekends] and [markHolidays]
    applied to the record they returned leave the attendance as it is
    and return that record again. *)
Theorem mark_idempotent :
  forall (h : gmap loc (gmap Z string)) (employee : Employee)
         (month : string) (year : Z) (code : string) (holidays : list Z),
    getHolidaysInMonth month year = HolidayArray holidays ->
    let w := markWeekends h employee month year code in
    let hd := markHolidays h employee month year code in
    (exists e1,
        w.2 = Ok e1
        /\ read_object (markWeekends w.1 e1 month year code).1
                       (attendance e1)
           = read_object w.1 (attendance e1)
        /\ (markWeekends w.1 e1 month year code).2 = Ok e1)
    /\ (exists e1,
          hd.2 = Ok e1
          /\ read_object (markHolidays hd.1 e1 month year code).1
                         (attendance e1)
             = read_object hd.1 (attendance e1)
          /\ (markHolidays hd.1 e1 month year code).2 = Ok e1).
Proof.
  intros h employee month year code holidays Hh w hd.
  unfold w, hd, markWeekends, markHolidays. rewrite Hh. cbn [fst snd].
  split.
  - destruct (recalculate_returns
                (foldl (fill_day (attendance employee) code) h
                   (getSundaysInMonth month year))
                employee month year holidays Hh) as [e1 [Hr [Ha Hs]]].
    exists e1. split; [exact Hr|]. rewrite Ha.
    split; [apply fill_days_again|].
    unfold recalculate in Hr |- *. rewrite Ha, fill_days_again.
    destruct (calculateSummaries _ month year) as [s|]; [|discriminate].
    cbn in Hr |- *. injection Hr as <-. reflexivity.
  - destruct (recalculate_returns
                (foldl (fill_day (attendance employee) code) h holidays)
                employee month year holidays Hh) as [e1 [Hr [Ha Hs]]].
    exists e1. split; [exact Hr|]. rewrite Ha.
    split; [apply fill_days_again|].
    unfold recalculate in Hr |- *. rewrite Ha, fill_days_again.
    destruct (calculateSummaries _ month year) as [s|]; [|discriminate].
    cbn in Hr |- *. injection Hr as <-. reflexivity.
Qed.

Lemma mark_idempotent_witness :
  getHolidaysInMonth "Jan" 2024 = HolidayArray [1; 26]
  /\ exists e1,
       (markWeekends blank_sunday_store sample_employee "Jan" 2024 "S").2
       = Ok e1
       /\ read_object
            (markWeekends
               (markWeekends blank_sunday_store sample_employee
                  "Jan" 2024 "S").1
               e1 "Jan" 2024 "S").1
            (attendance e1)
          = read_object
              (markWeekends blank_sunday_store sample_employee
                 "Jan" 2024 "S").1
              (attendance e1)
       /\ (markWeekends
             (markWeekends blank_sunday_store sample_employee
                "Jan" 2024 "S").1
             e1 "Jan" 2024 "S").2
          = Ok e1.
Proof.
  split; [reflexivity|].
  apply (mark_idempotent blank_sunday_store sample_employee
           "Jan" 2024 "S" [1; 26]).
  reflexivity.
Defined.

(** X9. After [markWeekends] with a non-empty fill code no Sunday of the
    month is left unmarked, and after [markHolidays] no listed holiday. *)
Theorem mark_leaves_none_unmarked :
  forall (h : gmap loc (gmap Z string)) (employee : Employee)
         (month : string) (year : Z) (code : string) (holidays : list Z),
    getHolidaysInMonth month year = HolidayArray holidays ->
    truthy code = true ->
    Forall (fun day =>
              truthy_opt
                (read_object (markWeekends h employee month year code).1
                             (attendance employee) !! day) = true)
           (getSundaysInMonth month year)
    /\ Forall (fun day =>
                 truthy_opt
                   (read_object (markHolidays h employee month year code).1
                                (attendance employee) !! day) = true)
              holidays.
Proof.
  intros h employee month year code holidays Hh Hc.
  unfold markWeekends, markHolidays. rewrite Hh. cbn [fst].
  assert (Hfill : forall days,
            Forall (fun day =>
                      truthy_opt
                        (read_object
                           (foldl (fill_day (attendance employee) code)
                                  h days)
                           (attendance employee) !! day) = true) days).
  { intros days. apply Forall_forall. intros d Hd.
    rewrite fill_days_lookup.
    destruct (decide (d ∈ days /\ _)) as [_|Hn]; [exact Hc|].
    destruct (truthy_opt _) eqn:E; [reflexivity|].
    exfalso. apply Hn. now split. }
  split; apply Hfill.
Qed.

Lemma mark_leaves_none_unmarked_witness :
  getHolidaysInMonth "Jan" 2024 = HolidayArray [1; 26]
  /\ truthy "S" = true
  /\ Forall (fun day =>
               truthy_opt
                 (read_object
                    (markWeekends blank_sunday_store sample_employee
                       "Jan" 2024 "S").1
                    (attendance sample_employee) !! day) = true)
            (getSundaysInMonth "Jan" 2024).
Proof.
  split; [reflexivity|]. split; [reflexivity|].
  apply (mark_leaves_none_unmarked blank_sunday_store sample_employee
           "Jan" 2024 "S" [1; 26]); reflexivity.
Defined.

(** X10. [bulkUpdateAttendance] is the single-day edit repeated: with no
    update it only recomputes the summaries, and otherwise it acts as
    [updateEmployeeAttendance] on the first entry followed by the bulk
    update of the remaining entries on the record that edit returned. *)
Theorem bulkUpdateAttendance_unfold :
  forall (h : gmap loc (gmap Z string)) (employee : Employee) (day : Z)
         (code : string) (updates : list (Z * string)) (month : string)
         (year : Z) (holidays : list Z),
    getHolidaysInMonth month year = HolidayArray holidays ->
    let first := updateEmployeeAttendance h employee day code month year in
    bulkUpdateAttendance h employee [] month year
    = (h, recalculate h employee month year)
    /\ exists e1,
         first.2 = Ok e1
         /\ bulkUpdateAttendance h employee ((day, code) :: updates)
              month year
            = bulkUpdateAttendance first.1 e1 updates month year.
Proof.
  intros h employee day code updates month year holidays Hh first.
  split; [reflexivity|].
  unfold first, updateEmployeeAttendance. cbn [fst snd].
  destruct (recalculate_returns
              (assign_day h (attendance employee) day code)
              employee month year holidays Hh) as [e1 [Hr [Ha _]]].
  exists e1. split; [exact Hr|].
  unfold bulkUpdateAttendance. cbn [foldl]. rewrite Ha.
  f_equal. unfold recalculate in Hr |- *.
  destruct (calculateSummaries
              (read_object (assign_day h (attendance employee) day code)
                           (attendance employee)) month year) as [s1|];
    [|discriminate].
  cbn in Hr. injection Hr as <-. reflexivity.
Qed.

Lemma bulkUpdateAttendance_unfold_witness :
  getHolidaysInMonth "Jan" 2024 = HolidayArray [1; 26]
  /\ exists e1,
       (updateEmployeeAttendance empty_month_store sample_employee
          1 "P" "Jan" 2024).2 = Ok e1
       /\ bulkUpdateAttendance empty_month_store sample_employee
            [(1, "P"); (2, "A")] "Jan" 2024
          = bulkUpdateAttendance
              (updateEmployeeAttendance empty_month_store sample_employee
                 1 "P" "Jan" 2024).1
              e1 [(2, "A")] "Jan" 2024.
Proof.
  split; [reflexivity|].
  apply (bulkUpdateAttendance_unfold empty_month_store sample_employee
           1 "P" [(2, "A")] "Jan" 2024 [1; 26]).
  reflexivity.
Defined.

Lemma assign_day_store h l day code :
  assign_day h l day code
  = <[l := if truthy code
           then <[day := toUpperCase code]> (read_object h l)
           else delete day (read_object h l)]> h.
Proof. unfold assign_day. now destruct (truthy code). Qed.

Lemma recalculate_Ok h e month year e1 :
  recalculate h e month year = Ok e1 -> exists s, e1 = set_summaries e s.
Proof.
  unfold recalculate.
  destruct (calculateSummaries _ month year) as [s|]; [|discriminate].
  cbn. intros [= <-]. now exists s.
Qed.

Lemma updateEmployeeAttendance_set_summaries h e s day code month year :
  updateEmployeeAttendance h (set_summaries e s) day code month year
  = updateEmployeeAttendance h e day code month year.
Proof. reflexivity. Qed.

(** X11. The last edit of a day wins: editing the same day of the record
    an edit returned leaves the store, and returns the record, that the
    second edit alone gives. *)
Theorem updateEmployeeAttendance_overwrite :
  forall (h : gmap loc (gmap Z string)) (employee e1 : Employee) (day : Z)
         (code1 code2 month : string) (year : Z),
    let first := updateEmployeeAttendance h employee day code1 month year in
    first.2 = Ok e1 ->
    updateEmployeeAttendance first.1 e1 day code2 month year
    = updateEmployeeAttendance h employee day code2 month year.
Proof.
  intros h employee e1 day code1 code2 month year first Hfirst.
  unfold first, updateEmployeeAttendance in Hfirst. cbn [fst snd] in Hfirst.
  apply recalculate_Ok in Hfirst. destruct Hfirst as [s ->].
  rewrite updateEmployeeAttendance_set_summaries.
  unfold first, updateEmployeeAttendance. cbn [fst].
  assert (E : assign_day (assign_day h (attendance employee) day code1)
                (attendance employee) day code2
              = assign_day h (attendance employee) day code2).
  { rewrite (assign_day_store (assign_day _ _ _ _)), read_assign_day.
    rewrite (assign_day_store h _ _ code1), insert_insert_eq.
    rewrite (assign_day_store h _ _ code2). f_equal.
    destruct (truthy code1), (truthy code2).
    - apply insert_insert_eq.
    - apply delete_insert_eq.
    - apply insert_delete_eq.
    - apply delete_delete_eq. }
  now rewrite E.
Qed.

Lemma updateEmployeeAttendance_overwrite_witness :
  (updateEmployeeAttendance empty_month_store sample_employee
     1 "P" "Jan" 2024).2
  = Ok (set_summaries sample_employee (mkSummaries 1 0 0 0 0 1 0 0 0 3))
  /\ updateEmployeeAttendance
       (updateEmployeeAttendance empty_month_store sample_employee
          1 "P" "Jan" 2024).1
       (set_summaries sample_employee (mkSummaries 1 0 0 0 0 1 0 0 0 3))
       1 "" "Jan" 2024
     = updateEmployeeAttendance empty_month_store sample_employee
         1 "" "Jan" 2024.
Proof.
  assert (H1 : (updateEmployeeAttendance empty_month_store sample_employee
                  1 "P" "Jan" 2024).2
               = Ok (set_summaries sample_employee
                       (mkSummaries 1 0 0 0 0 1 0 0 0 3)))
    by (vm_compute; reflexivity).
  split; [exact H1|].
  apply (updateEmployeeAttendance_overwrite empty_month_store
           sample_employee _ 1 "P" "" "Jan" 2024 H1).
Defined.

(** X12. Edits of different days commute: starting from the same record,
    either order of two edits leaves the same store and returns the same
    record. *)
Theorem updateEmployeeAttendance_commute :
  forall (h : gmap loc (gmap Z string)) (employee e1 e2 : Employee)
         (day1 day2 : Z) (code1 code2 month : string) (year : Z),
    let first := updateEmployeeAttendance h employee day1 code1 month year in
    let second := updateEmployeeAttendance h employee day2 code2 month year in
    day1 <> day2 ->
    first.2 = Ok e1 ->
    second.2 = Ok e2 ->
    updateEmployeeAttendance first.1 e1 day2 code2 month year
    = updateEmployeeAttendance second.1 e2 day1 code1 month year.
Proof.
  intros h employee e1 e2 day1 day2 code1 code2 month year first second
    Hne H1 H2.
  unfold first, second, updateEmployeeAttendance in H1, H2.
  cbn [fst snd] in H1, H2.
  apply recalculate_Ok in H1, H2.
  destruct H1 as [s1 ->]. destruct H2 as [s2 ->].
  rewrite !updateEmployeeAttendance_set_summaries.
  unfold first, second, updateEmployeeAttendance. cbn [fst].
  assert (E : assign_day (assign_day h (attendance employee) day1 code1)
                (attendance employee) day2 code2
              = assign_day (assign_day h (attendance employee) day2 code2)
                  (attendance employee) day1 code1).
  { rewrite (assign_day_store (assign_day _ _ day1 _)), read_assign_day.
    rewrite (assign_day_store (assign_day _ _ day2 _)), read_assign_day.
    rewrite !(assign_day_store h), !insert_insert_eq. f_equal.
    destruct (truthy code1), (truthy code2).
    - now apply insert_insert_ne.
    - now rewrite delete_insert_ne by congruence.
    - now rewrite delete_insert_ne by congruence.
    - apply delete_delete. }
  now rewrite E.
Qed.

Lemma updateEmployeeAttendance_commute_witness :
  1 <> 2
  /\ (updateEmployeeAttendance empty_month_store sample_employee
        1 "P" "Jan" 2024).2
     = Ok (set_summaries sample_employee (mkSummaries 1 0 0 0 0 1 0 0 0 3))
  /\ (updateEmployeeAttendance empty_month_store sample_employee
        2 "A" "Jan" 2024).2
     = Ok (set_summaries sample_employee (mkSummaries 0 0 0 0 0 0 0 1 0 0))
  /\ updateEmployeeAttendance
       (updateEmployeeAttendance empty_month_store sample_employee
          1 "P" "Jan" 2024).1
       (set_summaries sample_employee (mkSummaries 1 0 0 0 0 1 0 0 0 3))
       2 "A" "Jan" 2024
     = updateEmployeeAttendance
         (updateEmployeeAttendance empty_month_store sample_employee
            2 "A" "Jan" 2024).1
         (set_summaries sample_employee (mkSummaries 0 0 0 0 0 0 0 1 0 0))
         1 "P" "Jan" 2024.
Proof.
  assert (Hne : 1 <> 2) by lia.
  assert (H1 : (updateEmployeeAttendance empty_month_store sample_employee
                  1 "P" "Jan" 2024).2
               = Ok (set_summaries sample_employee
                       (mkSummaries 1 0 0 0 0 1 0 0 0 3)))
    by (vm_compute; reflexivity).
  assert (H2 : (updateEmployeeAttendance empty_month_store sample_employee
                  2 "A" "Jan" 2024).2
               = Ok (set_summaries sample_employee
                       (mkSummaries 0 0 0 0 0 0 0 1 0 0)))
    by (vm_compute; reflexivity).
  split; [exact Hne|]. split; [exact H1|]. split; [exact H2|].
  apply (updateEmployeeAttendance_commute empty_month_store
           sample_employee _ _ 1 2 "P" "A" "Jan" 2024 Hne H1 H2).
Defined.

(** X13. [clearAttendance] returns a record with an attendance object of
    its own, whose summaries are those of the empty mapping in every
    month: an edit of the cleared record leaves the attendance of the
    record that was cleared as it was. *)
Theorem clearAttendance_isolated :
  forall (h : gmap loc (gmap Z string)) (employee : Employee) (day : Z)
         (code month : string) (year : Z),
    is_Some (h !! attendance employee) ->
    let c := clearAttendance h employee in
    attendance c.2 <> attendance employee
    /\ read_object c.1 (attendance c.2) = ∅
    /\ calculateSummaries (read_object c.1 (attendance c.2)) month year
       = Ok (summaries c.2)
    /\ observe
         (updateEmployeeAttendance c.1 c.2 day code month year).1 employee
       = observe h employee.
Proof.
  intros h employee day code month year Halloc c.
  unfold c, clearAttendance. cbn [fst snd attendance summaries].
  set (l := fresh (dom h)).
  assert (Hl : l <> attendance employee).
  { intros E. apply elem_of_dom in Halloc. rewrite <- E in Halloc.
    now apply (is_fresh (dom h)). }
  assert (Hempty : read_object (<[l := ∅]> h) l = ∅).
  { unfold read_object. now rewrite lookup_insert_eq. }
  split; [exact Hl|]. split; [exact Hempty|]. split.
  - rewrite Hempty. apply calculateSummaries_empty.
  - unfold observe, updateEmployeeAttendance. cbn [fst attendance].
    f_equal. rewrite assign_day_store. unfold read_object at 1.
    rewrite lookup_insert_ne by congruence.
    rewrite lookup_insert_ne by congruence. reflexivity.
Qed.

Lemma clearAttendance_isolated_witness :
  is_Some (blank_sunday_store !! attendance sample_employee)
  /\ observe
       (updateEmployeeAttendance
          (clearAttendance blank_sunday_store sample_employee).1
          (clearAttendance blank_sunday_store sample_employee).2
          1 "P" "Jan" 2024).1
       sample_employee
     = observe blank_sunday_store sample_employee.
Proof.
  assert (Halloc : is_Some (blank_sunday_store !! attendance sample_employee))
    by (eexists; vm_compute; reflexivity).
  split; [exact Halloc|].
  apply (clearAttendance_isolated blank_sunday_store sample_employee
           1 "P" "Jan" 2024 Halloc).
Defined.

(** ** Range and weekly summaries *)

Lemma range_body_code_on attendance s day :
  range_body attendance s day
  = match code_on attendance day with
    | Some u => range_count u s
    | None => s
    end.
Proof.
  unfold range_body, code_on.
  destruct (attendance !! day) as [c|]; [|reflexivity].
  now destruct (truthy c).
Qed.

Lemma range_add_assoc (s t u : Range.Summary) :
  range_add (range_add s t) u = range_add s (range_add t u).
Proof. destruct s, t, u. unfold range_add. cbn. f_equal; lia. Qed.

Lemma range_add_zero_r (s : Range.Summary) : range_add s zero_range = s.
Proof. destruct s. unfold range_add. cbn. f_equal; lia. Qed.

Lemma range_of_days_app attendance (l1 l2 : list Z) :
  range_of_days attendance (l1 ++ l2)
  = range_add (range_of_days attendance l1) (range_of_days attendance l2).
Proof.
  unfold range_of_days, range_add. cbn.
  rewrite !filter_app, !length_app. f_equal; lia.
Qed.

(** One iteration adds the range summary of its day. *)
Lemma range_body_add attendance s day :
  range_body attendance s day
  = range_add s (range_of_days attendance [day]).
Proof.
  rewrite range_body_code_on. unfold range_of_days, range_add.
  cbn [Range.present Range.absent Range.leave Range.off Range.holiday
       Range.sunday Range.nightShift Range.total].
  assert (Hc : Z.of_nat (length (filter (carries_code attendance) [day]))
               = match code_on attendance day with
                 | Some _ => 1 | None => 0 end).
  { rewrite filter_cons, filter_nil.
    destruct (decide (carries_code attendance day)) as [H|H];
      unfold carries_code in H;
      destruct (code_on attendance day) as [u|]; try reflexivity.
    - destruct H as [x [=]].
    - exfalso. apply H. eauto. }
  rewrite Hc, !indicator_filter, !indicator_coded, !filter_nil.
  cbn [length].
  destruct (code_on attendance day) as [u|].
  - unfold range_count. cbn [existsb orb]. destruct s.
    cbn [Range.present Range.absent Range.leave Range.off Range.holiday
         Range.sunday Range.nightShift Range.total].
    case_codes u; cbn [orb Range.present Range.absent Range.leave Range.off
      Range.holiday Range.sunday Range.nightShift Range.total];
      f_equal; lia.
  - destruct s. cbn. f_equal; lia.
Qed.

Lemma range_fold attendance (days : list Z) (s : Range.Summary) :
  foldl (range_body attendance) s days
  = range_add s (range_of_days attendance days).
Proof.
  revert s. induction days as [|d days IH]; intros s.
  - cbn [foldl]. unfold range_of_days. cbn.
    now rewrite <- (range_add_zero_r s) at 1.
  - cbn [foldl]. rewrite IH, range_body_add, range_add_assoc.
    now rewrite <- (range_of_days_app attendance [d] days).
Qed.

Lemma getDateRangeSummary_days attendance (startDay endDay : Z) :
  getDateRangeSummary attendance startDay endDay
  = range_of_days attendance (seqZ startDay (endDay - startDay + 1)).
Proof.
  unfold getDateRangeSummary. rewrite range_fold.
  destruct (range_of_days _ _). unfold range_add. cbn. f_equal; lia.
Qed.

(** X14. Range summaries add up over adjacent ranges. *)
Theorem getDateRangeSummary_split :
  forall (attendance : gmap Z string) (first middle last : Z),
    first <= middle + 1 ->
    middle <= last ->
    getDateRangeSummary attendance first last
    = range_add (getDateRangeSummary attendance first middle)
                (getDateRangeSummary attendance (middle + 1) last).
Proof.
  intros attendance a b c Hab Hbc.
  rewrite !getDateRangeSummary_days, <- range_of_days_app. f_equal.
  replace (c - a + 1) with ((b - a + 1) + (c - (b + 1) + 1)) by lia.
  rewrite seqZ_app by lia. do 2 f_equal. lia.
Qed.

Lemma getDateRangeSummary_split_witness :
  1 <= 7 + 1 /\ 7 <= 31
  /\ getDateRangeSummary holiday_work_month 1 31
     = range_add (getDateRangeSummary holiday_work_month 1 7)
                 (getDateRangeSummary holiday_work_month (7 + 1) 31).
Proof.
  split; [lia|]. split; [lia|].
  apply (getDateRangeSummary_split holiday_work_month 1 7 31); lia.
Defined.

(** X15. The five weekly summaries split days 1 to 31, the fifth week
    being the three days 29 to 31, and every later week is empty. *)
Theorem getWeeklySummary_partition :
  forall (attendance : gmap Z string) (later : nat),
    range_add (getWeeklySummary attendance 1)
      (range_add (getWeeklySummary attendance 2)
         (range_add (getWeeklySummary attendance 3)
            (range_add (getWeeklySummary attendance 4)
               (getWeeklySummary attendance 5))))
    = getDateRangeSummary attendance 1 31
    /\ getWeeklySummary attendance 5 = getDateRangeSummary attendance 29 31
    /\ getWeeklySummary attendance (6 + Z.of_nat later) = zero_range.
Proof.
  intros attendance later. split; [|split].
  - unfold getWeeklySummary. rewrite !getDateRangeSummary_days.
    rewrite <- !range_of_days_app. reflexivity.
  - reflexivity.
  - unfold getWeeklySummary, getDateRangeSummary. cbn zeta.
    rewrite seqZ_nil; [reflexivity|lia].
Qed.

Lemma count_present_night attendance (days : list Z) :
  let n codes := Z.of_nat (length (filter (coded attendance codes) days)) in
  n ["P"; "WFH"; "N"] = n ["P"; "WFH"] + n ["N"].
Proof.
  cbn zeta. induction days as [|d days IH]; [reflexivity|].
  rewrite !indicator_filter, !indicator_coded.
  destruct (code_on attendance d) as [u|]; [|lia].
  cbn [existsb orb]. case_codes u; cbn [orb]; lia.
Qed.

(** X16. Over the whole month the range summary and the monthly
    summaries agree on absences, leave, off days, holidays, Sundays and
    night shifts; the range summary counts a night shift as present as
    well and a half day not at all. *)
Theorem getDateRangeSummary_month :
  forall (attendance : gmap Z string) (month : string) (year : Z)
         (holidays : list Z),
    getHolidaysInMonth month year = HolidayArray holidays ->
    exists s,
      calculateSummaries attendance month year = Ok s
      /\ let daysInMonth := getDaysInMonth month year in
         let r := getDateRangeSummary attendance 1 daysInMonth in
         Range.absent r = totalAbsent s
         /\ Range.leave r = totalOnLeave s
         /\ Range.off r = totalOff s
         /\ Range.holiday r = totalHolidays s
         /\ Range.sunday r = totalSundays s
         /\ Range.nightShift r = totalNightShift s
         /\ Range.present r
            = count_days attendance daysInMonth ["P"; "WFH"]
              + totalNightShift s
         /\ Qfloor (totalPresent s)
            = count_days attendance daysInMonth ["P"; "WFH"]
              + count_days attendance daysInMonth ["HD"] / 2.
Proof.
  intros attendance month year holidays Hh.
  rewrite (calculateSummaries_record _ _ _ _ Hh).
  eexists. split; [reflexivity|]. cbn zeta.
  rewrite getDateRangeSummary_days.
  replace (getDaysInMonth month year - 1 + 1)
    with (getDaysInMonth month year) by lia.
  unfold range_of_days, count_days.
  cbn [Range.present Range.absent Range.leave Range.off Range.holiday
       Range.sunday Range.nightShift Range.total totalPresent totalOff
       totalSundays totalHolidays totalNightShift totalAbsent totalOnLeave].
  rewrite Qfloor_Z.
  pose proof (count_present_night attendance
                (seqZ 1 (getDaysInMonth month year))) as Hp.
  cbn zeta in Hp. rewrite Hp. repeat split; reflexivity.
Qed.

Lemma getDateRangeSummary_month_witness :
  getHolidaysInMonth "Jan" 2024 = HolidayArray [1; 26]
  /\ exists s,
       calculateSummaries holiday_work_month "Jan" 2024 = Ok s
       /\ Range.absent
            (getDateRangeSummary holiday_work_month 1
               (getDaysInMonth "Jan" 2024))
          = totalAbsent s.
Proof.
  split; [reflexivity|].
  destruct (getDateRangeSummary_month holiday_work_month "Jan" 2024 [1; 26]
              eq_refl) as [s [Hs Hr]].
  exists s. split; [exact Hs|]. cbn zeta in Hr. tauto.
Defined.

(** ** Trend *)

Lemma push_fmap {A} (f : Z -> A) (l : list Z) (acc : list A) :
  foldl (fun trend day => (trend ++ [f day])%list) acc l
  = (acc ++ (f <$> l))%list.
Proof.
  revert acc. induction l as [|d l IH]; intros acc; cbn [foldl fmap list_fmap].
  - now rewrite app_nil_r.
  - rewrite IH, <- app_assoc. reflexivity.
Qed.

Lemma generateAttendanceTrend_fmap attendance month year :
  generateAttendanceTrend attendance month year
  = trend_entry attendance <$> seqZ 1 (getDaysInMonth month year).
Proof.
  unfold generateAttendanceTrend, days_of_loop.
  now rewrite (push_fmap (trend_entry attendance)).
Qed.

Lemma toUpperCase_code_or_empty attendance day :
  code_on attendance day = Some (toUpperCase (code_or_empty attendance day))
  \/ (code_on attendance day = None
      /\ toUpperCase (code_or_empty attendance day) = "").
Proof.
  unfold code_on, code_or_empty.
  destruct (attendance !! day) as [c|]; [|now right].
  destruct (truthy c); [now left|now right].
Qed.

(** X17. The trend has one entry for each day of the month, in order,
    each carrying the stored code of its day (the empty string when
    there is none), and no entry raises two of its five flags. *)
Theorem generateAttendanceTrend_entries :
  forall (attendance : gmap Z string) (month : string) (year : Z),
    let trend := generateAttendanceTrend attendance month year in
    trend_day <$> trend = seqZ 1 (getDaysInMonth month year)
    /\ Z.of_nat (length trend) = getDaysInMonth month year
    /\ Forall (fun e => trend_code e = code_or_empty attendance (trend_day e))
              trend
    /\ Forall (fun e =>
                 (Nat.b2n (isPresent e) + Nat.b2n (isAbsent e)
                  + Nat.b2n (isLeave e) + Nat.b2n (isWeekend e)
                  + Nat.b2n (isHoliday e) <= 1)%nat)
              trend.
Proof.
  intros attendance month year trend. unfold trend.
  rewrite generateAttendanceTrend_fmap.
  split; [|split; [|split]].
  - generalize (seqZ 1 (getDaysInMonth month year)). intros l.
    induction l as [|d l IH]; [reflexivity|].
    cbn [fmap list_fmap] in IH |- *. now rewrite IH.
  - rewrite length_fmap, length_seqZ.
    destruct (getDaysInMonth_cases month year) as [E|[E|[E|E]]];
      rewrite E; reflexivity.
  - apply Forall_fmap, Forall_forall. reflexivity.
  - apply Forall_fmap, Forall_forall. intros d _.
    unfold trend_entry.
    cbn [isPresent isAbsent isLeave isWeekend isHoliday existsb compose].
    generalize (toUpperCase (code_or_empty attendance d)). intros u.
    case_codes u; cbn; lia.
Qed.

Lemma trend_flags_coded attendance (codes : list string) day :
  "" ∉ codes ->
  existsb (String.eqb (toUpperCase (code_or_empty attendance day))) codes
  = true
  <-> coded attendance codes day.
Proof.
  intros Hk. unfold coded.
  rewrite <- bool_decide_elem_of_strings, bool_decide_eq_true.
  destruct (toUpperCase_code_or_empty attendance day) as [E|[E1 E2]].
  - rewrite E. reflexivity.
  - rewrite E1, E2. tauto.
Qed.

Lemma length_filter_fmap {A B} (f : A -> B) (P : B -> Prop)
    `{forall y, Decision (P y)} (l : list A) :
  length (filter P (f <$> l)) = length (filter (fun x => P (f x)) l).
Proof.
  induction l as [|x l IH]; [reflexivity|].
  cbn [fmap list_fmap]. rewrite !filter_cons.
  destruct (decide (P (f x))); cbn [length]; now rewrite IH.
Qed.

Lemma trend_flag_count attendance (flag : TrendEntry -> bool)
    (codes : list string) (days : list Z) :
  "" ∉ codes ->
  (forall day,
     flag (trend_entry attendance day)
     = existsb (String.eqb (toUpperCase (code_or_empty attendance day)))
               codes) ->
  length (filter (fun e => flag e = true) (trend_entry attendance <$> days))
  = length (filter (coded attendance codes) days).
Proof.
  intros Hk Hflag. rewrite length_filter_fmap. f_equal.
  apply filter_ext_elem. intros d _. rewrite Hflag.
  now apply trend_flags_coded.
Qed.

(** X18. The flags of the trend count what the other summaries count:
    absent, leave, weekend and holiday flags add up to the monthly
    totals, and present flags to the present count of the range summary
    of the month. *)
Theorem generateAttendanceTrend_counts :
  forall (attendance : gmap Z string) (month : string) (year : Z)
         (holidays : list Z),
    getHolidaysInMonth month year = HolidayArray holidays ->
    let trend := generateAttendanceTrend attendance month year in
    let raised (flag : TrendEntry -> bool) :=
      Z.of_nat (length (filter (fun e => flag e = true) trend)) in
    exists s,
      calculateSummaries attendance month year = Ok s
      /\ raised isAbsent = totalAbsent s
      /\ raised isLeave = totalOnLeave s
      /\ raised isWeekend = totalSundays s
      /\ raised isHoliday = totalHolidays s
      /\ raised isPresent
         = Range.present
             (getDateRangeSummary attendance 1 (getDaysInMonth month year)).
Proof.
  intros attendance month year holidays Hh trend raised.
  rewrite (calculateSummaries_record _ _ _ _ Hh).
  eexists. split; [reflexivity|].
  unfold raised, trend. rewrite generateAttendanceTrend_fmap.
  rewrite getDateRangeSummary_days.
  replace (getDaysInMonth month year - 1 + 1)
    with (getDaysInMonth month year) by lia.
  cbn [totalAbsent totalOnLeave totalSundays totalHolidays Range.present
       range_of_days].
  unfold count_days.
  assert (Hne : forall codes : list string,
            Forall (fun k => truthy k = true) codes -> "" ∉ codes).
  { intros codes Hall Hin. rewrite Forall_forall in Hall.
    specialize (Hall _ Hin). discriminate. }
  repeat split; f_equal.
  - apply (trend_flag_count attendance isAbsent ["A"]);
      [apply Hne; repeat constructor|].
    intros d. cbn. now rewrite orb_false_r.
  - apply (trend_flag_count attendance isLeave ["L"]);
      [apply Hne; repeat constructor|].
    intros d. cbn. now rewrite orb_false_r.
  - apply (trend_flag_count attendance isWeekend ["S"]);
      [apply Hne; repeat constructor|].
    intros d. cbn. now rewrite orb_false_r.
  - apply (trend_flag_count attendance isHoliday ["H"]);
      [apply Hne; repeat constructor|].
    intros d. cbn. now rewrite orb_false_r.
  - apply (trend_flag_count attendance isPresent ["P"; "WFH"; "N"]);
      [apply Hne; repeat constructor|].
    intros d. reflexivity.
Qed.

Lemma generateAttendanceTrend_counts_witness :
  getHolidaysInMonth "Feb" 2023 = HolidayArray []
  /\ exists s,
       calculateSummaries stray_entries_month "Feb" 2023 = Ok s
       /\ Z.of_nat (length (filter (fun e => isAbsent e = true)
            (generateAttendanceTrend stray_entries_month "Feb" 2023)))
          = totalAbsent s.
Proof.
  split; [reflexivity|].
  destruct (generateAttendanceTrend_counts stray_entries_month "Feb" 2023 []
              eq_refl) as [s [Hs Hr]].
  exists s. split; [exact Hs|]. cbn zeta in Hr. tauto.
Defined.

(** ** Absence patterns *)

Lemma coded_A_coded (attendance : gmap Z string) (day : Z) :
  coded_A attendance (Some day) = bool_decide (coded attendance ["A"] day).
Proof.
  apply bool_eq_decide. rewrite coded_iff. unfold coded_A.
  cbn [mbind option_bind].
  destruct (attendance !! day) as [c|] eqn:E; cbn.
  - rewrite String.eqb_eq. split.
    + intros Hc. exists c. split; [reflexivity|].
      rewrite list_elem_of_singleton. split; [|assumption].
      rewrite <- truthy_toUpperCase, Hc. reflexivity.
    + intros [c' [[= <-] [_ H]]]. now apply list_elem_of_singleton in H.
  - split; [discriminate|]. intros [c' [[=] _]].
Qed.

Lemma weekday_not_monday_and_friday (w : option Z) :
  weekday_is w 1 && weekday_is w 5 = false.
Proof.
  destruct w as [w|]; [|reflexivity]. cbn.
  destruct (Z.eqb_spec w 1) as [->|]; reflexivity.
Qed.

Lemma patterns_body_step attendance year monthIndex p day :
  let p' := patterns_body attendance year monthIndex p day in
  let a := indicator (coded attendance ["A"] day) in
  mondayAbsences p <= mondayAbsences p'
  /\ fridayAbsences p <= fridayAbsences p'
  /\ afterHolidayAbsences p <= afterHolidayAbsences p'
  /\ beforeHolidayAbsences p <= beforeHolidayAbsences p'
  /\ mondayAbsences p' + fridayAbsences p'
     <= mondayAbsences p + fridayAbsences p + a
  /\ afterHolidayAbsences p' <= afterHolidayAbsences p + a
  /\ beforeHolidayAbsences p' <= beforeHolidayAbsences p + a.
Proof.
  cbn zeta. unfold patterns_body, indicator. rewrite coded_A_coded.
  case_bool_decide as HA.
  - rewrite decide_True by assumption.
    pose proof (weekday_not_monday_and_friday
                  (JSDate.getDay year monthIndex day)) as Hw.
    destruct (weekday_is _ 1), (weekday_is _ 5); try discriminate;
      destruct (coded_H_or_S attendance (day - 1)),
               (coded_H_or_S attendance (day + 1));
      cbn; repeat split; lia.
  - rewrite decide_False by assumption. repeat split; lia.
Qed.

Lemma patterns_fold attendance year monthIndex (days : list Z) p :
  let p' := foldl (patterns_body attendance year monthIndex) p days in
  let a := Z.of_nat (length (filter (coded attendance ["A"]) days)) in
  mondayAbsences p <= mondayAbsences p'
  /\ fridayAbsences p <= fridayAbsences p'
  /\ afterHolidayAbsences p <= afterHolidayAbsences p'
  /\ beforeHolidayAbsences p <= beforeHolidayAbsences p'
  /\ mondayAbsences p' + fridayAbsences p'
     <= mondayAbsences p + fridayAbsences p + a
  /\ afterHolidayAbsences p' <= afterHolidayAbsences p + a
  /\ beforeHolidayAbsences p' <= beforeHolidayAbsences p + a.
Proof.
  cbn zeta. revert p. induction days as [|d days IH]; intros p.
  - cbn. repeat split; lia.
  - cbn [foldl]. rewrite indicator_filter.
    specialize (IH (patterns_body attendance year monthIndex p d)).
    pose proof (patterns_body_step attendance year monthIndex p d) as Hs.
    cbn zeta in Hs. repeat split; lia.
Qed.

(** X19. No pattern counter is negative, Monday and Friday absences
    together do not exceed the absences of the month, and neither do the
    absences after a holiday or before one. *)
Theorem analyzeAttendancePatterns_bounds :
  forall (attendance : gmap Z string) (month : string) (year : Z)
         (holidays : list Z),
    getHolidaysInMonth month year = HolidayArray holidays ->
    exists s,
      calculateSummaries attendance month year = Ok s
      /\ let p := analyzeAttendancePatterns attendance month year in
         0 <= mondayAbsences p /\ 0 <= fridayAbsences p
         /\ 0 <= afterHolidayAbsences p /\ 0 <= beforeHolidayAbsences p
         /\ mondayAbsences p + fridayAbsences p <= totalAbsent s
         /\ afterHolidayAbsences p <= totalAbsent s
         /\ beforeHolidayAbsences p <= totalAbsent s.
Proof.
  intros attendance month year holidays Hh.
  rewrite (calculateSummaries_record _ _ _ _ Hh).
  eexists. split; [reflexivity|]. cbn zeta. cbn [totalAbsent].
  unfold analyzeAttendancePatterns, count_days, days_of_loop.
  pose proof (patterns_fold attendance year (indexOf month_names month)
                (seqZ 1 (getDaysInMonth month year)) (mkPatterns 0 0 0 0))
    as Hf.
  cbn zeta in Hf.
  cbn [mondayAbsences fridayAbsences afterHolidayAbsences
       beforeHolidayAbsences] in Hf.
  repeat split; lia.
Qed.

Lemma analyzeAttendancePatterns_bounds_witness :
  getHolidaysInMonth "Feb" 2023 = HolidayArray []
  /\ exists s,
       calculateSummaries stray_entries_month "Feb" 2023 = Ok s
       /\ afterHolidayAbsences
            (analyzeAttendancePatterns stray_entries_month "Feb" 2023)
          <= totalAbsent s.
Proof.
  split; [reflexivity|].
  destruct (analyzeAttendancePatterns_bounds stray_entries_month
              "Feb" 2023 [] eq_refl) as [s [Hs Hb]].
  exists s. split; [exact Hs|]. cbn zeta in Hb. tauto.
Defined.

(** ** Consecutive absences: totals and order *)

Lemma scan_count_pos attendance current todo :
  0 <= current ->
  Forall (fun i => 1 <= count i) (scan attendance current todo).
Proof.
  revert current. induction todo as [|day rest IH]; intros current Hc;
    rewrite ?scan_cons; [constructor|].
  destruct (coded_A attendance (Some day)); [|apply IH; lia].
  destruct (negb _).
  - constructor; [cbn; lia|apply IH; lia].
  - apply IH; lia.
Qed.

Lemma length_filter_coded_A attendance (day : Z) (rest : list Z) :
  Z.of_nat (length (filter (coded attendance ["A"]) (day :: rest)))
  = (if coded_A attendance (Some day) then 1 else 0)
    + Z.of_nat (length (filter (coded attendance ["A"]) rest)).
Proof.
  rewrite indicator_filter, coded_A_coded. unfold indicator.
  case_bool_decide; [now rewrite decide_True|now rewrite decide_False].
Qed.

Lemma scan_sum attendance (todo : list Z) (current : Z) :
  sum_counts (scan attendance current todo)
  = Z.of_nat (length (filter (coded attendance ["A"]) todo))
    + (if coded_A attendance (head todo) then current else 0).
Proof.
  revert current. induction todo as [|day rest IH]; intros current;
    [reflexivity|].
  rewrite scan_cons, length_filter_coded_A. cbn [head].
  destruct (coded_A attendance (Some day)).
  - destruct (coded_A attendance (head rest)) eqn:En; cbn [negb].
    + rewrite IH, ?En. lia.
    + unfold sum_counts. cbn [fmap list_fmap foldr count].
      fold (fmap (M := list) count (scan attendance 0 rest)).
      fold (sum_counts (scan attendance 0 rest)). rewrite IH, ?En. lia.
  - rewrite IH. destruct (coded_A attendance (head rest)); lia.
Qed.

Lemma max_count_bounds (l : list Instance) :
  Forall (fun i => 1 <= count i) l ->
  Forall (fun i => count i <= max_count l) l
  /\ 0 <= max_count l <= sum_counts l
  /\ Z.of_nat (length l) <= sum_counts l
  /\ (max_count l = 0 <-> sum_counts l = 0).
Proof.
  induction 1 as [|i l Hi Hl (IH1 & IH2 & IH3 & IH4)].
  - cbn. repeat split; try constructor; lia.
  - rewrite max_count_cons. unfold sum_counts in *.
    cbn [fmap list_fmap foldr length]. fold (fmap (M := list) count l).
    split; [|repeat split; lia].
    constructor; [lia|].
    eapply Forall_impl; [exact IH1|]. cbn. intros j Hj. lia.
Qed.

(** X20. Every key coded A is counted in exactly one instance: the counts
    of the instances add up to the number of keys coded A, each count is
    at least one and at most [maxConsecutive], and [maxConsecutive] is
    zero exactly when no key is coded A. *)
Theorem calculateConsecutiveAbsences_totals :
  forall attendance : gmap Z string,
    let r := calculateConsecutiveAbsences attendance in
    let absences :=
      Z.of_nat (length (filter (coded attendance ["A"])
                               (sorted_days attendance))) in
    sum_counts (instances r) = absences
    /\ Forall (fun i => 1 <= count i <= maxConsecutive r) (instances r)
    /\ 0 <= maxConsecutive r <= absences
    /\ 0 <= totalInstances r <= absences
    /\ (maxConsecutive r = 0 <-> absences = 0).
Proof.
  intros attendance r absences. unfold r, absences.
  rewrite calculateConsecutiveAbsences_scan.
  cbn [instances maxConsecutive totalInstances].
  pose proof (scan_sum attendance (sorted_days attendance) 0) as Hsum.
  replace (if coded_A attendance (head (sorted_days attendance))
           then 0 else 0) with 0 in Hsum by (now destruct (coded_A _ _)).
  rewrite Z.add_0_r in Hsum.
  pose proof (scan_count_pos attendance 0 (sorted_days attendance)
                (Z.le_refl 0)) as Hpos.
  destruct (max_count_bounds _ Hpos) as (H1 & H2 & H3 & H4).
  rewrite Hsum in H2, H3, H4.
  split; [exact Hsum|]. split; [|repeat split; tauto || lia].
  rewrite Forall_forall in Hpos, H1 |- *. intros i Hi.
  specialize (Hpos i Hi). specialize (H1 i Hi). lia.
Qed.

(** X21. When every key of the mapping lies in the month, the counts of
    the absence instances add up to [totalAbsent] of the summaries. *)
Theorem calculateConsecutiveAbsences_totalAbsent :
  forall (attendance : gmap Z string) (month : string) (year : Z)
         (holidays : list Z),
    getHolidaysInMonth month year = HolidayArray holidays ->
    map_Forall (fun d _ => 1 <= d <= getDaysInMonth month year) attendance ->
    exists s,
      calculateSummaries attendance month year = Ok s
      /\ sum_counts (instances (calculateConsecutiveAbsences attendance))
         = totalAbsent s.
Proof.
  intros attendance month year holidays Hh Hkeys.
  rewrite (calculateSummaries_record _ _ _ _ Hh).
  eexists. split; [reflexivity|]. cbn [totalAbsent]. unfold count_days.
  rewrite calculateConsecutiveAbsences_scan. cbn [instances].
  rewrite scan_sum.
  replace (if coded_A attendance (head (sorted_days attendance))
           then 0 else 0) with 0 by (now destruct (coded_A _ _)).
  rewrite Z.add_0_r. f_equal. apply Permutation_length.
  apply NoDup_Permutation.
  - apply NoDup_filter, sorted_days_NoDup.
  - apply NoDup_filter, NoDup_seqZ.
  - intros d. rewrite !list_elem_of_filter, elem_of_sorted_days, elem_of_seqZ.
    split; intros [Hc Hd]; (split; [exact Hc|]).
    + destruct Hd as [x Hx]. specialize (Hkeys d x Hx). cbn in Hkeys. lia.
    + apply coded_iff in Hc. destruct Hc as [c [Hc _]]. now exists c.
Qed.

Lemma calculateConsecutiveAbsences_totalAbsent_witness :
  getHolidaysInMonth "Jan" 2024 = HolidayArray [1; 26]
  /\ map_Forall (fun d _ => 1 <= d <= getDaysInMonth "Jan" 2024)
       three_absences
  /\ exists s,
       calculateSummaries three_absences "Jan" 2024 = Ok s
       /\ sum_counts (instances (calculateConsecutiveAbsences three_absences))
          = totalAbsent s.
Proof.
  assert (Hkeys : map_Forall
            (fun d _ => 1 <= d <= getDaysInMonth "Jan" 2024) three_absences).
  { intros d x Hx. unfold three_absences in Hx.
    repeat (apply lookup_insert_Some in Hx;
            destruct Hx as [[<- _]|[_ Hx]];
            [vm_compute; split; discriminate|]).
    apply lookup_singleton_Some in Hx. destruct Hx as [<- _].
    vm_compute. split; discriminate. }
  split; [reflexivity|]. split; [exact Hkeys|].
  apply (calculateConsecutiveAbsences_totalAbsent three_absences
           "Jan" 2024 [1; 26] eq_refl Hkeys).
Defined.

Lemma scan_follows attendance (todo : list Z) (current bound : Z) :
  StronglySorted Z.lt todo ->
  0 <= current ->
  (forall d, d ∈ todo -> bound + current < d) ->
  follows bound (scan attendance current todo).
Proof.
  revert current bound.
  induction todo as [|day rest IH]; intros current bound Hs Hc Hb;
    [exact I|].
  rewrite scan_cons.
  apply StronglySorted_cons in Hs. destruct Hs as [Hday Hs].
  rewrite Forall_forall in Hday.
  pose proof (Hb day (list_elem_of_here _ _)) as Hd.
  assert (Hrest0 : forall b, b <= bound + current ->
            follows b (scan attendance 0 rest)).
  { intros b Hle. apply IH; [assumption|lia|].
    intros d Hin. specialize (Hb d (list_elem_of_further _ _ _ Hin)). lia. }
  destruct (coded_A attendance (Some day)); [|apply Hrest0; lia].
  destruct (negb _).
  - cbn [follows start end_]. split; [lia|]. split; [lia|].
    apply IH; [assumption|lia|].
    intros d Hin. specialize (Hday d Hin). lia.
  - apply IH; [assumption|lia|].
    intros d Hin. specialize (Hday d Hin). lia.
Qed.

Lemma follows_ascending (bound : Z) (l : list Instance) :
  follows bound l -> ascending_ranges l.
Proof.
  revert bound. induction l as [|i l IH]; intros bound; [trivial|].
  cbn [follows ascending_ranges]. intros (_ & Hi & Hl).
  split; [exact Hi|]. split; [|exact (IH _ Hl)].
  destruct l as [|j l]; [exact I|]. cbn [follows] in Hl. tauto.
Qed.

Lemma Sorted_lt_of_le_NoDup (l : list Z) :
  Sorted Z.le l -> NoDup l -> StronglySorted Z.lt l.
Proof.
  intros Hs Hnd. apply Sorted_StronglySorted in Hs; [|apply _].
  induction l as [|x l IH]; [constructor|].
  apply StronglySorted_cons in Hs. destruct Hs as [Hx Hs].
  apply NoDup_cons in Hnd. destruct Hnd as [Hnx Hnd].
  constructor; [now apply IH|].
  rewrite Forall_forall in Hx |- *. intros y Hy.
  specialize (Hx y Hy). assert (x <> y) by (intros ->; tauto). lia.
Qed.

(** X22. The instances are reported in ascending order and never
    overlap: each has [start <= end], and each starts after the one
    before it has ended, even where a start falls on an unmarked day. *)
Theorem calculateConsecutiveAbsences_ascending :
  forall attendance : gmap Z string,
    ascending_ranges (instances (calculateConsecutiveAbsences attendance))
    /\ Forall (fun i => is_Some (attendance !! end_ i))
         (instances (calculateConsecutiveAbsences attendance)).
Proof.
  intros attendance. rewrite calculateConsecutiveAbsences_scan.
  cbn [instances]. split.
  - pose proof (Sorted_lt_of_le_NoDup _ (sorted_days_sorted attendance)
                  (sorted_days_NoDup attendance)) as Hs.
    destruct (sorted_days attendance) as [|d0 rest] eqn:E; [exact I|].
    apply (follows_ascending (d0 - 1)).
    apply scan_follows; [assumption|lia|].
    intros d Hd. apply elem_of_cons in Hd. destruct Hd as [->|Hd]; [lia|].
    apply StronglySorted_cons in Hs. destruct Hs as [Hlt _].
    rewrite Forall_forall in Hlt. specialize (Hlt d Hd). lia.
  - eapply Forall_impl; [apply scan_end_elem_of|].
    cbn. intros i Hi. now apply elem_of_sorted_days.
Qed.

(** ** The hook: deleting employees and selecting them *)

Lemma imap_renumber (k : nat) (l : list Employee) :
  slNo <$> imap (fun index emp =>
                   set_slNo emp (Z.of_nat (k + index) + 1)) l
  = seqZ (Z.of_nat k + 1) (Z.of_nat (length l))
  /\ without_slNo
       <$> imap (fun index emp =>
                   set_slNo emp (Z.of_nat (k + index) + 1)) l
     = without_slNo <$> l.
Proof.
  revert k. induction l as [|e l IH]; intros k; [now split|].
  cbn [imap length]. rewrite Nat2Z.inj_succ, seqZ_cons by lia.
  cbn [fmap list_fmap]. destruct (IH (S k)) as [IH1 IH2].
  assert (E : imap ((fun index emp =>
                       set_slNo emp (Z.of_nat (k + index) + 1)) ∘ S) l
              = imap (fun index emp =>
                        set_slNo emp (Z.of_nat (S k + index) + 1)) l).
  { apply imap_ext. intros i x _. cbn. do 2 f_equal. lia. }
  rewrite E. split.
  - cbn [slNo set_slNo]. rewrite Nat.add_0_r. f_equal.
    fold (fmap (M := list) slNo). rewrite IH1. f_equal; lia.
  - f_equal. exact IH2.
Qed.

Lemma renumber_slNo (l : list Employee) :
  slNo <$> renumber l = seqZ 1 (Z.of_nat (length l)).
Proof. exact (proj1 (imap_renumber 0 l)). Qed.

Lemma renumber_without_slNo (l : list Employee) :
  without_slNo <$> renumber l = without_slNo <$> l.
Proof. exact (proj2 (imap_renumber 0 l)). Qed.

(** A roster is determined by its serial numbers and the rest of its
    records. *)
Lemma roster_ext (l1 l2 : list Employee) :
  slNo <$> l1 = slNo <$> l2 ->
  without_slNo <$> l1 = without_slNo <$> l2 ->
  l1 = l2.
Proof.
  revert l2. induction l1 as [|e1 l1 IH]; intros [|e2 l2]; try discriminate;
    [reflexivity|].
  cbn [fmap list_fmap]. intros Hs Hw.
  assert (H1 : slNo e1 = slNo e2) by congruence.
  assert (H1' : slNo <$> l1 = slNo <$> l2) by congruence.
  assert (H2 : without_slNo e1 = without_slNo e2) by congruence.
  assert (H2' : without_slNo <$> l1 = without_slNo <$> l2) by congruence.
  f_equal; [|apply IH; assumption].
  destruct e1 as [n1 i1 m1 o1 a1 s1], e2 as [n2 i2 m2 o2 a2 s2].
  cbn in H1. unfold without_slNo, set_slNo in H2. cbn in H2. congruence.
Qed.

Lemma renumber_ext (l1 l2 : list Employee) :
  without_slNo <$> l1 = without_slNo <$> l2 -> renumber l1 = renumber l2.
Proof.
  intros H. apply roster_ext.
  - rewrite !renumber_slNo. do 2 f_equal.
    apply (f_equal length) in H. now rewrite !length_fmap in H.
  - now rewrite !renumber_without_slNo.
Qed.

Lemma filter_empId_without (P : string -> Prop) `{forall x, Decision (P x)}
    (l : list Employee) :
  without_slNo <$> filter (fun emp => P (empId emp)) l
  = filter (fun emp => P (empId emp)) (without_slNo <$> l).
Proof.
  induction l as [|e l IH]; [reflexivity|].
  cbn [fmap list_fmap]. rewrite !filter_cons.
  change (empId (without_slNo e)) with (empId e).
  destruct (decide (P (empId e))); cbn [fmap list_fmap]; now rewrite IH.
Qed.

Lemma empId_renumber (l : list Employee) :
  empId <$> renumber l = empId <$> l.
Proof.
  pose proof (renumber_without_slNo l) as H.
  apply (f_equal (fmap empId)) in H.
  rewrite <- !list_fmap_compose in H. exact H.
Qed.

(** X23. Deleting an employee removes every record with that id, keeps
    the other records in order and unchanged but for the serial number,
    numbers them 1, 2, ... without gaps, marks the state as changed, and
    leaves the selection as it was. *)
Theorem deleteEmployee_renumbers :
  forall (employeeId : string) (st : HookState),
    let st' := deleteEmployee employeeId st in
    slNo <$> employees st'
    = seqZ 1 (Z.of_nat (length (employees st')))
    /\ without_slNo <$> employees st'
       = without_slNo
           <$> filter (fun emp => empId emp <> employeeId) (employees st)
    /\ ~ In employeeId (map empId (employees st'))
    /\ hasUnsavedChanges st' = true
    /\ selectedEmployees st' = selectedEmployees st.
Proof.
  intros employeeId st st'. unfold st', deleteEmployee.
  cbn [employees hasUnsavedChanges selectedEmployees].
  split; [|split; [|split; [|split; reflexivity]]].
  - rewrite renumber_slNo. unfold renumber. now rewrite length_imap.
  - apply renumber_without_slNo.
  - intros Hin. apply list_elem_of_In in Hin.
    change (map empId) with (fmap (M := list) empId) in Hin.
    rewrite empId_renumber in Hin.
    apply list_elem_of_fmap in Hin as (e & -> & Hin).
    apply list_elem_of_filter in Hin. now destruct Hin.
Qed.

Lemma filter_all {A} (P : A -> Prop) `{forall x, Decision (P x)}
    (l : list A) :
  (forall x, x ∈ l -> P x) -> filter P l = l.
Proof.
  induction l as [|x l IH]; intros Hall; [reflexivity|].
  rewrite filter_cons.
  rewrite decide_True by apply Hall, list_elem_of_here.
  f_equal. apply IH. intros y Hy. now apply Hall, list_elem_of_further.
Qed.

Lemma filter_none {A} (P : A -> Prop) `{forall x, Decision (P x)}
    (l : list A) :
  (forall x, x ∈ l -> ~ P x) -> filter P l = [].
Proof.
  induction l as [|x l IH]; intros Hnone; [reflexivity|].
  rewrite filter_cons.
  rewrite decide_False by apply Hnone, list_elem_of_here.
  apply IH. intros y Hy. now apply Hnone, list_elem_of_further.
Qed.

(** Deleting ids one after the other keeps, serial numbers apart, the
    records whose id is none of them. *)
Lemma deleteEmployee_fold (employeeIds : list string) (st : HookState) :
  without_slNo
    <$> employees (foldl (fun s id => deleteEmployee id s) st employeeIds)
  = without_slNo
      <$> filter (fun emp => empId emp ∉ employeeIds) (employees st).
Proof.
  revert st. induction employeeIds as [|id ids IH]; intros st.
  - cbn [foldl]. f_equal. symmetry. apply filter_all.
    intros emp _. apply not_elem_of_nil.
  - cbn [foldl]. rewrite IH. unfold deleteEmployee at 1. cbn [employees].
    pose proof (filter_empId_without (fun x => x ∉ ids)) as E.
    cbv beta in E. rewrite E, renumber_without_slNo, <- E. clear E.
    f_equal. rewrite list_filter_filter.
    apply filter_ext_elem. intros emp _. rewrite not_elem_of_cons. tauto.
Qed.

(** Deletions leave a gap-free numbering behind. *)
Lemma deleteEmployee_fold_numbered (employeeIds : list string)
    (st : HookState) :
  slNo <$> employees st = seqZ 1 (Z.of_nat (length (employees st))) ->
  let st' := foldl (fun s id => deleteEmployee id s) st employeeIds in
  slNo <$> employees st' = seqZ 1 (Z.of_nat (length (employees st'))).
Proof.
  revert st. induction employeeIds as [|id ids IH]; intros st Hst;
    [exact Hst|].
  cbn [foldl]. apply IH. unfold deleteEmployee. cbn [employees].
  rewrite renumber_slNo. unfold renumber. now rewrite length_imap.
Qed.

(** X24. Deleting several employees at once leaves the roster that
    deleting them one after the other leaves: the same records in the
    same order, numbered again from 1.  With at least one id the two
    rosters are equal; with none, the bulk deletion still renumbers.  It
    also marks the state as changed and empties the selection. *)
Theorem deleteMultipleEmployees_iterates :
  forall (employeeId : string) (employeeIds : list string)
         (st : HookState),
    let one_by_one := foldl (fun s id => deleteEmployee id s) in
    employees (deleteMultipleEmployees (employeeId :: employeeIds) st)
    = employees (one_by_one st (employeeId :: employeeIds))
    /\ employees (deleteMultipleEmployees [] st) = renumber (employees st)
    /\ hasUnsavedChanges
         (deleteMultipleEmployees (employeeId :: employeeIds) st) = true
    /\ selectedEmployees
         (deleteMultipleEmployees (employeeId :: employeeIds) st) = [].
Proof.
  intros employeeId employeeIds st one_by_one.
  split; [|split; [|split; reflexivity]].
  - apply roster_ext.
    + unfold deleteMultipleEmployees. cbn [employees].
      rewrite renumber_slNo. unfold one_by_one. cbn [foldl].
      rewrite (deleteEmployee_fold_numbered employeeIds
                 (deleteEmployee employeeId st)).
      * do 2 f_equal.
        pose proof (deleteEmployee_fold (employeeId :: employeeIds) st)
          as H.
        apply (f_equal length) in H. rewrite !length_fmap in H.
        cbn [foldl] in H. now rewrite H.
      * unfold deleteEmployee. cbn [employees].
        rewrite renumber_slNo. unfold renumber. now rewrite length_imap.
    + unfold deleteMultipleEmployees. cbn [employees].
      rewrite renumber_without_slNo. unfold one_by_one.
      now rewrite deleteEmployee_fold.
  - unfold deleteMultipleEmployees. cbn [employees]. f_equal.
    apply filter_all. intros emp _. apply not_elem_of_nil.
Qed.

(** X25. Toggling an id flips its membership in the selection and that of
    no other id; the roster and the unsaved-changes flag stay as they
    were. *)
Theorem toggleEmployeeSelection_flips :
  forall (employeeId : string) (st : HookState),
    let st' := toggleEmployeeSelection employeeId st in
    (employeeId ∈ selectedEmployees st'
     <-> employeeId ∉ selectedEmployees st)
    /\ (forall id, id <> employeeId ->
          (id ∈ selectedEmployees st' <-> id ∈ selectedEmployees st))
    /\ employees st' = employees st
    /\ hasUnsavedChanges st' = hasUnsavedChanges st.
Proof.
  intros employeeId st st'. unfold st', toggleEmployeeSelection.
  cbn [selectedEmployees employees hasUnsavedChanges].
  split; [|split; [|split; reflexivity]].
  - case_bool_decide as Hin.
    + rewrite list_elem_of_filter. tauto.
    + rewrite elem_of_app, list_elem_of_singleton. tauto.
  - intros id Hne. case_bool_decide as Hin.
    + rewrite list_elem_of_filter. tauto.
    + rewrite elem_of_app, list_elem_of_singleton. tauto.
Qed.

Lemma toggleEmployeeSelection_flips_witness :
  "QR-417" <> "QR-418"
  /\ ("QR-417"
        ∈ selectedEmployees (toggleEmployeeSelection "QR-418" sample_roster)
      <-> "QR-417" ∈ selectedEmployees sample_roster).
Proof.
  assert (Hne : "QR-417" <> "QR-418") by discriminate.
  split; [exact Hne|].
  pose proof (toggleEmployeeSelection_flips "QR-418" sample_roster) as H.
  cbv zeta in H. destruct H as (_ & Hrest & _).
  exact (Hrest "QR-417" Hne).
Defined.

(** X26. On a selection without repeats, toggling keeps it without
    repeats and changes its size by exactly one: one fewer when the id
    was selected, one more when it was not. *)
Theorem toggleEmployeeSelection_size :
  forall (employeeId : string) (st : HookState),
    NoDup (selectedEmployees st) ->
    let st' := toggleEmployeeSelection employeeId st in
    NoDup (selectedEmployees st')
    /\ Z.of_nat (length (selectedEmployees st'))
       = Z.of_nat (length (selectedEmployees st))
         + (if bool_decide (employeeId ∈ selectedEmployees st)
            then -1 else 1).
Proof.
  intros employeeId st Hnd st'. unfold st', toggleEmployeeSelection.
  cbn [selectedEmployees]. case_bool_decide as Hin.
  - split; [now apply NoDup_filter|].
    induction Hnd as [|x l Hx Hnd IH]; [now apply elem_of_nil in Hin|].
    rewrite filter_cons. apply elem_of_cons in Hin as [<- | Hin].
    + rewrite decide_False by tauto.
      rewrite filter_all by (intros y Hy ->; contradiction).
      cbn [length]. lia.
    + rewrite decide_True by (intros ->; contradiction).
      cbn [length]. specialize (IH Hin). lia.
  - split.
    + apply NoDup_app. split; [exact Hnd|]. split.
      * intros x Hx Hx'. apply list_elem_of_singleton in Hx'. now subst.
      * apply NoDup_singleton.
    + rewrite length_app. cbn [length]. lia.
Qed.

Lemma toggleEmployeeSelection_size_witness :
  NoDup (selectedEmployees sample_roster)
  /\ NoDup (selectedEmployees
              (toggleEmployeeSelection "QR-418" sample_roster))
  /\ Z.of_nat
       (length (selectedEmployees
                  (toggleEmployeeSelection "QR-418" sample_roster)))
     = Z.of_nat (length (selectedEmployees sample_roster))
       + (if bool_decide ("QR-418" ∈ selectedEmployees sample_roster)
          then -1 else 1).
Proof.
  assert (H : NoDup (selectedEmployees sample_roster))
    by (apply NoDup_singleton).
  split; [exact H|].
  exact (toggleEmployeeSelection_size "QR-418" sample_roster H).
Defined.

(** X27. Selecting all employees selects the ids of the roster, in roster
    order; deleting that selection empties the roster. *)
Theorem selectAllEmployees_then_delete :
  forall st : HookState,
    let st' := selectAllEmployees st in
    selectedEmployees st' = empId <$> employees st
    /\ employees st' = employees st
    /\ employees (deleteMultipleEmployees (selectedEmployees st') st')
       = [].
Proof.
  intros st st'. unfold st', selectAllEmployees, deleteMultipleEmployees.
  cbn [selectedEmployees employees]. split; [reflexivity|].
  split; [reflexivity|].
  rewrite filter_none; [reflexivity|].
  intros emp Hemp Hout. apply Hout.
  apply list_elem_of_fmap. now exists emp.
Qed.

(** ** Employee validation *)

Lemma one_char_true (accept : ascii -> bool) (index : nat)
    (input : list ascii) (c : RegExp.State -> bool) :
  RegExp.one_char accept (index, input) c = true
  <-> exists ch rest,
        input = ch :: rest /\ accept ch = true /\ c (S index, rest) = true.
Proof.
  unfold RegExp.one_char. destruct input as [|ch rest].
  - split; [discriminate|]. now intros (? & ? & ? & _).
  - destruct (accept ch) eqn:Ech.
    + split; [intros Hc; now exists ch, rest|].
      now intros (? & ? & [= <- <-] & _ & Hc).
    + split; [discriminate|].
      intros (? & ? & [= <- <-] & Hacc & _). congruence.
Qed.

(** A quantified one-character atom takes between [min] and [max]
    accepted characters off the front of the input. *)
Lemma repeatMatcher_one_char
    (m : RegExp.State -> (RegExp.State -> bool) -> bool)
    (accept : ascii -> bool) :
  (forall x c, m x c = RegExp.one_char accept x c) ->
  forall (max min index : nat) (input : list ascii)
         (c : RegExp.State -> bool),
    (min <= max)%nat ->
    RegExp.repeatMatcher m min max (index, input) c = true
    <-> exists taken rest,
          input = (taken ++ rest)%list
          /\ (min <= length taken <= max)%nat
          /\ Forall (fun ch => accept ch = true) taken
          /\ c ((index + length taken)%nat, rest) = true.
Proof.
  intros Hm. induction max as [|max IH]; intros min index input c Hle.
  - cbn [RegExp.repeatMatcher]. split.
    + intros Hc. exists [], input. cbn [length app].
      rewrite Nat.add_0_r. repeat split; try lia; [constructor|exact Hc].
    + intros (taken & rest & -> & Hlen & _ & Hc).
      destruct taken; [|cbn in Hlen; lia].
      cbn [length app] in *. now rewrite Nat.add_0_r in Hc.
  - cbn [RegExp.repeatMatcher]. destruct min as [|min].
    + rewrite orb_true_iff, Hm, one_char_true. split.
      * intros [(ch & rest & -> & Hch & Hrest) | Hc].
        -- cbn [fst] in Hrest.
           replace (Nat.eqb (S index) index) with false in Hrest
             by (symmetry; apply Nat.eqb_neq; lia).
           apply IH in Hrest as (taken & rest' & -> & Hlen & Hall & Hc);
             [|lia].
           exists (ch :: taken), rest'. cbn [length app].
           repeat split; try lia; [now constructor|].
           now replace (index + S (length taken))%nat
             with (S index + length taken)%nat by lia.
        -- exists [], input. cbn [length app]. rewrite Nat.add_0_r.
           repeat split; try lia; [constructor|exact Hc].
      * intros (taken & rest & -> & Hlen & Hall & Hc).
        destruct taken as [|ch taken].
        -- right. cbn [length app] in *. now rewrite Nat.add_0_r in Hc.
        -- left. exists ch, (taken ++ rest)%list.
           apply Forall_cons in Hall as [Hch Hall].
           split; [reflexivity|]. split; [exact Hch|]. cbn [fst].
           replace (Nat.eqb (S index) index) with false
             by (symmetry; apply Nat.eqb_neq; lia).
           apply IH; [lia|]. exists taken, rest. cbn [length] in *.
           repeat split; try lia; [exact Hall|].
           now replace (S index + length taken)%nat
             with (index + S (length taken))%nat by lia.
    + rewrite Hm, one_char_true. split.
      * intros (ch & rest & -> & Hch & Hrest).
        apply IH in Hrest as (taken & rest' & -> & Hlen & Hall & Hc);
          [|lia].
        exists (ch :: taken), rest'. cbn [length app].
        repeat split; try lia; [now constructor|].
        now replace (index + S (length taken))%nat
          with (S index + length taken)%nat by lia.
      * intros (taken & rest & -> & Hlen & Hall & Hc).
        destruct taken as [|ch taken]; [cbn in Hlen; lia|].
        exists ch, (taken ++ rest)%list.
        apply Forall_cons in Hall as [Hch Hall].
        split; [reflexivity|]. split; [exact Hch|].
        apply IH; [cbn [length] in Hlen; lia|].
        exists taken, rest. cbn [length] in *.
        repeat split; try lia; [exact Hall|].
        now replace (S index + length taken)%nat
          with (index + S (length taken))%nat by lia.
Qed.

(** A pattern that starts with [^] can only match from index 0. *)
Lemma test_anchored (p : RegExp.Pattern) (s : string) :
  RegExp.test (RegExp.Seq RegExp.Bol p) s
  = RegExp.matcher p (O, list_ascii_of_string s) (fun _ => true).
Proof.
  unfold RegExp.test. cbn [seq existsb RegExp.matcher fst Nat.eqb drop].
  set (input := list_ascii_of_string s).
  assert (E : forall n start,
             existsb (fun lastIndex =>
                        if Nat.eqb lastIndex 0
                        then RegExp.matcher p (lastIndex, drop lastIndex input)
                               (fun _ => true)
                        else false)
                     (seq (S start) n) = false).
  { induction n as [|n IH]; intros start; [reflexivity|].
    cbn [seq existsb Nat.eqb]. apply IH. }
  rewrite E. apply orb_false_r.
Qed.

Lemma in_range_upper_case (ch : ascii) :
  RegExp.in_range "A" "Z" ch = bool_decide (ch ∈ upper_case_letters).
Proof. destruct ch as [[] [] [] [] [] [] [] []]; vm_compute; reflexivity. Qed.

Lemma in_range_digit (ch : ascii) :
  RegExp.in_range "0" "9" ch = bool_decide (ch ∈ decimal_digits).
Proof. destruct ch as [[] [] [] [] [] [] [] []]; vm_compute; reflexivity. Qed.

Lemma Forall_in_range (lo hi : ascii) (accepted l : list ascii) :
  (forall ch, RegExp.in_range lo hi ch = bool_decide (ch ∈ accepted)) ->
  Forall (fun ch => RegExp.in_range lo hi ch = true) l
  <-> Forall (fun ch => ch ∈ accepted) l.
Proof.
  intros H. apply Forall_iff. intros ch. rewrite H.
  apply bool_decide_eq_true.
Qed.

(** The pattern accepts exactly the well-formed ids. *)
Lemma test_EMP_ID_PATTERN (s : string) :
  RegExp.test EMP_ID_PATTERN s = true <-> well_formed_empId s.
Proof.
  unfold EMP_ID_PATTERN, well_formed_empId. rewrite test_anchored.
  set (input := list_ascii_of_string s).
  cbn [RegExp.matcher].
  rewrite (repeatMatcher_one_char _ (RegExp.in_range "A" "Z"))
    by (reflexivity || lia).
  split.
  - intros (letters & rest & Hin & Hlen & Hup & Hrest).
    apply one_char_true in Hrest as (ch & rest' & -> & Hch & Hrest).
    apply Ascii.eqb_eq in Hch. subst ch.
    apply (repeatMatcher_one_char _ (RegExp.in_range "0" "9")) in Hrest;
      [|reflexivity|lia].
    destruct Hrest as (digits & rest'' & -> & Hlen' & Hdig & Hend).
    cbn [snd] in Hend. destruct rest''; [|discriminate].
    rewrite app_nil_r in Hin. exists letters, digits.
    split; [exact Hin|]. split; [exact Hlen|].
    split; [now apply (Forall_in_range _ _ _ _ in_range_upper_case)|].
    split; [exact Hlen'|].
    now apply (Forall_in_range _ _ _ _ in_range_digit).
  - intros (letters & digits & Hin & Hlen & Hup & Hlen' & Hdig).
    exists letters, ("-"%char :: digits). split; [exact Hin|].
    split; [exact Hlen|].
    split; [now apply (Forall_in_range _ _ _ _ in_range_upper_case)|].
    apply one_char_true. exists "-"%char, digits.
    split; [reflexivity|]. split; [reflexivity|].
    apply (repeatMatcher_one_char _ (RegExp.in_range "0" "9"));
      [reflexivity|lia|].
    exists digits, []. rewrite app_nil_r. split; [reflexivity|].
    split; [exact Hlen'|].
    split; [now apply (Forall_in_range _ _ _ _ in_range_digit)|].
    reflexivity.
Qed.

Lemma truthy_nonempty (s : string) :
  truthy s = true <-> s <> "".
Proof.
  unfold truthy. rewrite negb_true_iff. split.
  - intros H ->. discriminate.
  - intros H. apply String.eqb_neq. exact H.
Qed.

(** X28. An employee passes validation exactly when the id is two or
    three capital letters, a hyphen and three to five digits, with
    nothing before or after, and the name has 3 to 50 characters.  The
    result is valid exactly when it lists no error, and it lists at most
    two: one about the id, one about the name. *)
Theorem validateEmployee_accepts :
  forall employee : Employee,
    let r := validateEmployee employee in
    (isValid r = true
     <-> well_formed_empId (empId employee)
         /\ 3 <= Z.of_nat (String.length (employeeName employee)) <= 50)
    /\ (isValid r = true <-> errors r = [])
    /\ (length (errors r) <= 2)%nat.
Proof.
  intros employee r. unfold r, validateEmployee. cbn [isValid errors].
  unfold MIN_NAME_LENGTH, MAX_NAME_LENGTH.
  set (n := Z.of_nat (String.length (employeeName employee))).
  assert (Hid : well_formed_empId (empId employee)
                -> truthy (empId employee) = true).
  { intros (letters & digits & Hin & _). apply truthy_nonempty.
    intros E. rewrite E in Hin. destruct letters; discriminate. }
  assert (Hname : truthy (employeeName employee) = false -> n = 0).
  { unfold truthy. rewrite negb_false_iff. intros E.
    apply String.eqb_eq in E. unfold n. now rewrite E. }
  pose proof (test_EMP_ID_PATTERN (empId employee)) as Htest.
  destruct (truthy (empId employee)) eqn:Et;
    [destruct (RegExp.test EMP_ID_PATTERN (empId employee)) eqn:Er|];
    (destruct (truthy (employeeName employee)) eqn:En;
     [destruct (Z.ltb_spec n 3); [|destruct (Z.ltb_spec 50 n)]|]);
    cbn [negb app length Nat.eqb];
    (split; [|split; [|lia]]);
    (split; intros Hx);
    try discriminate; try reflexivity;
    try (split; [now apply Htest|lia]);
    try (destruct Hx as [Hwf Hn]);
    try lia; try (specialize (Hname eq_refl); lia);
    try (apply Htest in Hwf; discriminate);
    try (apply Hid in Hwf; discriminate).
Qed.

(** ** Filtering *)

(** An employee the other criteria keep is kept by exactly one of the
    two status filters. *)
Lemma filterEmployees_callback_status (filters : Filters.t)
    (employee : Employee) :
  0 <= totalAbsent (summaries employee) ->
  let keep status :=
    filterEmployees_callback (with_status filters status) employee in
  (keep "" = false /\ keep "perfect" = false /\ keep "absent" = false)
  \/ (keep "" = true /\ keep "perfect" = true /\ keep "absent" = false)
  \/ (keep "" = true /\ keep "perfect" = false /\ keep "absent" = true).
Proof.
  intros Hemp keep. unfold keep, filterEmployees_callback, with_status.
  cbn [Filters.name Filters.empId Filters.status Filters.minPresent].
  destruct (truthy (Filters.name filters)
            && negb (string_includes (toLowerCase (employeeName employee))
                       (toLowerCase (Filters.name filters)))); [now left|].
  destruct (truthy (Filters.empId filters)
            && negb (string_includes (toLowerCase (empId employee))
                       (toLowerCase (Filters.empId filters)))); [now left|].
  change ("perfect" =? "perfect")%string with true.
  change ("perfect" =? "absent")%string with false.
  change ("absent" =? "perfect")%string with false.
  change ("absent" =? "absent")%string with true.
  change ("" =? "perfect")%string with false.
  change ("" =? "absent")%string with false.
  cbn [andb].
  destruct (negb (Qeq_bool (Filters.minPresent filters) 0)
            && negb (Qle_bool (Filters.minPresent filters)
                       (totalPresent (summaries employee)))).
  { left. now destruct (0 <? _), (_ =? 0). }
  destruct (Z.ltb_spec 0 (totalAbsent (summaries employee))),
           (Z.eqb_spec (totalAbsent (summaries employee)) 0);
    try lia; tauto.
Qed.

(** X29. With every absence count non-negative, the status filters
    [perfect] and [absent] split what the other criteria keep: each
    employee kept without a status filter is kept by exactly one of the
    two.  With no criterion at all every employee is kept. *)
Theorem filterEmployees_status_partition :
  forall (employees : list Employee) (filters : Filters.t),
    Forall (fun employee => 0 <= totalAbsent (summaries employee))
           employees ->
    (filterEmployees employees (with_status filters "perfect")
     ++ filterEmployees employees (with_status filters "absent"))%list
    ≡ₚ filterEmployees employees (with_status filters "")
    /\ filterEmployees employees Filters.none = employees.
Proof.
  intros employees filters Hall. split.
  - induction Hall as [|employee employees Hemp Hall IH]; [reflexivity|].
    unfold filterEmployees in *. cbn [List.filter].
    destruct (filterEmployees_callback_status filters employee Hemp)
      as [(-> & -> & ->) | [(-> & -> & ->) | (-> & -> & ->)]].
    + exact IH.
    + cbn [app]. now constructor.
    + rewrite <- Permutation_middle. now constructor.
  - unfold filterEmployees. clear Hall.
    induction employees as [|employee employees IH]; [reflexivity|].
    cbn [List.filter].
    change (filterEmployees_callback Filters.none employee) with true.
    now rewrite IH.
Qed.

Lemma filterEmployees_status_partition_witness :
  Forall (fun employee => 0 <= totalAbsent (summaries employee))
         sample_staff
  /\ (filterEmployees sample_staff (with_status Filters.none "perfect")
      ++ filterEmployees sample_staff (with_status Filters.none "absent"))%list
     ≡ₚ filterEmployees sample_staff (with_status Filters.none "")
  /\ filterEmployees sample_staff Filters.none = sample_staff.
Proof.
  assert (H : Forall (fun employee => 0 <= totalAbsent (summaries employee))
                     sample_staff)
    by (repeat constructor; cbn; lia).
  split; [exact H|].
  exact (filterEmployees_status_partition sample_staff Filters.none H).
Defined.

(** ** Sheet layout *)

Lemma push_day_cells (h : gmap loc (gmap Z string)) (daysInMonth : Z)
    (employee : Employee) (days : list Z) (row : list Cell) :
  foldl (fun row day =>
           if day <=? daysInMonth
           then (row ++ [Str (code_or_empty
                                (read_object h (attendance employee))
                                day)])%list
           else (row ++ [Str ""])%list)
        row days
  = (row ++ (day_cell h daysInMonth employee <$> days))%list.
Proof.
  revert row. induction days as [|day days IH]; intros row;
    cbn [foldl fmap list_fmap].
  - now rewrite app_nil_r.
  - rewrite IH. unfold day_cell at 2.
    destruct (day <=? daysInMonth); now rewrite <- app_assoc.
Qed.

(** A row is four leading cells, thirty-one day cells and ten summary
    cells. *)
Lemma employee_row_parts (h : gmap loc (gmap Z string)) (daysInMonth : Z)
    (month0 : string) (index : nat) (employee : Employee) :
  exists leading trailing : list Cell,
    employee_row h daysInMonth month0 index employee
    = (leading ++ (day_cell h daysInMonth employee <$> seqZ 1 31)
         ++ trailing)%list
    /\ length leading = 4%nat
    /\ trailing
       = (let s := summaries employee in
          [ or_zero_Q (totalPresent s); or_zero (totalOff s);
            or_zero (totalSundays s); or_zero (totalHolidays s);
            or_zero (totalNightShift s); or_zero (totalHolyDayWorking s);
            or_zero (totalOffDayWorking s); or_zero (totalAbsent s);
            or_zero (totalOnLeave s); or_zero (totalWorkingDays s) ]).
Proof.
  eexists _, _. unfold employee_row, days_of_loop.
  rewrite push_day_cells, <- app_assoc.
  split; [reflexivity|]. split; reflexivity.
Qed.

Lemma day_column (A : Type) (leading trailing : list A) (f : Z -> A)
    (day : Z) :
  length leading = 4%nat -> 1 <= day <= 31 ->
  (leading ++ (f <$> seqZ 1 31) ++ trailing)%list !! Z.to_nat (day + 3)
  = Some (f day).
Proof.
  intros Hlen Hday.
  rewrite lookup_app_r by (rewrite Hlen; lia).
  rewrite Hlen.
  replace (Z.to_nat (day + 3) - 4)%nat with (Z.to_nat (day - 1)) by lia.
  rewrite lookup_app_l by (rewrite length_fmap, length_seqZ; lia).
  rewrite list_lookup_fmap, lookup_seqZ_lt by lia.
  cbn [fmap option_fmap option_map]. do 2 f_equal. lia.
Qed.

(** X30. The exported sheet has the header row, an empty row, and one row
    per employee in roster order.  The header and every employee row have
    45 cells.  Column [day + 3] is the column of day [day]: the header
    holds the day number there, a row holds the stored code, or the empty
    string when nothing is stored or the day is past the end of the
    month.  The ten summary cells start at column 35. *)
Theorem prepareExcelData_layout :
  forall (h : gmap loc (gmap Z string)) (employees : list Employee)
         (month0 : string) (year : Z),
    let data := prepareExcelData h employees month0 year in
    length data = (2 + length employees)%nat
    /\ data !! 0%nat = Some headers
    /\ data !! 1%nat = Some []
    /\ length headers = 45%nat
    /\ (forall day, 1 <= day <= 31 ->
          headers !! Z.to_nat (day + 3) = Some (Num (inject_Z day)))
    /\ forall (index : nat) (employee : Employee),
         employees !! index = Some employee ->
         exists row,
           data !! (index + 2)%nat = Some row
           /\ length row = 45%nat
           /\ (forall day, 1 <= day <= 31 ->
                 row !! Z.to_nat (day + 3)
                 = Some (day_cell h (getDaysInMonth month0 year)
                                  employee day))
           /\ drop 35 row
              = (let s := summaries employee in
                 [ or_zero_Q (totalPresent s); or_zero (totalOff s);
                   or_zero (totalSundays s); or_zero (totalHolidays s);
                   or_zero (totalNightShift s);
                   or_zero (totalHolyDayWorking s);
                   or_zero (totalOffDayWorking s);
                   or_zero (totalAbsent s); or_zero (totalOnLeave s);
                   or_zero (totalWorkingDays s) ]).
Proof.
  intros h employees month0 year data. unfold data, prepareExcelData.
  split; [cbn [length app]; now rewrite length_imap|].
  split; [reflexivity|]. split; [reflexivity|].
  split; [reflexivity|]. split.
  - intros day Hday. unfold headers.
    rewrite (day_column _ _ _ (fun d => Num (inject_Z d))).
    + reflexivity.
    + reflexivity.
    + exact Hday.
  - intros index employee Hemp.
    exists (employee_row h (getDaysInMonth month0 year) month0 index
                         employee).
    split.
    { rewrite lookup_app_r by (cbn [length]; lia). cbn [length].
      replace (index + 2 - 2)%nat with index by lia.
      rewrite list_lookup_imap, Hemp. reflexivity. }
    destruct (employee_row_parts h (getDaysInMonth month0 year) month0
                index employee) as (leading & trailing & -> & Hlen & ->).
    split; [|split].
    + rewrite !length_app, length_fmap, length_seqZ, Hlen.
      cbn [length]. lia.
    + intros day Hday. now apply day_column.
    + rewrite drop_app_ge by lia. rewrite Hlen.
      rewrite drop_app_ge by (rewrite length_fmap, length_seqZ; lia).
      rewrite length_fmap, length_seqZ. reflexivity.
Qed.

Lemma prepareExcelData_layout_witness :
  1 <= 14 <= 31
  /\ sample_staff !! 0%nat
     = Some (mkEmployee 1 "QR-417" "Asha Rao" "Jan" 1%positive
                        (sample_summaries 0))
  /\ headers !! Z.to_nat (14 + 3) = Some (Num (inject_Z 14))
  /\ exists row,
       prepareExcelData blank_sunday_store sample_staff "Jan" 2024
         !! (0 + 2)%nat = Some row
       /\ length row = 45%nat
       /\ row !! Z.to_nat (14 + 3) = Some (Str "P").
Proof.
  assert (Hday : 1 <= 14 <= 31) by lia.
  pose proof (prepareExcelData_layout blank_sunday_store sample_staff
                "Jan" 2024) as H.
  cbv zeta in H. destruct H as (_ & _ & _ & _ & Hhead & Hrow).
  split; [exact Hday|]. split; [reflexivity|].
  split; [exact (Hhead 14 Hday)|].
  destruct (Hrow 0%nat _ eq_refl) as (row & Hat & Hlen & Hcell & _).
  exists row. split; [exact Hat|]. split; [exact Hlen|].
  rewrite (Hcell 14 Hday). reflexivity.
Defined.
